(** * NetBox connector: a shallow embedding of the API client, the bulk
    exporter helpers and the enrichment command, with the properties of
    the specification stated over them.

    Source files embedded here:
    - [netbox_client.py]: [NetBoxAPIError], [NetBoxClient] with [_request],
      [iter_resource], [get_first], [get_by_id];
    - [netbox_inventory.py]: [ISO_FORMATS], [_parse_json], [_guess_event_time];
    - [netbox_lookup_command.py]: [_parse_fields], [_get_client],
      [_base_filters], [stream].

    Conventions.  A Python [str] is a [string] whose characters are code
    points below 256.  A Python [dict] with string keys is an association
    list in insertion order whose keys are pairwise distinct.  Python
    [None] is [JNull].  A Python [float] is kept as its canonical [repr]
    text.  Exceptions are values of [exn]; a fallible function returns
    [exn + A], a function with effects on the HTTP session threads a
    [World]. *)

From Stdlib Require Import ZArith List String Ascii Bool Arith Lia DecimalString.
Import ListNotations.

Set Warnings "-register-all".

Local Open Scope list_scope.
Local Open Scope string_scope.

(* ================================================================== *)
(** * Python values *)
(* ================================================================== *)

Module Py.

(** ** Strings *)

(** The double quote character. *)
Definition dq : ascii := "034"%char.
(** The backslash character. *)
Definition bs : ascii := "092"%char.

(** [str.isspace] on one character, for code points below 256. *)
Definition is_space (c : ascii) : bool :=
  let n := nat_of_ascii c in
  (((9 <=? n) && (n <=? 13)) || ((28 <=? n) && (n <=? 32))
   || (n =? 133) || (n =? 160))%nat.

Fixpoint lstrip_by (p : ascii -> bool) (s : string) : string :=
  match s with
  | EmptyString => EmptyString
  | String c s' => if p c then lstrip_by p s' else s
  end.

Fixpoint rstrip_by (p : ascii -> bool) (s : string) : string :=
  match s with
  | EmptyString => EmptyString
  | String c s' =>
      match rstrip_by p s' with
      | EmptyString => if p c then EmptyString else String c EmptyString
      | t => String c t
      end
  end.

(** [s.strip()] *)
Definition strip (s : string) : string :=
  rstrip_by is_space (lstrip_by is_space s).

Definition is_slash (c : ascii) : bool := Ascii.eqb c "/"%char.

(** [s.lstrip('/')] and [s.rstrip('/')] *)
Definition lstrip_slash (s : string) : string := lstrip_by is_slash s.
Definition rstrip_slash (s : string) : string := rstrip_by is_slash s.

(** [s.endswith('/')] *)
Fixpoint ends_with_slash (s : string) : bool :=
  match s with
  | EmptyString => false
  | String c EmptyString => is_slash c
  | String _ s' => ends_with_slash s'
  end.

(** Every character of [s] is white space. *)
Fixpoint whitespace_only (s : string) : bool :=
  match s with
  | EmptyString => true
  | String c s' => is_space c && whitespace_only s'
  end.

(** [s.lower()] on one character, for code points below 256. *)
Definition lower_char (c : ascii) : ascii :=
  let n := nat_of_ascii c in
  if (((65 <=? n) && (n <=? 90))
      || ((192 <=? n) && (n <=? 222) && negb (n =? 215)))%nat
  then ascii_of_nat (n + 32) else c.

Fixpoint lower (s : string) : string :=
  match s with
  | EmptyString => EmptyString
  | String c s' => String (lower_char c) (lower s')
  end.

Fixpoint join (sep : string) (l : list string) : string :=
  match l with
  | [] => EmptyString
  | [x] => x
  | x :: rest => x ++ sep ++ join sep rest
  end.

(** [s.split(c)] for a one-character separator: never an empty list. *)
Fixpoint split_on (c : ascii) (s : string) : list string :=
  match s with
  | EmptyString => [EmptyString]
  | String a s' =>
      if Ascii.eqb a c then EmptyString :: split_on c s'
      else match split_on c s' with
           | [] => [String a EmptyString]
           | w :: ws => String a w :: ws
           end
  end.

Fixpoint contains_char (c : ascii) (s : string) : bool :=
  match s with
  | EmptyString => false
  | String a s' => Ascii.eqb a c || contains_char c s'
  end.

Definition hex_digit (n : nat) : ascii :=
  ascii_of_nat (if (n <? 10)%nat then 48 + n else 87 + n).

Definition hex2 (n : nat) : string :=
  String (hex_digit (n / 16)) (String (hex_digit (n mod 16)) EmptyString).

(** [str(n)] for an [int]. *)
Definition str_of_Z (n : Z) : string := NilZero.string_of_int (Z.to_int n).

(** ** Dictionaries keyed by strings, in insertion order *)

Definition dict (V : Type) : Type := list (string * V).

Fixpoint dict_get {V : Type} (k : string) (d : dict V) : option V :=
  match d with
  | [] => None
  | (k', v) :: d' => if String.eqb k k' then Some v else dict_get k d'
  end.

(** [k in d] *)
Definition dict_mem {V : Type} (k : string) (d : dict V) : bool :=
  match dict_get k d with Some _ => true | None => false end.

(** [d[k] = v]: an existing key keeps its place, a new key goes last. *)
Fixpoint dict_set {V : Type} (k : string) (v : V) (d : dict V) : dict V :=
  match d with
  | [] => [(k, v)]
  | (k', v') :: d' =>
      if String.eqb k k' then (k', v) :: d' else (k', v') :: dict_set k v d'
  end.

(** [d.setdefault(k, v)], as a statement. *)
Definition dict_setdefault {V : Type} (k : string) (v : V) (d : dict V) : dict V :=
  if dict_mem k d then d else dict_set k v d.

Definition keys {V : Type} (d : dict V) : list string := map fst d.

(** The invariant of a Python dictionary. *)
Definition dict_wf {V : Type} (d : dict V) : Prop := NoDup (keys d).

(** ** JSON-compatible values *)

Inductive json : Type :=
| JNull
| JBool (b : bool)
| JInt (n : Z)
| JFloat (repr : string)
| JStr (s : string)
| JList (l : list json)
| JObj (m : list (string * json)).

(** Truth value of an object: [bool(v)]. *)
Definition py_truthy (v : json) : bool :=
  match v with
  | JNull => false
  | JBool b => b
  | JInt n => negb (n =? 0)%Z
  | JFloat r => negb (String.eqb r "0.0" || String.eqb r "-0.0")
  | JStr s => negb (String.eqb s EmptyString)
  | JList l => match l with [] => false | _ => true end
  | JObj m => match m with [] => false | _ => true end
  end.

(** [a or b] *)
Definition py_or (a b : json) : json := if py_truthy a then a else b.

(** [d.get(k)] on a dictionary of values: [None] when the key is absent. *)
Definition get (k : string) (d : dict json) : json :=
  match dict_get k d with Some v => v | None => JNull end.

(** [str.isprintable] on one code point below 256. *)
Definition printable (n : nat) : bool :=
  (((32 <=? n) && (n <? 127)) || ((161 <=? n) && negb (n =? 173)))%nat.

(** [repr(s)] for a string: single quotes unless the text holds a single
    quote and no double quote. *)
Definition repr_quote (s : string) : ascii :=
  if contains_char "'"%char s && negb (contains_char dq s) then dq else "'"%char.

Fixpoint repr_body (q : ascii) (s : string) : string :=
  match s with
  | EmptyString => EmptyString
  | String c s' =>
      let n := nat_of_ascii c in
      (if Ascii.eqb c q || Ascii.eqb c bs then String bs (String c EmptyString)
       else if (n =? 9)%nat then String bs "t"
       else if (n =? 10)%nat then String bs "n"
       else if (n =? 13)%nat then String bs "r"
       else if printable n then String c EmptyString
       else String bs ("x" ++ hex2 n))
      ++ repr_body q s'
  end.

Definition repr_str (s : string) : string :=
  let q := repr_quote s in
  String q (repr_body q s ++ String q EmptyString).

(** [repr(v)] *)
Fixpoint py_repr (v : json) : string :=
  match v with
  | JNull => "None"
  | JBool true => "True"
  | JBool false => "False"
  | JInt n => str_of_Z n
  | JFloat r => r
  | JStr s => repr_str s
  | JList l => "[" ++ join ", " (map py_repr l) ++ "]"
  | JObj m =>
      "{" ++ join ", " (map (fun '(k, x) => repr_str k ++ ": " ++ py_repr x) m)
          ++ "}"
  end.

(** [str(v)] *)
Definition py_str (v : json) : string :=
  match v with
  | JStr s => s
  | _ => py_repr v
  end.

(** ** [json.dumps] with the default separators *)

(** One character of a JSON string literal.  With [ensure_ascii] every
    character outside the range from space to tilde is escaped, without it
    only the quote, the backslash and the control characters below 32. *)
Definition dumps_char (ensure_ascii : bool) (c : ascii) : string :=
  let n := nat_of_ascii c in
  if Ascii.eqb c dq then String bs (String dq EmptyString)
  else if Ascii.eqb c bs then String bs (String bs EmptyString)
  else if (n =? 8)%nat then String bs "b"
  else if (n =? 12)%nat then String bs "f"
  else if (n =? 10)%nat then String bs "n"
  else if (n =? 13)%nat then String bs "r"
  else if (n =? 9)%nat then String bs "t"
  else if (n <? 32)%nat || (ensure_ascii && (126 <? n)%nat)
       then String bs ("u00" ++ hex2 n)
  else String c EmptyString.

Fixpoint dumps_chars (ensure_ascii : bool) (s : string) : string :=
  match s with
  | EmptyString => EmptyString
  | String c s' => dumps_char ensure_ascii c ++ dumps_chars ensure_ascii s'
  end.

Definition dumps_str (ensure_ascii : bool) (s : string) : string :=
  String dq (dumps_chars ensure_ascii s ++ String dq EmptyString).

Definition dumps_float (r : string) : string :=
  if String.eqb r "nan" then "NaN"
  else if String.eqb r "inf" then "Infinity"
  else if String.eqb r "-inf" then "-Infinity"
  else r.

Fixpoint json_dumps (ensure_ascii : bool) (v : json) : string :=
  match v with
  | JNull => "null"
  | JBool true => "true"
  | JBool false => "false"
  | JInt n => str_of_Z n
  | JFloat r => dumps_float r
  | JStr s => dumps_str ensure_ascii s
  | JList l => "[" ++ join ", " (map (json_dumps ensure_ascii) l) ++ "]"
  | JObj m =>
      "{" ++ join ", "
               (map (fun '(k, x) =>
                       dumps_str ensure_ascii k ++ ": " ++ json_dumps ensure_ascii x) m)
          ++ "}"
  end.

End Py.

Import Py.

(* ================================================================== *)
(** * netbox_client.py *)
(* ================================================================== *)

Module Client.

(** ** Exceptions *)

Inductive exn : Type :=
| ApiError (message : string) (status : option Z) (payload : json)
| ValueError (message : string)
| AttributeError (message : string)
| TypeError (message : string)
| TransportFailure (message : string).

(** [NetBoxAPIError.__init__]: [self.payload = payload or {}]. *)
Definition NetBoxAPIError (message : string) (status : option Z) (payload : json)
  : exn :=
  ApiError message status (py_or payload (JObj [])).

(** ** The HTTP session *)

(** What the code reads of a [requests.Response]: [status_code], [text], and
    the outcome of [json()], [None] when it raises [ValueError]. *)
Record Response : Type := {
  status_code : Z;
  text : string;
  json_body : option json
}.

(** [response.ok]: [raise_for_status] raises for 400 to 599. *)
Definition ok (r : Response) : bool :=
  negb ((400 <=? status_code r)%Z && (status_code r <? 600)%Z).

(** [urljoin(base, rel)], kept symbolic. *)
Inductive Url : Type := urljoin (base rel : string).

Record Request : Type := {
  req_method : string;
  req_url : Url;
  req_params : option (dict string);
  req_timeout : Z;
  req_verify : bool
}.

(** The session either raises or returns a response. *)
Definition Reply : Type := (exn + Response)%type.

(** The server side of one session: the replies it will give, in order,
    and the requests received so far. *)
Record World : Type := {
  pending : list Reply;
  sent : list Request
}.

(** [self._session.request(...)]: a request beyond the scripted replies is
    a transport failure. *)
Definition session_request (rq : Request) (w : World) : Reply * World :=
  match pending w with
  | [] => (inl (TransportFailure "no reply"),
           {| pending := []; sent := (sent w ++ [rq])%list |})
  | reply :: rest => (reply, {| pending := rest; sent := (sent w ++ [rq])%list |})
  end.

(** ** NetBoxClient *)

Record NetBoxClient : Type := {
  base_url : string;
  token : option string;
  verify : bool;
  timeout : Z
}.

(** The dataclass constructor followed by [__post_init__]. *)
Definition NetBoxClient_init (url : string) (tok : option string)
    (vfy : bool) (tmo : Z) : exn + NetBoxClient :=
  if String.eqb url EmptyString
  then inl (ValueError "NetBox base URL must be provided")
  else inr {| base_url := if ends_with_slash url then url else url ++ "/";
              token := tok; verify := vfy; timeout := tmo |}.

(** [_request]: [path] is whatever the caller passes; only a string has
    [lstrip]. *)
Definition _request (self : NetBoxClient) (method : string) (path : json)
    (params : option (dict string)) (w : World) : (exn + Response) * World :=
  match path with
  | JStr p =>
      let url := urljoin (base_url self) (lstrip_slash p) in
      let (reply, w') :=
        session_request {| req_method := method; req_url := url;
                           req_params := params;
                           req_timeout := timeout self;
                           req_verify := verify self |} w in
      match reply with
      | inl e => (inl e, w')
      | inr response =>
          if negb (ok response) then
            let payload :=
              match json_body response with
              | Some body => body
              | None => JNull
              end in
            (inl (NetBoxAPIError
                    ("NetBox API request failed with status "
                       ++ str_of_Z (status_code response))
                    (Some (status_code response)) payload), w')
          else (inr response, w')
      end
  | _ => (inl (AttributeError "lstrip"), w)
  end.

(** ** The generator [iter_resource] *)

(** Where the generator is suspended. *)
Inductive Suspended : Type :=
| AtStart
| AtResults (rest : list json) (data : dict json)
| AtList (rest : list json)
| AtObject
| Finished.

(** The generator object: its frame and its suspension point. *)
Record Generator : Type := {
  gen_self : NetBoxClient;
  gen_resource : string;
  gen_params : option (dict string);
  gen_at : Suspended
}.

Inductive GenResult : Type :=
| Yield (item : json)
| StopIteration
| Raise (e : exn).

(** [iter(v)] for a [for] loop, all at once. *)
Fixpoint chars (s : string) : list json :=
  match s with
  | EmptyString => []
  | String c s' => JStr (String c EmptyString) :: chars s'
  end.

Definition py_iter (v : json) : exn + list json :=
  match v with
  | JList l => inr l
  | JStr s => inr (chars s)
  | JObj m => inr (map JStr (keys m))
  | _ => inl (TypeError "object is not iterable")
  end.

Definition suspend (g : Generator) (at_ : Suspended) : Generator :=
  {| gen_self := gen_self g; gen_resource := gen_resource g;
     gen_params := gen_params g; gen_at := at_ |}.

Section Loop.

Variable g : Generator.

(** The continuation of the [while] loop: its next iteration. *)
Variable again : json -> option (dict string) -> World
                 -> option (GenResult * Generator * World).

(** Lines 74 to 77, after the [for] over [results]. *)
Definition after_results (data : dict json) (w : World)
  : option (GenResult * Generator * World) :=
  let next_url := get "next" data in
  if negb (py_truthy next_url) then Some (StopIteration, suspend g Finished, w)
  else again next_url None w.

(** Lines 72 and 73, from the items not yet yielded. *)
Definition for_results (items : list json) (data : dict json) (w : World)
  : option (GenResult * Generator * World) :=
  match items with
  | item :: rest => Some (Yield item, suspend g (AtResults rest data), w)
  | [] => after_results data w
  end.

(** Lines 79 to 81. *)
Definition for_list (items : list json) (w : World)
  : option (GenResult * Generator * World) :=
  match items with
  | item :: rest => Some (Yield item, suspend g (AtList rest), w)
  | [] => Some (StopIteration, suspend g Finished, w)
  end.

(** One iteration of [while True], lines 65 to 90. *)
Definition loop_body (next_url : json) (current_params : option (dict string))
    (w : World) : option (GenResult * Generator * World) :=
  let (r, w1) :=
    _request (gen_self g) "GET" (py_or next_url (JStr (gen_resource g)))
             (if negb (py_truthy next_url) then current_params else None) w in
  match r with
  | inl e => Some (Raise e, suspend g Finished, w1)
  | inr response =>
      match json_body response with
      | None =>
          Some (Raise (NetBoxAPIError "NetBox API returned non JSON response"
                         None (JObj [("raw", JStr (text response))])),
                suspend g Finished, w1)
      | Some (JObj data) =>
          if dict_mem "results" data && dict_mem "next" data then
            match py_iter (get "results" data) with
            | inl e => Some (Raise e, suspend g Finished, w1)
            | inr items => for_results items data w1
            end
          else Some (Yield (JObj data), suspend g AtObject, w1)
      | Some (JList items) => for_list items w1
      | Some data =>
          Some (Raise (NetBoxAPIError "Unexpected response structure from NetBox"
                         None (JObj [("raw", JStr (json_dumps true data))])),
                suspend g Finished, w1)
      end
  end.

End Loop.

(** The loop [while True].  Every iteration that goes on has taken one
    reply, so [fuel] above the number of pending replies is never used up;
    [None] is the end of [fuel]. *)
Fixpoint iter_loop (fuel : nat) (g : Generator) (next_url : json)
    (current_params : option (dict string)) (w : World)
  : option (GenResult * Generator * World) :=
  match fuel with
  | O => None
  | S fuel' => loop_body g (iter_loop fuel' g) next_url current_params w
  end.

(** [iter_resource(resource, params)]: calling a generator function runs
    none of its body. *)
Definition iter_resource (self : NetBoxClient) (resource : string)
    (params : option (dict string)) : Generator :=
  {| gen_self := self; gen_resource := resource; gen_params := params;
     gen_at := AtStart |}.

(** [next(g)]: run the generator to its next [yield], to its end or to an
    exception. *)
Definition next (g : Generator) (w : World) : GenResult * Generator * World :=
  let fuel := S (List.length (pending w)) in
  let run r :=
    match r with
    | Some x => x
    | None => (Raise (TransportFailure "fuel"), suspend g Finished, w)
    end in
  match gen_at g with
  | AtStart =>
      run (iter_loop fuel g JNull
             (Some (match gen_params g with Some p => p | None => [] end)) w)
  | AtResults rest data => run (for_results g (iter_loop fuel g) rest data w)
  | AtList rest => run (for_list g rest w)
  | AtObject => (StopIteration, suspend g Finished, w)
  | Finished => (StopIteration, g, w)
  end.

(** How a consumed generator ended. *)
Inductive Ending : Type :=
| Exhausted
| Failed (e : exn).

(** [for item in g], to the end: the items, how the generator ended and the
    world after it; [None] is the end of [fuel]. *)
Fixpoint drain (fuel : nat) (g : Generator) (w : World)
  : option (list json * Ending * World) :=
  match fuel with
  | O => None
  | S fuel' =>
      match next g w with
      | (Yield item, g', w') =>
          match drain fuel' g' w' with
          | Some (items, e, w'') => Some (item :: items, e, w'')
          | None => None
          end
      | (StopIteration, _, w') => Some ([], Exhausted, w')
      | (Raise e, _, w') => Some ([], Failed e, w')
      end
  end.

(** [get_first]: the generator is dropped after its first item. *)
Definition get_first (self : NetBoxClient) (resource : string)
    (params : option (dict string)) (w : World) : (exn + json) * World :=
  match next (iter_resource self resource params) w with
  | (Yield item, _, w') => (inr item, w')
  | (StopIteration, _, w') => (inr JNull, w')
  | (Raise e, _, w') => (inl e, w')
  end.

(** [get_by_id] *)
Definition get_by_id (self : NetBoxClient) (resource : string)
    (object_id : json) (w : World) : (exn + json) * World :=
  let (r, w') :=
    _request self "GET"
      (JStr (rstrip_slash resource ++ "/" ++ py_str object_id ++ "/")) None w in
  match r with
  | inl (ApiError message status payload) =>
      if match status with Some n => (n =? 404)%Z | None => false end
      then (inr JNull, w')
      else (inl (ApiError message status payload), w')
  | inl e => (inl e, w')
  | inr response =>
      match json_body response with
      | Some body => (inr body, w')
      | None =>
          (inl (NetBoxAPIError "NetBox API returned non JSON response" None
                  (JObj [("raw", JStr (text response))])), w')
      end
  end.

End Client.

Import Client.

(* ================================================================== *)
(** * netbox_inventory.py *)
(* ================================================================== *)

Module Inventory.

Definition ISO_FORMATS : list string :=
  ["%Y-%m-%dT%H:%M:%S.%f%z"; "%Y-%m-%dT%H:%M:%S%z"].

(** [{str(k): str(v) for k, v in data.items()}] *)
Definition stringify_items (data : dict json) : dict string :=
  fold_left (fun acc '(k, v) => dict_set (py_str (JStr k)) (py_str v) acc)
            data [].

Section Decoder.

(** [json.loads]: [None] when it raises [JSONDecodeError]. *)
Variable json_loads : string -> option json.

Definition _parse_json (value : option string) : exn + dict string :=
  match value with
  | None => inr []
  | Some value =>
      if String.eqb value EmptyString then inr []
      else
        let value := strip value in
        if String.eqb value EmptyString then inr []
        else
          match json_loads value with
          | None =>
              inl (ValueError "Failed to parse JSON payload for query parameters")
          | Some (JObj data) => inr (stringify_items data)
          | Some _ =>
              inl (ValueError "Query parameters must be provided as a JSON object")
          end
  end.

End Decoder.

Section Clock.

(** [datetime.strptime(text, fmt)], [None] when it raises [ValueError], and
    [dt.timestamp()]. *)
Variables datetime time : Type.
Variable strptime : string -> string -> option datetime.
Variable timestamp : datetime -> time.

(** The inner loop, lines 43 to 48. *)
Fixpoint try_formats (text : string) (fmts : list string) : option time :=
  match fmts with
  | [] => None
  | fmt :: rest =>
      match strptime text fmt with
      | Some dt => Some (timestamp dt)
      | None => try_formats text rest
      end
  end.

(** The outer loop, lines 38 to 48. *)
Fixpoint scan_keys (payload : dict json) (ks : list string) : option time :=
  match ks with
  | [] => None
  | key :: rest =>
      match get key payload with
      | JStr value =>
          match try_formats (strip value) ISO_FORMATS with
          | Some t => Some t
          | None => scan_keys payload rest
          end
      | _ => scan_keys payload rest
      end
  end.

Definition _guess_event_time (payload : dict json) : option time :=
  scan_keys payload ["last_updated"; "last_update"; "created"].

End Clock.

End Inventory.

(* ================================================================== *)
(** * netbox_lookup_command.py *)
(* ================================================================== *)

Module Lookup.

Definition _parse_fields (value : option string) : option (list string) :=
  match value with
  | None => None
  | Some value =>
      if String.eqb value EmptyString then None
      else
        let parts :=
          filter (fun part => negb (String.eqb part EmptyString))
                 (map strip (split_on ","%char value)) in
        match parts with
        | [] => None
        | _ => Some parts
        end
  end.

(** The options of the command. *)
Record NetBoxLookupCommand : Type := {
  netbox_url : string;
  token : option string;
  resource : string;
  match_field : string;
  netbox_field : string;
  fields : option string;
  verify_ssl : string;
  timeout : string;
  query : option string
}.

(** [int(s)] for a string in base ten: white space around, one sign, digits
    with single underscores between them. *)
Definition is_digit (c : ascii) : bool :=
  let n := nat_of_ascii c in ((48 <=? n) && (n <=? 57))%nat.

Fixpoint digits_value (acc : Z) (after_digit : bool) (s : string) : option Z :=
  match s with
  | EmptyString => if after_digit then Some acc else None
  | String c s' =>
      if is_digit c
      then digits_value (10 * acc + Z.of_nat (nat_of_ascii c - 48)) true s'
      else if Ascii.eqb c "_"%char && after_digit then digits_value acc false s'
      else None
  end.

Definition py_int (s : string) : option Z :=
  match strip s with
  | String "+"%char r => digits_value 0 false r
  | String "-"%char r => option_map Z.opp (digits_value 0 false r)
  | t => digits_value 0 false t
  end.

Definition _get_client (self : NetBoxLookupCommand) : exn + NetBoxClient :=
  let verify_ssl :=
    existsb (String.eqb (lower (strip (verify_ssl self))))
            ["1"; "true"; "yes"; "on"] in
  match py_int (timeout self) with
  | None => inl (ValueError "invalid literal for int() with base 10")
  | Some timeout_seconds =>
      NetBoxClient_init (netbox_url self)
        (match token self with
         | Some t => if String.eqb t EmptyString then None else Some t
         | None => None
         end)
        verify_ssl timeout_seconds
  end.

(** Lines 68 to 77 for one record: what the loop yields for [record] once
    [payload] is known.  [payload.get] exists on a mapping only. *)
Fixpoint project (field_list : list string) (payload : json)
    (record : dict json) : exn + dict json :=
  match field_list with
  | [] => inr record
  | field :: rest =>
      match payload with
      | JObj m => project rest payload (dict_set ("netbox_" ++ field) (get field m) record)
      | _ => inl (AttributeError "get")
      end
  end.

Definition enrich (field_list : list string) (payload : json)
    (record : dict json) : exn + dict json :=
  if negb (py_truthy payload) then inr record
  else
    match field_list with
    | _ :: _ => project field_list payload record
    | [] => inr (dict_setdefault "netbox" (JStr (json_dumps false payload)) record)
    end.

(** Lines 62 to 65: fill the cache on a miss. *)
Definition lookup (self : NetBoxLookupCommand) (client : NetBoxClient)
    (base_filters : dict string) (cache_key : string) (cache : dict json)
    (w : World) : (exn + dict json) * World :=
  if dict_mem cache_key cache then (inr cache, w)
  else
    let params := dict_set (netbox_field self) cache_key base_filters in
    match get_first client (resource self) (Some params) w with
    | (inl e, w') => (inl e, w')
    | (inr item, w') => (inr (dict_set cache_key item cache), w')
    end.

(** What a run of [stream] leaves: the records yielded, the exception that
    ended it if any, the cache and the session. *)
Record Run : Type := {
  outputs : list (dict json);
  error : option exn;
  cache : dict json;
  world : World
}.

Definition emit (record : dict json) (r : Run) : Run :=
  {| outputs := record :: outputs r; error := error r;
     cache := cache r; world := world r |}.

(** The [for] loop of [stream], lines 55 to 77. *)
Fixpoint stream_loop (self : NetBoxLookupCommand) (client : NetBoxClient)
    (base_filters : dict string) (field_list : list string)
    (records : list (dict json)) (cache0 : dict json) (w : World) : Run :=
  match records with
  | [] => {| outputs := []; error := None; cache := cache0; world := w |}
  | record :: rest =>
      let value := get (match_field self) record in
      if negb (py_truthy value)
      then emit record (stream_loop self client base_filters field_list rest cache0 w)
      else
        let cache_key := py_str value in
        match lookup self client base_filters cache_key cache0 w with
        | (inl e, w') =>
            {| outputs := []; error := Some e; cache := cache0; world := w' |}
        | (inr cache1, w') =>
            let payload := get cache_key cache1 in
            match enrich field_list payload record with
            | inl e =>
                {| outputs := []; error := Some e; cache := cache1; world := w' |}
            | inr record' =>
                emit record'
                  (stream_loop self client base_filters field_list rest cache1 w')
            end
        end
  end.

Section Decoder.

Variable json_loads : string -> option json.

Definition _base_filters (self : NetBoxLookupCommand) : exn + dict string :=
  match query self with
  | None => inr []
  | Some q =>
      if String.eqb q EmptyString then inr []
      else
        match json_loads q with
        | None => inl (ValueError "Query filters must be a JSON object")
        | Some (JObj payload) => inr (Inventory.stringify_items payload)
        | Some _ => inl (ValueError "Query filters must be a JSON object")
        end
  end.

(** [stream(records)], consumed to its end, over a fresh session whose
    server will give [replies]. *)
Definition stream (self : NetBoxLookupCommand) (records : list (dict json))
    (replies : list Reply) : Run :=
  let w0 := {| pending := replies; sent := [] |} in
  let stop e := {| outputs := []; error := Some e; cache := []; world := w0 |} in
  match _get_client self with
  | inl e => stop e
  | inr client =>
      match _base_filters self with
      | inl e => stop e
      | inr base_filters =>
          let field_list :=
            match _parse_fields (fields self) with
            | Some l => l
            | None => []
            end in
          stream_loop self client base_filters field_list records [] w0
      end
  end.

End Decoder.

End Lookup.

(* ================================================================== *)
(** * Reference readings of the library functions *)
(* ================================================================== *)

(** The decoder [json.loads] and the clock [datetime.strptime] belong to
    the Python library.  The embedding takes them as section variables; the
    functions below read the part of their input language that the examples
    of this file use, and serve to run the embedding on concrete inputs. *)

Module Reference.

Import Lookup.

(** ** A clock for zero-padded text in the two [ISO_FORMATS] *)

Record datetime : Type := {
  year : Z; month : Z; day : Z;
  hour : Z; minute : Z; second : Z;
  microsecond : Z;
  utcoffset : Z  (* seconds east of UTC *)
}.

Definition digit (c : ascii) : option Z :=
  if is_digit c then Some (Z.of_nat (nat_of_ascii c - 48)) else None.

(** Exactly [n] digits. *)
Fixpoint read_digits (n : nat) (acc : Z) (s : string) : option (Z * string) :=
  match n, s with
  | O, _ => Some (acc, s)
  | S n', String c s' =>
      match digit c with
      | Some d => read_digits n' (10 * acc + d) s'
      | None => None
      end
  | S _, EmptyString => None
  end.

(** At most [n] digits, as many as there are, each shifting [acc] left; the
    digits not read shift it as zeros do. *)
Fixpoint read_fraction (n : nat) (acc : Z) (s : string) : Z * nat * string :=
  match n with
  | O => (acc, O, s)
  | S n' =>
      match s with
      | String c s' =>
          match digit c with
          | Some d =>
              let '(v, k, r) := read_fraction n' (10 * acc + d) s' in (v, S k, r)
          | None => (acc * 10 ^ Z.of_nat n, O, s)
          end
      | EmptyString => (acc * 10 ^ Z.of_nat n, O, s)
      end
  end%Z.

Definition expect (c : ascii) (s : string) : option string :=
  match s with
  | String a s' => if Ascii.eqb a c then Some s' else None
  | EmptyString => None
  end.

Definition bind {A B : Type} (x : option A) (f : A -> option B) : option B :=
  match x with Some a => f a | None => None end.

Notation "'do' p <- x ; k" := (bind x (fun p => k))
  (at level 10, p pattern, x at level 100, k at level 200).

(** [Z], or a sign, two digits, an optional colon and two digits; nothing
    after it. *)
Definition read_offset (s : string) : option Z :=
  match s with
  | String "Z"%char EmptyString => Some 0%Z
  | String sgn r =>
      do sign <- (if Ascii.eqb sgn "+"%char then Some 1%Z
                  else if Ascii.eqb sgn "-"%char then Some (-1)%Z else None);
      do (h, r1) <- read_digits 2 0 r;
      let r2 := match expect ":"%char r1 with Some t => t | None => r1 end in
      do (m, r3) <- read_digits 2 0 r2;
      match r3 with
      | EmptyString =>
          if ((h <=? 23) && (m <=? 59))%Z then Some (sign * (h * 3600 + m * 60))%Z
          else None
      | _ => None
      end
  | EmptyString => None
  end.

Definition is_leap (y : Z) : bool :=
  ((y mod 4 =? 0) && (negb (y mod 100 =? 0) || (y mod 400 =? 0)))%Z.

Definition days_in_month (y m : Z) : Z :=
  (if m =? 2 then (if is_leap y then 29 else 28)
   else if (m =? 4) || (m =? 6) || (m =? 9) || (m =? 11) then 30 else 31)%Z.

Definition read_datetime (fractional : bool) (s : string) : option datetime :=
  do (y, s) <- read_digits 4 0 s;
  do s <- expect "-"%char s;
  do (mo, s) <- read_digits 2 0 s;
  do s <- expect "-"%char s;
  do (d, s) <- read_digits 2 0 s;
  do s <- expect "T"%char s;
  do (h, s) <- read_digits 2 0 s;
  do s <- expect ":"%char s;
  do (mi, s) <- read_digits 2 0 s;
  do s <- expect ":"%char s;
  do (sec, s) <- read_digits 2 0 s;
  do (us, s) <-
     (if fractional then
        do s <- expect "."%char s;
        let '(v, k, r) := read_fraction 6 0 s in
        match k with O => None | _ => Some (v, r) end
      else Some (0%Z, s));
  do off <- read_offset s;
  if ((1 <=? y) && (1 <=? mo) && (mo <=? 12) && (1 <=? d)
      && (d <=? days_in_month y mo) && (h <=? 23) && (mi <=? 59)
      && (sec <=? 59))%Z
  then Some {| year := y; month := mo; day := d; hour := h; minute := mi;
               second := sec; microsecond := us; utcoffset := off |}
  else None.

Definition strptime (text fmt : string) : option datetime :=
  if String.eqb fmt "%Y-%m-%dT%H:%M:%S.%f%z" then read_datetime true text
  else if String.eqb fmt "%Y-%m-%dT%H:%M:%S%z" then read_datetime false text
  else None.

(** Days from 1970-01-01 to a date of the proleptic Gregorian calendar. *)
Definition days_from_civil (y m d : Z) : Z :=
  (let y' := if m <=? 2 then y - 1 else y in
   let era := y' / 400 in
   let yoe := y' - era * 400 in
   let doy := (153 * (if m <=? 2 then m + 9 else m - 3) + 2) / 5 + d - 1 in
   let doe := yoe * 365 + yoe / 4 - yoe / 100 + doy in
   era * 146097 + doe - 719468)%Z.

(** [dt.timestamp()] of an aware [datetime], in microseconds: the float
    that Python returns is this number divided by [10^6]. *)
Definition timestamp (dt : datetime) : Z :=
  ((days_from_civil (year dt) (month dt) (day dt) * 86400
    + hour dt * 3600 + minute dt * 60 + second dt - utcoffset dt) * 1000000
   + microsecond dt)%Z.

(** ** A decoder for JSON text without floats and without [\u] escapes *)

Definition json_ws (c : ascii) : bool :=
  let n := nat_of_ascii c in
  ((n =? 32) || (n =? 9) || (n =? 10) || (n =? 13))%nat.

Fixpoint starts_with (p s : string) : option string :=
  match p, s with
  | EmptyString, _ => Some s
  | String a p', String b s' => if Ascii.eqb a b then starts_with p' s' else None
  | String _ _, EmptyString => None
  end.

Definition unescape (c : ascii) : option ascii :=
  let n := nat_of_ascii c in
  if Ascii.eqb c dq || Ascii.eqb c bs || Ascii.eqb c "/"%char then Some c
  else if Ascii.eqb c "b"%char then Some (ascii_of_nat 8)
  else if Ascii.eqb c "f"%char then Some (ascii_of_nat 12)
  else if Ascii.eqb c "n"%char then Some (ascii_of_nat 10)
  else if Ascii.eqb c "r"%char then Some (ascii_of_nat 13)
  else if Ascii.eqb c "t"%char then Some (ascii_of_nat 9)
  else None.

(** The text of a string literal after its opening quote. *)
Fixpoint read_string (s : string) : option (string * string) :=
  match s with
  | EmptyString => None
  | String c s' =>
      if Ascii.eqb c dq then Some (EmptyString, s')
      else if Ascii.eqb c bs then
        match s' with
        | String e s'' =>
            do x <- unescape e;
            do (t, r) <- read_string s'';
            Some (String x t, r)
        | EmptyString => None
        end
      else if (nat_of_ascii c <? 32)%nat then None
      else do (t, r) <- read_string s'; Some (String c t, r)
  end.

Fixpoint read_number_digits (acc : Z) (s : string) : Z * string :=
  match s with
  | String c s' =>
      match digit c with
      | Some d => read_number_digits (10 * acc + d) s'
      | None => (acc, s)
      end
  | EmptyString => (acc, s)
  end.

(** An integer literal: no leading zero, and no fraction or exponent after
    it. *)
Definition read_int (s : string) : option (Z * string) :=
  match s with
  | String c s' =>
      do d <- digit c;
      let '(v, r) := if (d =? 0)%Z then (0%Z, s') else read_number_digits d s' in
      match r with
      | String x _ =>
          if Ascii.eqb x "."%char || Ascii.eqb x "e"%char || Ascii.eqb x "E"%char
             || is_digit x
          then None else Some (v, r)
      | EmptyString => Some (v, r)
      end
  | EmptyString => None
  end.

Fixpoint read_value (fuel : nat) (s : string) : option (json * string) :=
  match fuel with
  | O => None
  | S fuel' =>
      match s with
      | String c r =>
          if Ascii.eqb c dq then
            do (t, r') <- read_string r; Some (JStr t, r')
          else if Ascii.eqb c "["%char then
            match lstrip_by json_ws r with
            | String "]"%char r' => Some (JList [], r')
            | r' => do (l, r'') <- read_items fuel' r'; Some (JList l, r'')
            end
          else if Ascii.eqb c "{"%char then
            match lstrip_by json_ws r with
            | String "}"%char r' => Some (JObj [], r')
            | r' => do (m, r'') <- read_pairs fuel' [] r'; Some (JObj m, r'')
            end
          else if Ascii.eqb c "-"%char then
            do (v, r') <- read_int r; Some (JInt (- v), r')
          else if is_digit c then
            do (v, r') <- read_int s; Some (JInt v, r')
          else
            match starts_with "null" s, starts_with "true" s, starts_with "false" s with
            | Some r', _, _ => Some (JNull, r')
            | _, Some r', _ => Some (JBool true, r')
            | _, _, Some r' => Some (JBool false, r')
            | _, _, _ => None
            end
      | EmptyString => None
      end
  end
with read_items (fuel : nat) (s : string) : option (list json * string) :=
  match fuel with
  | O => None
  | S fuel' =>
      do (v, r) <- read_value fuel' s;
      match lstrip_by json_ws r with
      | String ","%char r' =>
          do (l, r'') <- read_items fuel' (lstrip_by json_ws r');
          Some (v :: l, r'')
      | String "]"%char r' => Some ([v], r')
      | _ => None
      end
  end
with read_pairs (fuel : nat) (acc : dict json) (s : string)
  : option (dict json * string) :=
  match fuel with
  | O => None
  | S fuel' =>
      do r <- expect dq s;
      do (k, r) <- read_string r;
      do r <- expect ":"%char (lstrip_by json_ws r);
      do (v, r) <- read_value fuel' (lstrip_by json_ws r);
      let acc' := dict_set k v acc in
      match lstrip_by json_ws r with
      | String ","%char r' => read_pairs fuel' acc' (lstrip_by json_ws r')
      | String "}"%char r' => Some (acc', r')
      | _ => None
      end
  end.

Definition loads (s : string) : option json :=
  do (v, r) <- read_value (2 * String.length s + 2) (lstrip_by json_ws s);
  match lstrip_by json_ws r with
  | EmptyString => Some v
  | _ => None
  end.

End Reference.

(* ================================================================== *)
(** * Vocabulary of the properties *)
(* ================================================================== *)

Module Props.

Import Lookup.

(** The [GET] request that a client sends for [path]. *)
Definition request_for (self : NetBoxClient) (path : string)
    (params : option (dict string)) : Request :=
  {| req_method := "GET";
     req_url := urljoin (base_url self) (lstrip_slash path);
     req_params := params;
     req_timeout := Client.timeout self;
     req_verify := verify self |}.

(** [dict(params or {})] *)
Definition params_or_empty (params : option (dict string)) : dict string :=
  match params with
  | Some p => p
  | None => []
  end.

(** A reply is a page: a successful response whose body is a mapping with
    an array under [results] and some value under [next]. *)
Definition page_of (reply : Reply) : option (list json * json) :=
  match reply with
  | inr response =>
      if ok response then
        match json_body response with
        | Some (JObj data) =>
            match dict_get "results" data, dict_get "next" data with
            | Some (JList items), Some next_url => Some (items, next_url)
            | _, _ => None
            end
        | _ => None
        end
      else None
  | inl _ => None
  end.

(** [page_chain replies itemss cursors]: the replies are the pages of one
    paginated collection, page [i] holds the records [itemss[i]], every page
    but the last names the next one by a cursor, a string that is not empty,
    and the [next] of the last page is false. *)
Inductive page_chain : list Reply -> list (list json) -> list string -> Prop :=
| chain_last : forall reply items next_url,
    page_of reply = Some (items, next_url) ->
    py_truthy next_url = false ->
    page_chain [reply] [items] []
| chain_more : forall reply items cursor replies itemss cursors,
    page_of reply = Some (items, JStr cursor) ->
    cursor <> EmptyString ->
    page_chain replies itemss cursors ->
    page_chain (reply :: replies) (items :: itemss) (cursor :: cursors).

(** The pages that must be fetched before the first record is known: up to
    and with the first page that has one, all of them when none has. *)
Fixpoint pages_needed (itemss : list (list json)) : nat :=
  match itemss with
  | [] => 0
  | [] :: rest => S (pages_needed rest)
  | (_ :: _) :: _ => 1
  end.

(** The next iteration of the loop, with the fuel that the pending replies
    call for. *)
Definition fetch (g : Generator) (next_url : json)
    (current_params : option (dict string)) (w : World)
  : GenResult * Generator * World :=
  match iter_loop (S (List.length (pending w))) g next_url current_params w with
  | Some x => x
  | None => (Raise (TransportFailure "fuel"), suspend g Finished, w)
  end.

(** What [drain] makes of the outcome of one [next]. *)
Definition drain_after (fuel : nat) (r : GenResult * Generator * World)
  : option (list json * Ending * World) :=
  match r with
  | (Yield item, g', w') =>
      match drain fuel g' w' with
      | Some (items, e, w'') => Some (item :: items, e, w'')
      | None => None
      end
  | (StopIteration, _, w') => Some ([], Exhausted, w')
  | (Raise e, _, w') => Some ([], Failed e, w')
  end.

(** The error payload that the specification words for a failed request:
    the parsed body, or the raw text under a key of its own. *)
Definition worded_error_payload (fallback_key : string) (response : Response)
  : json :=
  match json_body response with
  | Some body => body
  | None => JObj [(fallback_key, JStr (text response))]
  end.

(** The error payload that [_request] attaches. *)
Definition error_payload (response : Response) : json :=
  match json_body response with
  | Some body => if py_truthy body then body else JObj []
  | None => JObj []
  end.

(** The first request of a look-up of [key]: the only one that carries
    parameters, [netbox_field] among them. *)
Definition is_lookup_for (self : NetBoxLookupCommand) (key : string)
    (rq : Request) : bool :=
  match req_params rq with
  | Some p =>
      match dict_get (netbox_field self) p with
      | Some v => String.eqb v key
      | None => false
      end
  | None => false
  end.

Definition lookups_for (self : NetBoxLookupCommand) (key : string)
    (log : list Request) : nat :=
  List.length (filter (is_lookup_for self key) log).

(** The match value of a record and its cache key. *)
Definition match_value (self : NetBoxLookupCommand) (record : dict json) : json :=
  get (match_field self) record.

Definition cache_key_of (self : NetBoxLookupCommand) (record : dict json) : string :=
  py_str (match_value self record).

(** The field list of a command. *)
Definition field_list_of (self : NetBoxLookupCommand) : list string :=
  match _parse_fields (fields self) with
  | Some l => l
  | None => []
  end.

(** The time that the value of a field stands for: the value is a string
    and its text, stripped, is read by the first of the two formats that
    accepts it. *)
Definition field_time {datetime time : Type}
    (strptime : string -> string -> option datetime)
    (timestamp : datetime -> time) (v : json) : option time :=
  match v with
  | JStr s =>
      match strptime (strip s) "%Y-%m-%dT%H:%M:%S.%f%z" with
      | Some dt => Some (timestamp dt)
      | None => option_map timestamp (strptime (strip s) "%Y-%m-%dT%H:%M:%S%z")
      end
  | _ => None
  end.

(** The parameters that a JSON object of filters stands for. *)
Definition stringified (data : dict json) : dict string :=
  map (fun '(k, v) => (py_str (JStr k), py_str v)) data.

(** The cache and the log of one run agree: the keys of the cache are
    distinct, and a key has been looked up once when it is in the cache and
    never otherwise. *)
Definition consistent (self : Lookup.NetBoxLookupCommand) (cache : dict json)
    (log : list Request) : Prop :=
  dict_wf cache
  /\ forall k, lookups_for self k log = if dict_mem k cache then 1 else 0.

(** Requests that carry no parameters. *)
Definition bare (log : list Request) : Prop :=
  Forall (fun rq => req_params rq = None) log.

End Props.

Import Props.

(* ================================================================== *)
(** * Sample data *)
(* ================================================================== *)

Module Sample.

Import Lookup.

Definition client : NetBoxClient :=
  {| base_url := "https://netbox.example.com/api/"; Client.token := None;
     verify := true; Client.timeout := 60 |}.

(** A successful response that carries [body]. *)
Definition json_response (body : json) : Response :=
  {| status_code := 200; text := json_dumps false body; json_body := Some body |}.

Definition json_reply (body : json) : Reply := inr (json_response body).

(** A response with a given status and raw text, decoded by the reference
    decoder. *)
Definition text_response (status : Z) (raw : string) : Response :=
  {| status_code := status; text := raw; json_body := Reference.loads raw |}.

Definition envelope (items : list json) (next_url : json) : json :=
  JObj [("count", JInt 3); ("next", next_url); ("previous", JNull);
        ("results", JList items)].

Definition page (items : list json) (next_url : json) : Reply :=
  json_reply (envelope items next_url).

Definition device (name site role : string) : json :=
  JObj [("name", JStr name); ("site", JStr site); ("role", JStr role)].

Definition sw1 : json := device "sw1" "nyc" "core".
Definition sw2 : json := device "sw2" "nyc" "access".
Definition sw3 : json := device "sw3" "sfo" "edge".

Definition cursor : string :=
  "https://netbox.example.com/api/dcim/devices/?limit=2&offset=2".

Definition two_pages : list Reply :=
  [page [sw1; sw2] (JStr cursor); page [sw3] JNull].

(** [{"results": [...]}]: a mapping with [results] and without [next]. *)
Definition results_only : dict json := [("results", JList [sw1])].

Definition fresh (replies : list Reply) : World :=
  {| pending := replies; sent := [] |}.

(** The command of the examples of the specification: the field [host] of
    an event is matched with the field [name] of a device. *)
Definition command_with (field_names filters : option string)
  : NetBoxLookupCommand :=
  {| netbox_url := "https://netbox.example.com/api"; token := None;
     resource := "dcim/devices"; match_field := "host"; netbox_field := "name";
     fields := field_names; verify_ssl := "true"; timeout := "60";
     query := filters |}.

Definition command : NetBoxLookupCommand := command_with None None.

Definition event (host : string) : dict json := [("host", JStr host)].

(** A text between double quotes. *)
Definition quoted (s : string) : string := String dq (s ++ String dq EmptyString).

(** The text [{"site": "nyc", "limit": 50, "active": true, "tenant": null}]. *)
Definition filters_text : string :=
  "{" ++ quoted "site" ++ ": " ++ quoted "nyc" ++ ", "
      ++ quoted "limit" ++ ": 50, " ++ quoted "active" ++ ": true, "
      ++ quoted "tenant" ++ ": null}".

(** The text [{"name": "sw1", "site": "nyc", "role": "core"}]. *)
Definition sw1_text : string :=
  "{" ++ quoted "name" ++ ": " ++ quoted "sw1" ++ ", "
      ++ quoted "site" ++ ": " ++ quoted "nyc" ++ ", "
      ++ quoted "role" ++ ": " ++ quoted "core" ++ "}".

End Sample.

(* ================================================================== *)
(** * Further vocabulary *)
(* ================================================================== *)

Module MoreProps.

(** A JSON value that is neither a mapping nor an array. *)
Definition is_scalar (v : json) : bool :=
  match v with
  | JObj _ | JList _ => false
  | _ => true
  end.

Definition is_mapping (v : json) : bool :=
  match v with
  | JObj _ => true
  | _ => false
  end.

(** The exception that a reply makes [_request] raise, if any. *)
Definition failure_of (reply : Reply) : option exn :=
  match reply with
  | inl e => Some e
  | inr response =>
      if ok response then None
      else Some (ApiError ("NetBox API request failed with status "
                             ++ str_of_Z (status_code response))
                          (Some (status_code response))
                          (error_payload response))
  end.

(** [open_chain replies itemss cursors]: pages that all name a next one. *)
Inductive open_chain : list Reply -> list (list json) -> list string -> Prop :=
| open_nil : open_chain [] [] []
| open_more : forall reply items cursor replies itemss cursors,
    page_of reply = Some (items, JStr cursor) ->
    cursor <> EmptyString ->
    open_chain replies itemss cursors ->
    open_chain (reply :: replies) (items :: itemss) (cursor :: cursors).

(** The error of a response that is not JSON. *)
Definition non_json_error (response : Response) : exn :=
  ApiError "NetBox API returned non JSON response" None
           (JObj [("raw", JStr (text response))]).

End MoreProps.

Import MoreProps.

(* ================================================================== *)
(** * netbox_inventory.py: the modular input *)
(* ================================================================== *)

Module Exporter.

(** [s.replace('/', '_')] *)
Fixpoint replace_slash (s : string) : string :=
  match s with
  | EmptyString => EmptyString
  | String c s' => String (if is_slash c then "_"%char else c) (replace_slash s')
  end.

(** [s.startswith('/')] *)
Definition starts_with_slash (s : string) : bool :=
  match s with
  | String c _ => is_slash c
  | EmptyString => false
  end.

Definition _parse_bool (value : option string) (default : bool) : bool :=
  match value with
  | None => default
  | Some value =>
      existsb (String.eqb (lower (strip value))) ["1"; "true"; "yes"; "on"]
  end.

(** What the code sets of a [splunklib] event; [time] and [host] stay
    [None] when they are not set. *)
Record Event (T : Type) : Type := {
  data : string;
  stanza : string;
  sourcetype : string;
  time : option T;
  host : option string
}.

Arguments data {T} _.
Arguments stanza {T} _.
Arguments sourcetype {T} _.
Arguments time {T} _.
Arguments host {T} _.

Section Input.

Variable json_loads : string -> option json.
Variables datetime T : Type.
Variable strptime : string -> string -> option datetime.
Variable timestamp : datetime -> T.

(** [validate_input], on the parameters of the definition. *)
Definition validate_input (parameters : dict string) : exn + unit :=
  match dict_get "resource" parameters with
  | None => inl (ValueError "A NetBox resource must be provided")
  | Some resource =>
      if String.eqb resource EmptyString
      then inl (ValueError "A NetBox resource must be provided")
      else if starts_with_slash resource
      then inl (ValueError
                  "The NetBox resource must not start with a leading slash")
      else
        match Inventory._parse_json json_loads (dict_get "query" parameters) with
        | inl e => inl e
        | inr _ =>
            match dict_get "timeout" parameters with
            | None => inr tt
            | Some timeout =>
                if String.eqb timeout EmptyString then inr tt
                else
                  match Lookup.py_int timeout with
                  | Some _ => inr tt
                  | None =>
                      inl (ValueError "invalid literal for int() with base 10")
                  end
            end
        end
  end.

(** Lines 141 to 151: the event of one item.  [_guess_event_time] calls
    [item.get], which exists on a mapping only. *)
Definition make_event (name stype : string) (item : json) : exn + Event T :=
  let payload := json_dumps false item in
  match item with
  | JObj m =>
      inr {| data := payload; stanza := name; sourcetype := stype;
             time := Inventory._guess_event_time datetime T strptime timestamp m;
             host := match dict_get "name" m with
                     | Some (JStr s) => Some s
                     | _ => None
                     end |}
  | _ => inl (AttributeError "get")
  end.

(** The loop of lines 140 to 152 over the iterator: the events written,
    the exception that ended the loop if any and the session after it;
    [None] is the end of [fuel]. *)
Fixpoint export_loop (fuel : nat) (name stype : string) (g : Generator)
    (w : World) : option (list (Event T) * option exn * World) :=
  match fuel with
  | O => None
  | S fuel' =>
      match next g w with
      | (Yield item, g', w') =>
          match make_event name stype item with
          | inl e => Some ([], Some e, w')
          | inr event =>
              match export_loop fuel' name stype g' w' with
              | Some (events, e, w'') => Some (event :: events, e, w'')
              | None => None
              end
          end
      | (StopIteration, _, w') => Some ([], None, w')
      | (Raise e, _, w') => Some ([], Some e, w')
      end
  end.

(** The body of the loop of [stream_events] for one stanza, lines 124 to
    152, over a fresh session whose server will give [replies]. *)
Definition stream_stanza (fuel : nat) (name : string) (stz : dict string)
    (replies : list Reply) : option (list (Event T) * option exn * World) :=
  let w0 := {| pending := replies; sent := [] |} in
  let stop (e : exn) := Some ([], Some e, w0) in
  let base_url := dict_get "netbox_url" stz in
  let token :=
    match dict_get "token" stz with
    | Some t => if String.eqb t EmptyString then None else Some t
    | None => None
    end in
  let resource := dict_get "resource" stz in
  match Inventory._parse_json json_loads (dict_get "query" stz) with
  | inl e => stop e
  | inr query =>
      let verify_ssl := _parse_bool (dict_get "verify_ssl" stz) true in
      let timeout := dict_get "timeout" stz in
      match (match timeout with
             | None => Some 60%Z
             | Some t => if String.eqb t EmptyString then Some 60%Z
                         else Lookup.py_int t
             end) with
      | None => stop (ValueError "invalid literal for int() with base 10")
      | Some timeout_seconds =>
          match (match base_url with
                 | Some url => NetBoxClient_init url token verify_ssl
                                                 timeout_seconds
                 | None => inl (ValueError "NetBox base URL must be provided")
                 end) with
          | inl e => stop e
          | inr client =>
              match resource with
              | None => stop (AttributeError "replace")
              | Some resource =>
                  let stype := "netbox:" ++ replace_slash resource in
                  export_loop fuel name stype
                              (iter_resource client resource (Some query)) w0
              end
          end
      end
  end.

(** [stream_events]: the stanzas in order, each with the replies of its own
    server; the first exception ends the run.  The result holds the events
    written, the exception if any, and the sessions of the stanzas that were
    started. *)
Fixpoint stream_events (fuel : nat)
    (inputs : list (string * dict string * list Reply))
  : option (list (Event T) * option exn * list World) :=
  match inputs with
  | [] => Some ([], None, [])
  | (name, stz, replies) :: rest =>
      match stream_stanza fuel name stz replies with
      | None => None
      | Some (events, Some e, w) => Some (events, Some e, [w])
      | Some (events, None, w) =>
          match stream_events fuel rest with
          | Some (events', e, ws) => Some ((events ++ events')%list, e, w :: ws)
          | None => None
          end
      end
  end.

End Input.

End Exporter.

Module ExporterProps.

Import Exporter.

(** The event that the exporter writes for a record. *)
Definition event_for {datetime T : Type}
    (strptime : string -> string -> option datetime)
    (timestamp : datetime -> T) (name stype : string) (m : dict json)
  : Event T :=
  {| data := json_dumps false (JObj m);
     stanza := name;
     sourcetype := stype;
     time := Inventory._guess_event_time datetime T strptime timestamp m;
     host := match get "name" m with
             | JStr s => Some s
             | _ => None
             end |}.

Definition ending_error (e : Ending) : option exn :=
  match e with
  | Exhausted => None
  | Failed err => Some err
  end.

(** A key that the enrichment may write: it starts with [netbox]. *)
Definition is_netbox_key (k : string) : bool :=
  match Reference.starts_with "netbox" k with
  | Some _ => true
  | None => false
  end.

(** The record with the text of every string value stripped. *)
Definition strip_values (payload : dict json) : dict json :=
  map (fun '(k, v) => (k, match v with JStr s => JStr (strip s) | _ => v end))
      payload.

End ExporterProps.

Import ExporterProps.

Module SampleInput.

(** A stanza of the modular input. *)
Definition stanza : dict string :=
  [("netbox_url", "https://netbox.example.com/api");
   ("resource", "dcim/devices");
   ("query", Sample.filters_text);
   ("verify_ssl", " No ");
   ("timeout", "30")].

(** The same stanza without its URL. *)
Definition stanza_without_url : dict string :=
  [("resource", "dcim/devices"); ("timeout", "30")].

Definition records : list (list (dict json)) :=
  [[[("name", JStr "sw1");
     ("last_updated", JStr "2024-01-02T03:04:05.123456+00:00")];
    [("name", JStr "sw2")]];
   [[("id", JInt 3); ("created", JStr "2024-01-02T03:04:05+01:00")]]].

Definition replies : list Reply :=
  [Sample.page (map JObj (nth 0 records [])) (JStr Sample.cursor);
   Sample.page (map JObj (nth 1 records [])) JNull].

End SampleInput.

(* ================================================================== *)
(** * Properties *)
(* ================================================================== *)

Section ClientFacts.

Variable self : NetBoxClient.

Lemma request_reply (method p : string) (params : option (dict string))
    (reply : Reply) (rest : list Reply) (log : list Request) :
  _request self method (JStr p) params {| pending := reply :: rest; sent := log |}
  = (match reply with
     | inl e => inl e
     | inr response =>
         if ok response then inr response
         else inl (ApiError ("NetBox API request failed with status "
                               ++ str_of_Z (status_code response))
                            (Some (status_code response)) (error_payload response))
     end,
     {| pending := rest;
        sent := (log ++ [{| req_method := method;
                           req_url := urljoin (base_url self) (lstrip_slash p);
                           req_params := params;
                           req_timeout := Client.timeout self;
                           req_verify := verify self |}])%list |}).
Proof.
  unfold _request, session_request; simpl.
  destruct reply as [e | response]; [reflexivity |].
  destruct (ok response); simpl; [reflexivity |].
  unfold NetBoxAPIError, error_payload, py_or.
  destruct (json_body response) as [body |]; [| reflexivity].
  destruct (py_truthy body); reflexivity.
Qed.

Lemma request_shrinks (method : string) (path : json)
    (params : option (dict string)) (w w1 : World) (response : Response) :
  _request self method path params w = (inr response, w1) ->
  S (List.length (pending w1)) = List.length (pending w).
Proof.
  destruct w as [pend log]; destruct path; try (simpl; discriminate).
  destruct pend as [| reply rest].
  - unfold _request, session_request; simpl; discriminate.
  - rewrite request_reply. intros H; inversion H; subst; reflexivity.
Qed.

End ClientFacts.

Section LoopFacts.

Variable g : Generator.

Lemma loop_body_ext (again1 again2 : json -> option (dict string) -> World
                                     -> option (GenResult * Generator * World))
    (next_url : json) (current_params : option (dict string)) (w : World) :
  (forall nu cp w', S (List.length (pending w')) = List.length (pending w) ->
                    again1 nu cp w' = again2 nu cp w') ->
  loop_body g again1 next_url current_params w
  = loop_body g again2 next_url current_params w.
Proof.
  intros Hext. unfold loop_body.
  destruct (_request (gen_self g) "GET" (py_or next_url (JStr (gen_resource g)))
              (if negb (py_truthy next_url) then current_params else None) w)
    as [[e | response] w1] eqn:Hreq; [reflexivity |].
  apply request_shrinks in Hreq.
  destruct (json_body response) as [[ | | | | | | data] |]; try reflexivity.
  destruct (dict_mem "results" data && dict_mem "next" data); [| reflexivity].
  destruct (py_iter (get "results" data)) as [e | items]; [reflexivity |].
  unfold for_results, after_results.
  destruct items; [| reflexivity].
  destruct (negb (py_truthy (get "next" data))); [reflexivity |].
  apply Hext; assumption.
Qed.

Lemma loop_body_some (again : json -> option (dict string) -> World
                              -> option (GenResult * Generator * World))
    (next_url : json) (current_params : option (dict string)) (w : World) :
  (forall nu cp w', S (List.length (pending w')) = List.length (pending w) ->
                    again nu cp w' <> None) ->
  loop_body g again next_url current_params w <> None.
Proof.
  intros Hsome. unfold loop_body.
  destruct (_request (gen_self g) "GET" (py_or next_url (JStr (gen_resource g)))
              (if negb (py_truthy next_url) then current_params else None) w)
    as [[e | response] w1] eqn:Hreq; [discriminate |].
  apply request_shrinks in Hreq.
  destruct (json_body response) as [[ | | | | | items | data] |]; try discriminate.
  - unfold for_list; destruct items; discriminate.
  - destruct (dict_mem "results" data && dict_mem "next" data); [| discriminate].
    destruct (py_iter (get "results" data)) as [e | items]; [discriminate |].
    unfold for_results, after_results.
    destruct items; [| discriminate].
    destruct (negb (py_truthy (get "next" data))); [discriminate |].
    apply Hsome; assumption.
Qed.

Lemma iter_loop_stable (n : nat) :
  forall (w : World) (next_url : json) (current_params : option (dict string)),
    List.length (pending w) = n ->
    iter_loop (S n) g next_url current_params w <> None
    /\ forall fuel, n < fuel ->
         iter_loop fuel g next_url current_params w
         = iter_loop (S n) g next_url current_params w.
Proof.
  induction n as [| n IH]; intros w next_url current_params Hlen.
  - split.
    + simpl. apply loop_body_some. intros nu cp w' H. lia.
    + intros [| fuel] Hlt; [lia |]. simpl.
      apply loop_body_ext. intros nu cp w' H. lia.
  - split.
    + change (loop_body g (iter_loop (S n) g) next_url current_params w <> None).
      apply loop_body_some. intros nu cp w' H.
      apply (IH w' nu cp). lia.
    + intros [| fuel] Hlt; [lia |].
      change (loop_body g (iter_loop fuel g) next_url current_params w
              = loop_body g (iter_loop (S n) g) next_url current_params w).
      apply loop_body_ext. intros nu cp w' H.
      apply (IH w' nu cp); lia.
Qed.

Lemma iter_loop_enough (fuel : nat) (next_url : json)
    (current_params : option (dict string)) (w : World) :
  List.length (pending w) < fuel ->
  iter_loop fuel g next_url current_params w
  = Some (fetch g next_url current_params w).
Proof.
  intros Hlt.
  destruct (iter_loop_stable (List.length (pending w)) w next_url current_params
              eq_refl) as [Hsome Hsame].
  rewrite (Hsame fuel Hlt). unfold fetch.
  destruct (iter_loop (S (List.length (pending w))) g next_url current_params w);
    [reflexivity | contradiction].
Qed.

(** The loop, without fuel: one iteration, then the loop again. *)
Lemma fetch_unfold (next_url : json) (current_params : option (dict string))
    (w : World) :
  loop_body g (fun nu cp w' => Some (fetch g nu cp w')) next_url current_params w
  = Some (fetch g next_url current_params w).
Proof.
  rewrite <- (iter_loop_enough (S (List.length (pending w)))) by lia.
  simpl. apply loop_body_ext. intros nu cp w' H.
  symmetry. apply iter_loop_enough. lia.
Qed.

End LoopFacts.

Section GeneratorFacts.

Lemma next_at_start (g : Generator) (w : World) :
  gen_at g = AtStart ->
  next g w = fetch g JNull (Some (params_or_empty (gen_params g))) w.
Proof. intros H. unfold next, fetch, params_or_empty. rewrite H. reflexivity. Qed.

Lemma next_at_results_cons (g : Generator) (w : World) (item : json)
    (rest : list json) (data : dict json) :
  gen_at g = AtResults (item :: rest) data ->
  next g w = (Yield item, suspend g (AtResults rest data), w).
Proof. intros H. unfold next. rewrite H. reflexivity. Qed.

Lemma next_at_results_nil (g : Generator) (w : World) (data : dict json) :
  gen_at g = AtResults [] data ->
  next g w = if py_truthy (get "next" data)
             then fetch g (get "next" data) None w
             else (StopIteration, suspend g Finished, w).
Proof.
  intros H. unfold next, fetch. rewrite H. unfold for_results, after_results.
  destruct (py_truthy (get "next" data)); reflexivity.
Qed.

Lemma page_of_inv (reply : Reply) (items : list json) (next_url : json) :
  page_of reply = Some (items, next_url) ->
  exists response data,
    reply = inr response /\ ok response = true
    /\ json_body response = Some (JObj data)
    /\ dict_mem "results" data = true /\ dict_mem "next" data = true
    /\ get "results" data = JList items /\ get "next" data = next_url.
Proof.
  unfold page_of. destruct reply as [e | response]; [discriminate |].
  destruct (ok response) eqn:Hok; [| discriminate].
  destruct (json_body response) as [[ | | | | | | data] |] eqn:Hbody;
    try discriminate.
  destruct (dict_get "results" data) as [[ | | | | | l | ] |] eqn:Hres;
    try discriminate.
  destruct (dict_get "next" data) as [nxt |] eqn:Hnext; [| discriminate].
  intros H; inversion H; subst.
  exists response, data. unfold dict_mem, get. rewrite Hres, Hnext.
  repeat split; auto.
Qed.

(** One iteration of the loop on a page. *)
Lemma fetch_page (g : Generator) (next_url : json)
    (current_params : option (dict string)) (reply : Reply)
    (rest : list Reply) (log : list Request) (items : list json)
    (nxt : json) (path : string) :
  page_of reply = Some (items, nxt) ->
  py_or next_url (JStr (gen_resource g)) = JStr path ->
  exists data,
    get "next" data = nxt
    /\ fetch g next_url current_params {| pending := reply :: rest; sent := log |}
       = let w1 :=
           {| pending := rest;
              sent := (log ++ [request_for (gen_self g) path
                                 (if negb (py_truthy next_url)
                                  then current_params else None)])%list |} in
         match items with
         | item :: more => (Yield item, suspend g (AtResults more data), w1)
         | [] => if py_truthy nxt then fetch g nxt None w1
                 else (StopIteration, suspend g Finished, w1)
         end.
Proof.
  intros Hpage Hpath.
  destruct (page_of_inv _ _ _ Hpage)
    as (response & data & -> & Hok & Hbody & Hres & Hnext & Hitems & Hnxt).
  exists data. split; [assumption |].
  pose proof (fetch_unfold g next_url current_params
                {| pending := inr response :: rest; sent := log |}) as H.
  unfold loop_body in H. rewrite Hpath, request_reply, Hok, Hbody in H.
  rewrite Hres, Hnext, Hitems in H. simpl in H.
  unfold for_results, after_results in H. rewrite Hnxt in H.
  unfold request_for. cbv zeta.
  destruct items as [| item more].
  - destruct (py_truthy nxt); cbn [negb] in H; cbv iota in H |- *;
      unfold Reply in *; congruence.
  - cbv iota in H |- *. unfold Reply in *. congruence.
Qed.

Lemma drain_unfold (fuel : nat) (g : Generator) (w : World) :
  drain (S fuel) g w = drain_after fuel (next g w).
Proof. reflexivity. Qed.

Lemma drain_mono (fuel : nat) :
  forall (g : Generator) (w : World) r (fuel' : nat),
    drain fuel g w = Some r -> fuel <= fuel' -> drain fuel' g w = Some r.
Proof.
  induction fuel as [| fuel IH]; intros g w r fuel' H Hle; [discriminate |].
  destruct fuel' as [| fuel']; [lia |].
  simpl in *. destruct (next g w) as [[[item | | e] g'] w']; try assumption.
  destruct (drain fuel g' w') as [[[items e] w''] |] eqn:Hd; [| discriminate].
  rewrite (IH g' w' _ fuel' Hd) by lia. assumption.
Qed.

Lemma drain_after_mono (fuel fuel' : nat) x r :
  drain_after fuel x = Some r -> fuel <= fuel' -> drain_after fuel' x = Some r.
Proof.
  destruct x as [[[item | | e] g'] w']; simpl; try (intros; assumption).
  destruct (drain fuel g' w') as [[[items e] w''] |] eqn:Hd; [| discriminate].
  intros H Hle. rewrite (drain_mono fuel g' w' _ fuel' Hd Hle). assumption.
Qed.

(** The records left of a page come out first. *)
Lemma drain_at_results (rest : list json) :
  forall (g : Generator) (data : dict json) (w w' : World) (fuel : nat)
         (items : list json) (e : Ending),
    gen_at g = AtResults rest data ->
    drain fuel (suspend g (AtResults [] data)) w = Some (items, e, w') ->
    drain (List.length rest + fuel) g w = Some ((rest ++ items)%list, e, w').
Proof.
  induction rest as [| item rest IH]; intros g data w w' fuel items e Hat Hd.
  - destruct g; simpl in *; subst. exact Hd.
  - simpl. rewrite (next_at_results_cons g w item rest data Hat).
    rewrite (IH (suspend g (AtResults rest data)) data w w' fuel items e
               eq_refl Hd).
    reflexivity.
Qed.

Lemma chain_lengths replies itemss cursors :
  page_chain replies itemss cursors ->
  List.length replies = S (List.length cursors)
  /\ List.length itemss = List.length replies.
Proof.
  induction 1; simpl; [split; reflexivity |].
  destruct IHpage_chain as [H2 H3]. split; congruence.
Qed.

(** The loop over the pages of a collection. *)
Lemma drain_chain replies itemss cursors :
  page_chain replies itemss cursors ->
  forall (g : Generator) (next_url : json) (current_params : option (dict string))
         (path : string) (extra : list Reply) (log : list Request),
    py_or next_url (JStr (gen_resource g)) = JStr path ->
    drain_after (List.length (List.concat itemss))
      (fetch g next_url current_params
         {| pending := (replies ++ extra)%list; sent := log |})
    = Some (List.concat itemss, Exhausted,
            {| pending := extra;
               sent := (log ++ request_for (gen_self g) path
                                 (if negb (py_truthy next_url)
                                  then current_params else None)
                            :: map (fun u => request_for (gen_self g) u None)
                                   cursors)%list |}).
Proof.
  induction 1 as [reply items nxt Hpage Hfalse
                 | reply items cursor replies itemss cursors Hpage Hne Hchain IH];
    intros g next_url current_params path extra log Hpath.
  - destruct (fetch_page g next_url current_params reply extra log items nxt path
                Hpage Hpath) as (data & Hnxt & Hfetch).
    simpl app. rewrite Hfetch. cbv zeta. simpl List.concat. rewrite app_nil_r.
    destruct items as [| item more].
    + rewrite Hfalse. reflexivity.
    + match goal with |- context [(Yield _, _, ?w)] => set (w1 := w) end.
      assert (Hd : drain 1 (suspend g (AtResults [] data)) w1
                   = Some ([], Exhausted, w1)).
      { rewrite drain_unfold, (next_at_results_nil (suspend g (AtResults [] data)) w1 data eq_refl).
        rewrite Hnxt, Hfalse. reflexivity. }
      cbn [drain_after List.length].
      rewrite <- (Nat.add_1_r (List.length more)).
      rewrite (drain_at_results more (suspend g (AtResults more data)) data
                 _ _ _ _ _ eq_refl Hd).
      rewrite app_nil_r. reflexivity.
  - destruct (fetch_page g next_url current_params reply (replies ++ extra)%list
                log items (JStr cursor) path Hpage Hpath) as (data & Hnxt & Hfetch).
    assert (Htrue : py_truthy (JStr cursor) = true).
    { simpl. destruct (String.eqb_spec cursor EmptyString); [contradiction | reflexivity]. }
    assert (Hor : forall g', py_or (JStr cursor) (JStr (gen_resource g')) = JStr cursor).
    { intros g'. unfold py_or. rewrite Htrue. reflexivity. }
    simpl app. rewrite Hfetch. cbv zeta. simpl List.concat.
    destruct items as [| item more].
    + rewrite Htrue. rewrite (IH g (JStr cursor) None cursor extra _ (Hor g)).
      rewrite Htrue. simpl. rewrite <- app_assoc. reflexivity.
    + match goal with |- context [(Yield _, _, ?w)] => set (w1 := w) end.
      assert (Hd : drain (S (List.length (List.concat itemss)))
                     (suspend g (AtResults [] data)) w1
                   = Some (List.concat itemss, Exhausted,
                           {| pending := extra;
                              sent := (sent w1
                                         ++ map (fun u => request_for (gen_self g) u None)
                                                (cursor :: cursors))%list |})).
      { rewrite drain_unfold, (next_at_results_nil (suspend g (AtResults [] data)) w1 data eq_refl).
        rewrite Hnxt, Htrue. unfold w1.
        rewrite (IH _ (JStr cursor) None cursor extra _ (Hor _)).
        rewrite Htrue. reflexivity. }
      cbn [drain_after List.length app].
      rewrite length_app.
      rewrite <- Nat.add_succ_r.
      rewrite (drain_at_results more (suspend g (AtResults more data)) data
                 _ _ _ _ _ eq_refl Hd).
      subst w1. simpl. rewrite <- app_assoc. reflexivity.
Qed.

End GeneratorFacts.

Section ObjectFacts.

(** One iteration of the loop on a mapping that is not an envelope. *)
Lemma fetch_object (g : Generator) (next_url : json)
    (current_params : option (dict string)) (response : Response)
    (data : dict json) (rest : list Reply) (log : list Request) (path : string) :
  ok response = true ->
  json_body response = Some (JObj data) ->
  dict_mem "results" data && dict_mem "next" data = false ->
  py_or next_url (JStr (gen_resource g)) = JStr path ->
  fetch g next_url current_params {| pending := inr response :: rest; sent := log |}
  = (Yield (JObj data), suspend g AtObject,
     {| pending := rest;
        sent := (log ++ [request_for (gen_self g) path
                           (if negb (py_truthy next_url)
                            then current_params else None)])%list |}).
Proof.
  intros Hok Hbody Hkeys Hpath.
  pose proof (fetch_unfold g next_url current_params
                {| pending := inr response :: rest; sent := log |}) as H.
  unfold loop_body in H. rewrite Hpath, request_reply, Hok, Hbody, Hkeys in H.
  unfold request_for. unfold Reply in *. congruence.
Qed.

Lemma drain_object (self : NetBoxClient) (resource : string)
    (params : option (dict string)) (response : Response) (data : dict json)
    (rest : list Reply) (log : list Request) (fuel : nat) :
  ok response = true ->
  json_body response = Some (JObj data) ->
  dict_mem "results" data && dict_mem "next" data = false ->
  1 < fuel ->
  drain fuel (iter_resource self resource params)
        {| pending := inr response :: rest; sent := log |}
  = Some ([JObj data], Exhausted,
          {| pending := rest;
             sent := (log ++ [request_for self resource
                                (Some (params_or_empty params))])%list |}).
Proof.
  intros Hok Hbody Hkeys Hfuel.
  apply drain_mono with (fuel := 2); [| lia].
  rewrite drain_unfold, next_at_start by reflexivity.
  rewrite (fetch_object (iter_resource self resource params) JNull _ response
             data rest log resource Hok Hbody Hkeys eq_refl).
  reflexivity.
Qed.

End ObjectFacts.

(** C1.  For a collection served in N pages, page i holding k_i records
    under [results], consuming [iter_resource] to its end yields the records
    of all pages, page after page and in the order of each page, and ends
    normally; it sends exactly N requests: the first for the resource with
    the parameters of the caller, each other one for the [next] cursor of the
    page before it, with no parameters. *)
Theorem iter_resource_paginated
    (self : NetBoxClient) (resource : string) (params : option (dict string))
    (replies extra : list Reply) (itemss : list (list json))
    (cursors : list string) (log : list Request) (fuel : nat) :
  page_chain replies itemss cursors ->
  List.length (List.concat itemss) < fuel ->
  let requests :=
    request_for self resource (Some (params_or_empty params))
      :: map (fun cursor => request_for self cursor None) cursors in
  drain fuel (iter_resource self resource params)
        {| pending := (replies ++ extra)%list; sent := log |}
  = Some (List.concat itemss, Exhausted,
          {| pending := extra; sent := (log ++ requests)%list |})
  /\ List.length requests = List.length replies
  /\ List.length itemss = List.length replies.
Proof.
  intros Hchain Hfuel requests. split.
  - destruct fuel as [| fuel]; [lia |].
    rewrite drain_unfold, next_at_start by reflexivity.
    apply drain_after_mono with (fuel := List.length (List.concat itemss));
      [| lia].
    apply (drain_chain replies itemss cursors Hchain
             (iter_resource self resource params) JNull
             (Some (params_or_empty params)) resource extra log eq_refl).
  - destruct (chain_lengths _ _ _ Hchain) as [H1 H2].
    split; [| assumption].
    unfold requests. simpl. rewrite length_map. congruence.
Qed.

Lemma sample_chain :
  page_chain Sample.two_pages
             [[Sample.sw1; Sample.sw2]; [Sample.sw3]] [Sample.cursor].
Proof.
  unfold Sample.two_pages.
  apply chain_more; [reflexivity | discriminate |].
  apply chain_last with (next_url := JNull); reflexivity.
Defined.

Lemma iter_resource_paginated_witness :
  drain 4 (iter_resource Sample.client "dcim/devices" (Some [("site", "nyc")]))
        (Sample.fresh Sample.two_pages)
  = Some ([Sample.sw1; Sample.sw2; Sample.sw3], Exhausted,
          {| pending := [];
             sent := [request_for Sample.client "dcim/devices"
                        (Some [("site", "nyc")]);
                      request_for Sample.client Sample.cursor None] |})
  /\ 2 = 2 /\ 2 = 2.
Proof.
  exact (iter_resource_paginated Sample.client "dcim/devices"
           (Some [("site", "nyc")]) Sample.two_pages []
           [[Sample.sw1; Sample.sw2]; [Sample.sw3]] [Sample.cursor] [] 4
           sample_chain (le_n 4)).
Defined.

(** C2.  A successful response whose body is a mapping with the key
    [results] and without the key [next] is not read as an envelope:
    [iter_resource] yields the mapping itself, once, and stops after one
    request.  The same holds of every mapping that lacks one of the two
    keys: only a mapping with both is read as an envelope. *)
Theorem iter_resource_results_without_next
    (self : NetBoxClient) (resource : string) (params : option (dict string))
    (response : Response) (data : dict json) (rest : list Reply)
    (log : list Request) (fuel : nat) :
  ok response = true ->
  json_body response = Some (JObj data) ->
  dict_mem "results" data = true ->
  dict_mem "next" data = false ->
  1 < fuel ->
  drain fuel (iter_resource self resource params)
        {| pending := inr response :: rest; sent := log |}
  = Some ([JObj data], Exhausted,
          {| pending := rest;
             sent := (log ++ [request_for self resource
                                (Some (params_or_empty params))])%list |})
  /\ forall (response' : Response) (data' : dict json),
       ok response' = true ->
       json_body response' = Some (JObj data') ->
       dict_mem "results" data' && dict_mem "next" data' = false ->
       drain fuel (iter_resource self resource params)
             {| pending := inr response' :: rest; sent := log |}
       = Some ([JObj data'], Exhausted,
               {| pending := rest;
                  sent := (log ++ [request_for self resource
                                     (Some (params_or_empty params))])%list |}).
Proof.
  intros Hok Hbody Hres Hnext Hfuel. split.
  - apply drain_object; try assumption. rewrite Hres, Hnext. reflexivity.
  - intros response' data' Hok' Hbody' Hkeys. apply drain_object; assumption.
Qed.

Lemma iter_resource_results_without_next_witness :
  drain 2 (iter_resource Sample.client "dcim/devices" None)
        (Sample.fresh [Sample.json_reply (JObj Sample.results_only)])
  = Some ([JObj Sample.results_only], Exhausted,
          {| pending := [];
             sent := [request_for Sample.client "dcim/devices" (Some [])] |}).
Proof.
  exact (proj1 (iter_resource_results_without_next Sample.client "dcim/devices"
                  None (Sample.json_response (JObj Sample.results_only))
                  Sample.results_only [] [] 2
                  eq_refl eq_refl eq_refl eq_refl (le_n 2))).
Defined.

(** C3, as amended.  When the status of the response is in the failure
    range, [_request] sends its one request and fails with an API error that
    carries the status code; its payload is the parsed JSON body when the
    body is JSON and true, and the empty mapping otherwise, that is when the
    body is not JSON or is a false JSON value. *)
Theorem request_failure_carries_status_and_payload
    (self : NetBoxClient) (method path : string) (params : option (dict string))
    (response : Response) (rest : list Reply) (log : list Request) :
  ok response = false ->
  exists payload,
    _request self method (JStr path) params
             {| pending := inr response :: rest; sent := log |}
    = (inl (ApiError ("NetBox API request failed with status "
                        ++ str_of_Z (status_code response))
                     (Some (status_code response)) payload),
       {| pending := rest;
          sent := (log ++ [{| req_method := method;
                             req_url := urljoin (base_url self) (lstrip_slash path);
                             req_params := params;
                             req_timeout := Client.timeout self;
                             req_verify := verify self |}])%list |})
    /\ (forall body, json_body response = Some body -> py_truthy body = true ->
                     payload = body)
    /\ (forall body, json_body response = Some body -> py_truthy body = false ->
                     payload = JObj [])
    /\ (json_body response = None -> payload = JObj []).
Proof.
  intros Hok. exists (error_payload response).
  rewrite request_reply, Hok. split; [reflexivity |].
  unfold error_payload.
  repeat split.
  - intros body -> ->. reflexivity.
  - intros body -> ->. reflexivity.
  - intros ->. reflexivity.
Qed.

Lemma request_failure_witness :
  exists payload,
    _request Sample.client "GET" (JStr "dcim/devices/") None
             (Sample.fresh [inr (Sample.text_response 500 "oops")])
    = (inl (ApiError "NetBox API request failed with status 500"
                     (Some 500%Z) payload),
       {| pending := [];
          sent := [request_for Sample.client "dcim/devices/" None] |})
    /\ (forall body, None = Some body -> py_truthy body = true -> payload = body)
    /\ (forall body, None = Some body -> py_truthy body = false ->
                     payload = JObj [])
    /\ (None = None :> option json -> payload = JObj []).
Proof.
  exact (request_failure_carries_status_and_payload Sample.client "GET"
           "dcim/devices/" None (Sample.text_response 500 "oops") [] [] eq_refl).
Defined.

(** C3, as worded, fails: for a response with status 500 whose body is the
    text [oops], which is not JSON, the error carries the empty mapping, and
    the raw text is under no key of it. *)
Lemma request_failure_drops_raw_text :
  let response := Sample.text_response 500 "oops" in
  json_body response = None
  /\ fst (_request Sample.client "GET" (JStr "dcim/devices/") None
                   (Sample.fresh [inr response]))
     = inl (ApiError "NetBox API request failed with status 500"
                     (Some 500%Z) (JObj []))
  /\ forall fallback_key,
       JObj [] <> worded_error_payload fallback_key response.
Proof.
  cbv zeta. split; [reflexivity |]. split; [reflexivity |].
  intros fallback_key. unfold worded_error_payload. simpl. discriminate.
Qed.

(** C6.  [get_by_id] sends one request, for [resource/id/].  When the
    request fails, it returns absence exactly when the status is 404, and
    for every other status it raises again the API error of [_request]; when
    the request succeeds it returns the parsed JSON body.  Absence is
    [None], which is also the parsed body of the JSON text [null]: apart
    from a successful reply with that body, absence is returned exactly when
    the status is 404.  So a reply 404 gives absence, a reply 500 the API
    error with status 500, and a reply 200 the record of its body. *)
Theorem get_by_id_absent_on_404_only :
  (forall (self : NetBoxClient) (resource : string) (object_id : json)
          (response : Response) (rest : list Reply) (log : list Request),
      let path := rstrip_slash resource ++ "/" ++ py_str object_id ++ "/" in
      let w := {| pending := inr response :: rest; sent := log |} in
      let result := get_by_id self resource object_id w in
      snd result
      = {| pending := rest; sent := (log ++ [request_for self path None])%list |}
      /\ (ok response = false ->
          (fst result = inr JNull <-> status_code response = 404%Z)
          /\ (status_code response <> 404%Z ->
              let err := ApiError ("NetBox API request failed with status "
                                     ++ str_of_Z (status_code response))
                                  (Some (status_code response))
                                  (error_payload response) in
              fst (_request self "GET" (JStr path) None w) = inl err
              /\ fst result = inl err))
      /\ (ok response = true ->
          forall body, json_body response = Some body -> fst result = inr body)
      /\ ((ok response = true -> json_body response <> Some JNull) ->
          (fst result = inr JNull <-> status_code response = 404%Z)))
  /\ get_by_id Sample.client "dcim/devices/" (JInt 7)
       (Sample.fresh [inr (Sample.text_response 404 "Not found")])
     = (inr JNull,
        {| pending := [];
           sent := [request_for Sample.client "dcim/devices/7/" None] |})
  /\ fst (get_by_id Sample.client "dcim/devices" (JInt 7)
            (Sample.fresh [inr (Sample.text_response 500 "Server Error")]))
     = inl (ApiError "NetBox API request failed with status 500"
                     (Some 500%Z) (JObj []))
  /\ fst (get_by_id Sample.client "dcim/devices" (JInt 7)
            (Sample.fresh [Sample.json_reply Sample.sw1]))
     = inr Sample.sw1.
Proof.
  split; [| repeat split; reflexivity].
  intros self resource object_id response rest log. cbv zeta.
  unfold get_by_id. rewrite request_reply.
  unfold request_for.
  destruct (ok response) eqn:Hok.
  - split; [destruct (json_body response); reflexivity |].
    split; [discriminate |].
    split; [intros _ body ->; reflexivity |].
    intros Hbody. specialize (Hbody eq_refl).
    assert (Hstatus : status_code response <> 404%Z).
    { intros H404. unfold ok in Hok. rewrite H404 in Hok. discriminate. }
    destruct (json_body response) as [body |]; simpl.
    + split; [intros H; inversion H; subst body; contradiction
             | intros H; contradiction].
    + split; [discriminate | intros H; contradiction].
  - split; [destruct (status_code response =? 404)%Z; reflexivity |].
    destruct (Z.eqb_spec (status_code response) 404) as [H404 | Hother].
    + split; [| split; [discriminate |]].
      * intros _. split; [split; [intros _; assumption | reflexivity] |].
        intros Hne; contradiction.
      * intros _. split; [intros _; assumption | reflexivity].
    + split; [| split; [discriminate |]].
      * intros _. split; [split; [discriminate | intros H; contradiction] |].
        intros _. split; reflexivity.
      * intros _. split; [discriminate | intros H; contradiction].
Qed.

Section FirstFacts.

(** The first [next] over the pages of a collection stops at the first page
    that holds a record. *)
Lemma fetch_chain_first replies itemss cursors :
  page_chain replies itemss cursors ->
  forall (g : Generator) (next_url : json) (current_params : option (dict string))
         (path : string) (extra : list Reply) (log : list Request),
    py_or next_url (JStr (gen_resource g)) = JStr path ->
    exists g',
      fetch g next_url current_params
            {| pending := (replies ++ extra)%list; sent := log |}
      = (match List.concat itemss with
         | item :: _ => Yield item
         | [] => StopIteration
         end, g',
         {| pending := (skipn (pages_needed itemss) replies ++ extra)%list;
            sent := (log ++ firstn (pages_needed itemss)
                              (request_for (gen_self g) path
                                 (if negb (py_truthy next_url)
                                  then current_params else None)
                               :: map (fun u => request_for (gen_self g) u None)
                                      cursors))%list |}).
Proof.
  induction 1 as [reply items nxt Hpage Hfalse
                 | reply items cursor replies itemss cursors Hpage Hne Hchain IH];
    intros g next_url current_params path extra log Hpath.
  - destruct (fetch_page g next_url current_params reply extra log items nxt path
                Hpage Hpath) as (data & Hnxt & Hfetch).
    simpl app. rewrite Hfetch. cbv zeta.
    destruct items as [| item more].
    + rewrite Hfalse. eexists. reflexivity.
    + eexists. reflexivity.
  - destruct (fetch_page g next_url current_params reply (replies ++ extra)%list
                log items (JStr cursor) path Hpage Hpath) as (data & Hnxt & Hfetch).
    assert (Htrue : py_truthy (JStr cursor) = true).
    { simpl. destruct (String.eqb_spec cursor EmptyString);
        [contradiction | reflexivity]. }
    simpl app. rewrite Hfetch. cbv zeta.
    destruct items as [| item more].
    + rewrite Htrue.
      destruct (IH g (JStr cursor) None cursor extra
                  (log ++ [request_for (gen_self g) path
                             (if negb (py_truthy next_url)
                              then current_params else None)])%list)
        as (g' & Hg').
      { unfold py_or. rewrite Htrue. reflexivity. }
      exists g'. rewrite Hg', Htrue. simpl. rewrite <- app_assoc. reflexivity.
    + eexists. reflexivity.
Qed.

End FirstFacts.

(** C8.  [get_first] returns the first record that [iter_resource] yields,
    absence when it yields none and ends normally, and the exception when it
    fails before any record.  Over the pages of a collection it returns the
    first record of the first page that holds one, or absence without an
    error when no page holds any, and it sends the requests for the pages up
    to that one only: the replies after it stay unread. *)
Theorem get_first_stops_at_first_record
    (self : NetBoxClient) (resource : string) (params : option (dict string))
    (replies extra : list Reply) (itemss : list (list json))
    (cursors : list string) (log : list Request) :
  page_chain replies itemss cursors ->
  let requests :=
    request_for self resource (Some (params_or_empty params))
      :: map (fun cursor => request_for self cursor None) cursors in
  get_first self resource params
            {| pending := (replies ++ extra)%list; sent := log |}
  = (inr (hd JNull (List.concat itemss)),
     {| pending := (skipn (pages_needed itemss) replies ++ extra)%list;
        sent := (log ++ firstn (pages_needed itemss) requests)%list |})
  /\ forall (w w' : World) (fuel : nat) (items : list json) (e : Ending),
       drain fuel (iter_resource self resource params) w = Some (items, e, w') ->
       match items, e with
       | item :: _, _ => fst (get_first self resource params w) = inr item
       | [], Exhausted => get_first self resource params w = (inr JNull, w')
       | [], Failed err => get_first self resource params w = (inl err, w')
       end.
Proof.
  intros Hchain requests. split.
  - unfold get_first. rewrite next_at_start by reflexivity.
    change (gen_params (iter_resource self resource params)) with params.
    destruct (fetch_chain_first replies itemss cursors Hchain
                (iter_resource self resource params) JNull
                (Some (params_or_empty params)) resource extra log eq_refl)
      as (g' & Hg').
    rewrite Hg'. destruct (List.concat itemss); reflexivity.
  - intros w w' [| fuel] items e Hd; [discriminate |].
    simpl in Hd. unfold get_first.
    destruct (next (iter_resource self resource params) w)
      as [[[item | | err] g'] w1].
    + destruct (drain fuel g' w1) as [[[items' e'] w''] |]; [| discriminate].
      inversion Hd; subst. reflexivity.
    + inversion Hd; subst. reflexivity.
    + inversion Hd; subst. reflexivity.
Qed.

Lemma sample_chain_empty_first :
  page_chain [Sample.page [] (JStr Sample.cursor);
              Sample.page [Sample.sw3] (JStr Sample.cursor);
              Sample.page [Sample.sw1] JNull]
             [[]; [Sample.sw3]; [Sample.sw1]] [Sample.cursor; Sample.cursor].
Proof.
  apply chain_more; [reflexivity | discriminate |].
  apply chain_more; [reflexivity | discriminate |].
  apply chain_last with (next_url := JNull); reflexivity.
Defined.

Lemma get_first_stops_at_first_record_witness :
  get_first Sample.client "dcim/devices" None
            (Sample.fresh [Sample.page [] (JStr Sample.cursor);
                           Sample.page [Sample.sw3] (JStr Sample.cursor);
                           Sample.page [Sample.sw1] JNull])
  = (inr Sample.sw3,
     {| pending := [Sample.page [Sample.sw1] JNull];
        sent := [request_for Sample.client "dcim/devices" (Some []);
                 request_for Sample.client Sample.cursor None] |}).
Proof.
  exact (proj1 (get_first_stops_at_first_record Sample.client "dcim/devices"
                  None _ [] _ _ [] sample_chain_empty_first)).
Defined.

Section DictFacts.

Context {V : Type}.

Lemma dict_get_set_same (k : string) (v : V) (d : dict V) :
  dict_get k (dict_set k v d) = Some v.
Proof.
  induction d as [| [k' v'] d IH]; simpl.
  - rewrite String.eqb_refl. reflexivity.
  - destruct (String.eqb k k') eqn:E; simpl; rewrite E; auto.
Qed.

Lemma dict_get_set_other (k k' : string) (v : V) (d : dict V) :
  k <> k' -> dict_get k' (dict_set k v d) = dict_get k' d.
Proof.
  intros Hne. induction d as [| [k0 v0] d IH]; simpl.
  - destruct (String.eqb_spec k' k); [congruence | reflexivity].
  - destruct (String.eqb_spec k k0) as [-> | Hk]; simpl.
    + destruct (String.eqb_spec k' k0); [congruence | reflexivity].
    + destruct (String.eqb k' k0); auto.
Qed.

Lemma dict_mem_in (k : string) (d : dict V) :
  dict_mem k d = true <-> In k (keys d).
Proof.
  unfold dict_mem. induction d as [| [k' v'] d IH]; simpl.
  - split; [discriminate | contradiction].
  - destruct (String.eqb_spec k k') as [-> | Hne].
    + split; auto.
    + rewrite IH. split; [auto | intros [H | H]; [congruence | assumption]].
Qed.

Lemma dict_mem_get (k : string) (d : dict V) :
  dict_mem k d = true -> exists v, dict_get k d = Some v.
Proof.
  unfold dict_mem. destruct (dict_get k d) as [v |]; [eauto | discriminate].
Qed.

Lemma dict_set_absent (k : string) (v : V) (d : dict V) :
  dict_mem k d = false -> dict_set k v d = (d ++ [(k, v)])%list.
Proof.
  unfold dict_mem. induction d as [| [k' v'] d IH]; simpl; [reflexivity |].
  destruct (String.eqb k k'); [discriminate |].
  intros H. rewrite IH by assumption. reflexivity.
Qed.

Lemma keys_set (k : string) (v : V) (d : dict V) :
  keys (dict_set k v d)
  = if dict_mem k d then keys d else (keys d ++ [k])%list.
Proof.
  unfold dict_mem, keys. induction d as [| [k' v'] d IH]; simpl; [reflexivity |].
  destruct (String.eqb k k') eqn:E; simpl; [reflexivity |].
  rewrite IH. destruct (dict_get k d); reflexivity.
Qed.

Lemma dict_set_wf (k : string) (v : V) (d : dict V) :
  dict_wf d -> dict_wf (dict_set k v d).
Proof.
  unfold dict_wf. intros Hwf. rewrite keys_set.
  destruct (dict_mem k d) eqn:E; [assumption |].
  apply NoDup_app; [assumption | repeat constructor; auto | ].
  intros x Hx [<- | []].
  apply dict_mem_in in Hx. congruence.
Qed.

End DictFacts.

Section LogFacts.

Lemma request_log (self : NetBoxClient) (method p : string)
    (params : option (dict string)) (w : World) :
  sent (snd (_request self method (JStr p) params w))
  = (sent w ++ [{| req_method := method;
                  req_url := urljoin (base_url self) (lstrip_slash p);
                  req_params := params;
                  req_timeout := Client.timeout self;
                  req_verify := verify self |}])%list.
Proof.
  destruct w as [[| reply rest] log].
  - reflexivity.
  - rewrite request_reply. reflexivity.
Qed.

(** What one iteration adds to the log, whatever follows it. *)
Lemma loop_body_log (g : Generator)
    (again : json -> option (dict string) -> World
             -> option (GenResult * Generator * World))
    (next_url : json) (current_params : option (dict string)) (w : World) :
  (forall nu w1 r g' w', py_truthy nu = true -> again nu None w1 = Some (r, g', w') ->
                         exists more, sent w' = (sent w1 ++ more)%list /\ bare more) ->
  forall r g' w',
    loop_body g again next_url current_params w = Some (r, g', w') ->
    (exists p more,
        py_or next_url (JStr (gen_resource g)) = JStr p
        /\ sent w' = (sent w ++ request_for (gen_self g) p
                                  (if negb (py_truthy next_url)
                                   then current_params else None) :: more)%list
        /\ bare more)
    \/ ((forall p, py_or next_url (JStr (gen_resource g)) <> JStr p)
        /\ sent w' = sent w).
Proof.
  intros Hagain r g' w'. unfold loop_body.
  destruct (py_or next_url (JStr (gen_resource g))) as [ | | | | p | | ] eqn:Hpath;
    try (simpl; intros H; inversion H; subst; right; split;
         [intros p; discriminate | reflexivity]).
  pose proof (request_log (gen_self g) "GET" p
                (if negb (py_truthy next_url) then current_params else None) w)
    as Hlog.
  destruct (_request (gen_self g) "GET" (JStr p)
              (if negb (py_truthy next_url) then current_params else None) w)
    as [[e | response] w1]; simpl in Hlog.
  - intros H; inversion H; subst. left. exists p, []. repeat split; auto.
    constructor.
  - assert (Hdone : forall x, Some (x, w1) = Some (r, g', w') ->
              exists p0 more,
                JStr p = JStr p0
                /\ sent w' = (sent w ++ request_for (gen_self g) p0
                                (if negb (py_truthy next_url)
                                 then current_params else None) :: more)%list
                /\ bare more).
    { intros x H; inversion H; subst. exists p, []. repeat split; auto.
      constructor. }
    destruct (json_body response) as [[ | | | | | items | data] |];
      try (intros H; left; exact (Hdone _ H)).
    + unfold for_list. destruct items; intros H; left; exact (Hdone _ H).
    + destruct (dict_mem "results" data && dict_mem "next" data);
        [| intros H; left; exact (Hdone _ H)].
      destruct (py_iter (get "results" data)) as [e | items];
        [intros H; left; exact (Hdone _ H) |].
      unfold for_results, after_results.
      destruct items; [| intros H; left; exact (Hdone _ H)].
      destruct (py_truthy (get "next" data)) eqn:Htrue; simpl;
        [| intros H; left; exact (Hdone _ H)].
      intros H. destruct (Hagain _ _ _ _ _ Htrue H) as (more & Hmore & Hbare).
      left. exists p, more. repeat split; auto.
      rewrite Hmore, Hlog, <- app_assoc. reflexivity.
Qed.

(** Every request after the first of a loop is bare. *)
Lemma iter_loop_later_log (g : Generator) (fuel : nat) :
  forall nu w r g' w',
    py_truthy nu = true ->
    iter_loop fuel g nu None w = Some (r, g', w') ->
    exists more, sent w' = (sent w ++ more)%list /\ bare more.
Proof.
  induction fuel as [| fuel IH]; intros nu w r g' w' Htrue H; [discriminate |].
  simpl in H.
  destruct (loop_body_log g (iter_loop fuel g) nu None w IH
              r g' w' H) as [(p & more & _ & Hlog & Hbare) | [_ Hlog]].
  - rewrite Htrue in Hlog. simpl in Hlog.
    exists (request_for (gen_self g) p None :: more). split; [assumption |].
    constructor; [reflexivity | assumption].
  - exists []. rewrite app_nil_r. split; [assumption | constructor].
Qed.

(** The log of [get_first]: the request for the resource, then bare ones. *)
Lemma get_first_log (self : NetBoxClient) (resource : string)
    (params : dict string) (w : World) :
  exists more,
    sent (snd (get_first self resource (Some params) w))
    = (sent w ++ request_for self resource (Some params) :: more)%list
    /\ bare more.
Proof.
  unfold get_first. rewrite next_at_start by reflexivity.
  set (g := iter_resource self resource (Some params)).
  pose proof (iter_loop_enough g (S (List.length (pending w))) JNull
                (Some (params_or_empty (gen_params g))) w (Nat.lt_succ_diag_r _))
    as H.
  destruct (fetch g JNull (Some (params_or_empty (gen_params g))) w)
    as [[r g'] w'].
  simpl in H.
  destruct (loop_body_log g _ JNull _ w
              (iter_loop_later_log g (List.length (pending w))) r g' w' H)
    as [(p & more & Hp & Hlog & Hbare) | [Hp _]].
  - exists more. unfold py_or in Hp. simpl in Hp. inversion Hp; subst p.
    split; [| assumption].
    destruct r; exact Hlog.
  - exfalso. apply (Hp resource). reflexivity.
Qed.

End LogFacts.

Section LookupFacts.

Import Lookup.

Variable self : NetBoxLookupCommand.
Variable client : NetBoxClient.
Variable base_filters : dict string.
Variable field_list : list string.

Lemma lookups_for_app (k : string) (l1 l2 : list Request) :
  lookups_for self k (l1 ++ l2)%list
  = lookups_for self k l1 + lookups_for self k l2.
Proof. unfold lookups_for. rewrite filter_app, length_app. reflexivity. Qed.

Lemma lookups_for_bare (k : string) (log : list Request) :
  bare log -> lookups_for self k log = 0.
Proof.
  unfold lookups_for. induction 1 as [| rq log Hrq _ IH]; [reflexivity |].
  simpl. unfold is_lookup_for at 1. rewrite Hrq. assumption.
Qed.

Lemma lookups_for_first (k key : string) (more : list Request) :
  bare more ->
  lookups_for self k
    (request_for client (resource self)
       (Some (dict_set (netbox_field self) key base_filters)) :: more)
  = if String.eqb key k then 1 else 0.
Proof.
  intros Hbare.
  change (lookups_for self k
            ([request_for client (resource self)
               (Some (dict_set (netbox_field self) key base_filters))] ++ more)%list
          = if String.eqb key k then 1 else 0).
  rewrite lookups_for_app, (lookups_for_bare k more Hbare), Nat.add_0_r.
  unfold lookups_for. simpl. unfold is_lookup_for. simpl.
  rewrite dict_get_set_same. destruct (String.eqb key k); reflexivity.
Qed.

(** A look-up keeps the cache and the log in agreement, and leaves the
    entries of the cache as they are. *)
Lemma lookup_consistent (key : string) (cache0 : dict json) (w : World) :
  consistent self cache0 (sent w) ->
  match lookup self client base_filters key cache0 w with
  | (inr cache1, w') =>
      consistent self cache1 (sent w')
      /\ dict_mem key cache1 = true
      /\ (forall k, dict_mem k cache0 = true ->
                    dict_get k cache1 = dict_get k cache0)
      /\ (forall k, In k (keys cache1) -> k = key \/ In k (keys cache0))
  | (inl _, w') =>
      forall k, dict_mem k cache0 = true -> lookups_for self k (sent w') = 1
  end.
Proof.
  intros [Hwf Hcount]. unfold lookup.
  destruct (dict_mem key cache0) eqn:Hmem.
  - split; [split; assumption |]. split; [assumption |]. split; auto.
  - destruct (get_first_log client (resource self)
                (dict_set (netbox_field self) key base_filters) w)
      as (more & Hlog & Hbare).
    destruct (get_first client (resource self)
                (Some (dict_set (netbox_field self) key base_filters)) w)
      as [[e | item] w']; simpl in Hlog.
    + intros k Hk. rewrite Hlog, lookups_for_app, Hcount, Hk.
      rewrite (lookups_for_first k key more Hbare).
      destruct (String.eqb_spec key k); [congruence | reflexivity].
    + split; [split |].
      * apply dict_set_wf. assumption.
      * intros k. rewrite Hlog, lookups_for_app, Hcount.
        rewrite (lookups_for_first k key more Hbare).
        unfold dict_mem at 2.
        destruct (String.eqb_spec key k) as [<- | Hne].
        -- rewrite dict_get_set_same, Hmem. reflexivity.
        -- rewrite (dict_get_set_other key k item cache0 Hne).
           fold (dict_mem k cache0). destruct (dict_mem k cache0); lia.
      * split; [unfold dict_mem; rewrite dict_get_set_same; reflexivity |].
        split.
        -- intros k Hk. apply dict_get_set_other. congruence.
        -- intros k. rewrite keys_set, Hmem. rewrite in_app_iff. simpl.
           intros [H | [H | []]]; auto.
Qed.

(** What a run of the loop leaves, from a cache and a log that agree. *)
Lemma stream_loop_inv (records : list (dict json)) :
  forall (cache0 : dict json) (w : World),
    consistent self cache0 (sent w) ->
    let run := stream_loop self client base_filters field_list records cache0 w in
    (forall k, dict_mem k cache0 = true ->
               dict_get k (cache run) = dict_get k cache0
               /\ lookups_for self k (sent (world run)) = 1)
    /\ dict_wf (cache run)
    /\ (forall k, In k (keys (cache run)) ->
                  In k (keys cache0)
                  \/ exists r, In r records
                               /\ py_truthy (match_value self r) = true
                               /\ cache_key_of self r = k)
    /\ (forall j r, nth_error records j = Some r ->
                    j < List.length (outputs run) ->
                    exists o,
                      nth_error (outputs run) j = Some o
                      /\ if py_truthy (match_value self r)
                         then exists payload,
                             dict_get (cache_key_of self r) (cache run)
                             = Some payload
                             /\ lookups_for self (cache_key_of self r)
                                            (sent (world run)) = 1
                             /\ enrich field_list payload r = inr o
                         else o = r).
Proof.
  induction records as [| record rest IH]; intros cache0 w Hcons; cbv zeta.
  - simpl. destruct Hcons as [Hwf Hcount].
    split; [| split; [assumption | split]].
    + intros k Hk. split; [reflexivity |]. rewrite Hcount, Hk. reflexivity.
    + intros k Hk. left. assumption.
    + intros j r Hj. destruct j; discriminate.
  - simpl. fold (match_value self record).
    destruct (py_truthy (match_value self record)) eqn:Htrue; simpl.
    + fold (cache_key_of self record).
      pose proof (lookup_consistent (cache_key_of self record) cache0 w Hcons)
        as Hlookup.
      destruct (lookup self client base_filters (cache_key_of self record)
                       cache0 w) as [[e | cache1] w'].
      * simpl. destruct Hcons as [Hwf Hcount].
        split; [| split; [assumption | split]].
        -- intros k Hk. split; [reflexivity | apply Hlookup; assumption].
        -- intros k Hk. left. assumption.
        -- intros j r _ Hj. lia.
      * destruct Hlookup as (Hcons1 & Hmem1 & Hkeep & Hkeys).
        destruct (enrich field_list (get (cache_key_of self record) cache1)
                         record) as [e | record'] eqn:Henrich.
        -- simpl. split; [| split; [exact (proj1 Hcons1) | split]].
           ++ intros k Hk. split; [apply Hkeep; assumption |].
              destruct Hcons1 as [_ Hcount1]. rewrite Hcount1.
              destruct (dict_mem_get k cache0 Hk) as [v Hv].
              unfold dict_mem. rewrite (Hkeep k Hk), Hv. reflexivity.
           ++ intros k Hk. destruct (Hkeys k Hk) as [-> | H]; [right | left; auto].
              exists record. split; [left; reflexivity | auto].
           ++ intros j r _ Hj. lia.
        -- destruct (IH cache1 w' Hcons1) as (Hstable & Hwf' & Hprov & Hout).
           simpl.
           assert (Hmem0 : forall k, dict_mem k cache0 = true ->
                                     dict_mem k cache1 = true).
           { intros k Hk. destruct (dict_mem_get k cache0 Hk) as [v Hv].
             unfold dict_mem. rewrite (Hkeep k Hk), Hv. reflexivity. }
           split; [| split; [assumption | split]].
           ++ intros k Hk. destruct (Hstable k (Hmem0 k Hk)) as [H1 H2].
              split; [rewrite H1; apply Hkeep; assumption | assumption].
           ++ intros k Hk. destruct (Hprov k Hk) as [H | (r & Hr & Ht & Hkey)].
              ** destruct (Hkeys k H) as [-> | H']; [right | left; auto].
                 exists record. split; [left; reflexivity | auto].
              ** right. exists r. split; [right; assumption | auto].
           ++ intros [| j] r Hr Hj; simpl in Hr.
              ** inversion Hr; subst r. exists record'. split; [reflexivity |].
                 rewrite Htrue.
                 destruct (Hstable _ Hmem1) as [H1 H2].
                 destruct (dict_mem_get _ cache1 Hmem1) as [payload Hpayload].
                 exists payload. rewrite H1. split; [assumption |].
                 split; [assumption |].
                 unfold get in Henrich. rewrite Hpayload in Henrich. assumption.
              ** apply Hout; [assumption | simpl in Hj; lia].
    + destruct (IH cache0 w Hcons) as (Hstable & Hwf' & Hprov & Hout).
      split; [assumption | split; [assumption | split]].
      * intros k Hk. destruct (Hprov k Hk) as [H | (r & Hr & Ht & Hkey)];
          [left; assumption | right].
        exists r. split; [right; assumption | auto].
      * intros [| j] r Hr Hj; simpl in Hr.
        -- inversion Hr; subst r. exists record. rewrite Htrue.
           split; reflexivity.
        -- apply Hout; [assumption | simpl in Hj; lia].
Qed.

End LookupFacts.

Section StreamFacts.

Import Lookup.

Variable json_loads : string -> option json.

(** What a run of [stream] leaves. *)
Lemma stream_inv (self : NetBoxLookupCommand) (records : list (dict json))
    (replies : list Reply) :
  let run := stream json_loads self records replies in
  dict_wf (cache run)
  /\ (forall k, In k (keys (cache run)) ->
                exists r, In r records
                          /\ py_truthy (match_value self r) = true
                          /\ cache_key_of self r = k)
  /\ (forall j r o, nth_error records j = Some r ->
                    nth_error (outputs run) j = Some o ->
                    if py_truthy (match_value self r)
                    then exists payload,
                        dict_get (cache_key_of self r) (cache run) = Some payload
                        /\ lookups_for self (cache_key_of self r)
                                       (sent (world run)) = 1
                        /\ enrich (field_list_of self) payload r = inr o
                    else o = r).
Proof.
  cbv zeta. unfold stream.
  assert (Hstop : forall e w,
             let run := {| outputs := []; error := Some e; cache := []; world := w |} in
             dict_wf (cache run)
             /\ (forall k, In k (keys (cache run)) ->
                           exists r, In r records
                                     /\ py_truthy (match_value self r) = true
                                     /\ cache_key_of self r = k)
             /\ (forall j r o, nth_error records j = Some r ->
                               nth_error (outputs run) j = Some o ->
                               if py_truthy (match_value self r)
                               then exists payload,
                                   dict_get (cache_key_of self r) (cache run)
                                   = Some payload
                                   /\ lookups_for self (cache_key_of self r)
                                                  (sent (world run)) = 1
                                   /\ enrich (field_list_of self) payload r = inr o
                               else o = r)).
  { intros e w. simpl. split; [constructor | split].
    - intros k [].
    - intros [| j] r o _ H; discriminate. }
  destruct (_get_client self) as [e | client]; [apply Hstop |].
  destruct (_base_filters json_loads self) as [e | base_filters]; [apply Hstop |].
  fold (field_list_of self).
  assert (Hcons : consistent self [] (sent {| pending := replies; sent := [] |})).
  { split; [constructor | reflexivity]. }
  destruct (stream_loop_inv self client base_filters (field_list_of self) records
              [] _ Hcons) as (_ & Hwf & Hprov & Hout).
  split; [assumption | split].
  - intros k Hk. destruct (Hprov k Hk) as [[] | H]. assumption.
  - intros j r o Hr Ho.
    destruct (Hout j r Hr) as (o' & Ho' & H).
    { apply nth_error_Some. congruence. }
    rewrite Ho in Ho'. inversion Ho'; subst o'. assumption.
Qed.

End StreamFacts.

(** C5, as amended.  In a run of the enrichment, take two input records
    whose match values are true and have the same text, both of them
    yielded.  Then the run has sent exactly one look-up request for that
    text, the two records were enriched from the same cached result, the keys
    of the cache are pairwise distinct, and each of them is the text of the
    true match value of some input record. *)
Theorem stream_looks_up_once
    (json_loads : string -> option json) (self : Lookup.NetBoxLookupCommand)
    (records : list (dict json)) (replies : list Reply) (i j : nat)
    (r_i r_j o_i o_j : dict json) :
  let run := Lookup.stream json_loads self records replies in
  i < j ->
  nth_error records i = Some r_i ->
  nth_error records j = Some r_j ->
  py_truthy (match_value self r_i) = true ->
  py_truthy (match_value self r_j) = true ->
  cache_key_of self r_i = cache_key_of self r_j ->
  nth_error (Lookup.outputs run) i = Some o_i ->
  nth_error (Lookup.outputs run) j = Some o_j ->
  lookups_for self (cache_key_of self r_i) (sent (Lookup.world run)) = 1
  /\ (exists payload,
         dict_get (cache_key_of self r_i) (Lookup.cache run) = Some payload
         /\ Lookup.enrich (field_list_of self) payload r_i = inr o_i
         /\ Lookup.enrich (field_list_of self) payload r_j = inr o_j)
  /\ dict_wf (Lookup.cache run)
  /\ (forall k, In k (keys (Lookup.cache run)) ->
                exists r, In r records
                          /\ py_truthy (match_value self r) = true
                          /\ cache_key_of self r = k).
Proof.
  intros run _ Hri Hrj Hti Htj Hkey Hoi Hoj.
  destruct (stream_inv json_loads self records replies) as (Hwf & Hprov & Hout).
  fold run in Hwf, Hprov, Hout.
  pose proof (Hout i r_i o_i Hri Hoi) as Hi. rewrite Hti in Hi.
  pose proof (Hout j r_j o_j Hrj Hoj) as Hj. rewrite Htj in Hj.
  destruct Hi as (payload & Hpi & Hcount & Hei).
  destruct Hj as (payload' & Hpj & _ & Hej).
  rewrite <- Hkey, Hpi in Hpj. inversion Hpj; subst payload'.
  split; [assumption |].
  split; [exists payload; auto |].
  split; assumption.
Qed.

Lemma stream_looks_up_once_witness :
  let run := Lookup.stream Reference.loads Sample.command
               [Sample.event "sw1"; Sample.event "sw2"; Sample.event "sw1"]
               [Sample.page [Sample.sw1] JNull; Sample.page [] JNull] in
  lookups_for Sample.command "sw1" (sent (Lookup.world run)) = 1
  /\ (exists payload,
         dict_get "sw1" (Lookup.cache run) = Some payload
         /\ Lookup.enrich [] payload (Sample.event "sw1")
            = inr [("host", JStr "sw1"); ("netbox", JStr Sample.sw1_text)]
         /\ Lookup.enrich [] payload (Sample.event "sw1")
            = inr [("host", JStr "sw1"); ("netbox", JStr Sample.sw1_text)])
  /\ dict_wf (Lookup.cache run)
  /\ (forall k, In k (keys (Lookup.cache run)) ->
                exists r, In r [Sample.event "sw1"; Sample.event "sw2";
                                Sample.event "sw1"]
                          /\ py_truthy (match_value Sample.command r) = true
                          /\ cache_key_of Sample.command r = k).
Proof.
  exact (stream_looks_up_once Reference.loads Sample.command
           [Sample.event "sw1"; Sample.event "sw2"; Sample.event "sw1"]
           [Sample.page [Sample.sw1] JNull; Sample.page [] JNull] 0 2
           (Sample.event "sw1") (Sample.event "sw1")
           [("host", JStr "sw1"); ("netbox", JStr Sample.sw1_text)]
           [("host", JStr "sw1"); ("netbox", JStr Sample.sw1_text)]
           (le_S _ _ (le_n 1)) eq_refl eq_refl eq_refl eq_refl eq_refl
           eq_refl eq_refl).
Defined.

(** C5, as worded, fails: two events whose match values are both the empty
    text have equal texts, and the run sends no request at all for them. *)
Lemma stream_skips_false_match_values :
  let records := [Sample.event EmptyString; Sample.event EmptyString] in
  let run := Lookup.stream Reference.loads Sample.command records
               [Sample.page [Sample.sw1] JNull] in
  cache_key_of Sample.command (Sample.event EmptyString)
  = cache_key_of Sample.command (Sample.event EmptyString)
  /\ Lookup.error run = None
  /\ Lookup.outputs run = records
  /\ sent (Lookup.world run) = []
  /\ lookups_for Sample.command
       (cache_key_of Sample.command (Sample.event EmptyString))
       (sent (Lookup.world run)) <> 1.
Proof.
  cbv zeta. repeat split. vm_compute. discriminate.
Qed.

(** C7.  When no list of field names is configured and the cached result
    for a record is true, the record yielded is the input record with the
    one key [netbox] added last, holding the API record as JSON text, when
    the input has no such key, and the input record unchanged when it has
    one.  For the API record of the specification and the event with [host]
    set to [sw1] the output holds [host] and [netbox] with the text of the
    specification; an event that already has [netbox] keeps its value. *)
Theorem stream_sets_netbox_once :
  (forall (json_loads : string -> option json)
          (self : Lookup.NetBoxLookupCommand) (records : list (dict json))
          (replies : list Reply) (j : nat) (r o : dict json) (payload : json),
      let run := Lookup.stream json_loads self records replies in
      Lookup._parse_fields (Lookup.fields self) = None ->
      nth_error records j = Some r ->
      nth_error (Lookup.outputs run) j = Some o ->
      py_truthy (match_value self r) = true ->
      dict_get (cache_key_of self r) (Lookup.cache run) = Some payload ->
      py_truthy payload = true ->
      (dict_mem "netbox" r = false ->
       o = (r ++ [("netbox", JStr (json_dumps false payload))])%list)
      /\ (dict_mem "netbox" r = true -> o = r))
  /\ Lookup.outputs
       (Lookup.stream Reference.loads Sample.command [Sample.event "sw1"]
          [Sample.page [Sample.sw1] JNull])
     = [[("host", JStr "sw1"); ("netbox", JStr Sample.sw1_text)]]
  /\ Lookup.outputs
       (Lookup.stream Reference.loads Sample.command
          [[("host", JStr "sw1"); ("netbox", JStr "kept")]]
          [Sample.page [Sample.sw1] JNull])
     = [[("host", JStr "sw1"); ("netbox", JStr "kept")]].
Proof.
  split; [| split; reflexivity].
  intros json_loads self records replies j r o payload run Hfields Hr Ho Ht Hp Htp.
  destruct (stream_inv json_loads self records replies) as (_ & _ & Hout).
  fold run in Hout.
  pose proof (Hout j r o Hr Ho) as H. rewrite Ht in H.
  destruct H as (payload' & Hp' & _ & He).
  rewrite Hp in Hp'. inversion Hp'; subst payload'.
  unfold field_list_of in He. rewrite Hfields in He.
  unfold Lookup.enrich in He. rewrite Htp in He. simpl in He.
  inversion He as [Heq]. unfold dict_setdefault.
  split; intros Hmem; rewrite Hmem; [| reflexivity].
  apply dict_set_absent. assumption.
Qed.

(** C9.  When the cached result for a record is the empty mapping, the
    record is yielded unchanged, as it is when the cached result is absence:
    [enrich] writes no key from either, whatever the list of field names. *)
Theorem stream_passes_empty_mapping_through
    (json_loads : string -> option json) (self : Lookup.NetBoxLookupCommand)
    (records : list (dict json)) (replies : list Reply) (j : nat)
    (r o : dict json) (payload : json) :
  let run := Lookup.stream json_loads self records replies in
  nth_error records j = Some r ->
  nth_error (Lookup.outputs run) j = Some o ->
  dict_get (cache_key_of self r) (Lookup.cache run) = Some payload ->
  payload = JObj [] \/ payload = JNull ->
  o = r
  /\ forall field_list record,
       Lookup.enrich field_list (JObj []) record = inr record
       /\ Lookup.enrich field_list JNull record = inr record.
Proof.
  intros run Hr Ho Hp Hpayload. split; [| intros; split; reflexivity].
  destruct (stream_inv json_loads self records replies) as (_ & _ & Hout).
  fold run in Hout.
  pose proof (Hout j r o Hr Ho) as H.
  destruct (py_truthy (match_value self r)); [| assumption].
  destruct H as (payload' & Hp' & _ & He).
  rewrite Hp in Hp'. inversion Hp'; subst payload'.
  destruct Hpayload as [-> | ->]; unfold Lookup.enrich in He; simpl in He;
    congruence.
Qed.

Lemma stream_passes_empty_mapping_through_witness :
  [("host", JStr "sw1")] = Sample.event "sw1"
  /\ forall field_list record,
       Lookup.enrich field_list (JObj []) record = inr record
       /\ Lookup.enrich field_list JNull record = inr record.
Proof.
  exact (stream_passes_empty_mapping_through Reference.loads
           (Sample.command_with (Some "site,role") None)
           [Sample.event "sw1"] [Sample.json_reply (JObj [])] 0
           (Sample.event "sw1") [("host", JStr "sw1")] (JObj [])
           eq_refl eq_refl eq_refl (or_introl eq_refl)).
Defined.

(** C4.  The time of an event is read from the fields [last_updated],
    [last_update] and [created], in this order: the first of them whose value
    is a string that one of the two formats accepts, the one with fractional
    seconds tried first, gives the time, as the epoch time of that instant;
    a field that is absent gives none, and when no field gives a time the
    event has none.  With the reference clock the record of the
    specification, [last_updated] at 2024-01-02T03:04:05.123456+00:00, gets
    1704164645.123456 seconds, counted here in microseconds. *)
Theorem guess_event_time_priority :
  (forall (datetime time : Type)
          (strptime : string -> string -> option datetime)
          (timestamp : datetime -> time) (payload : dict json),
      let time_of key := field_time strptime timestamp (get key payload) in
      Inventory._guess_event_time datetime time strptime timestamp payload
      = match time_of "last_updated" with
        | Some t => Some t
        | None =>
            match time_of "last_update" with
            | Some t => Some t
            | None => time_of "created"
            end
        end
      /\ (forall key, dict_get key payload = None -> time_of key = None)
      /\ (time_of "last_updated" = None -> time_of "last_update" = None ->
          time_of "created" = None ->
          Inventory._guess_event_time datetime time strptime timestamp payload
          = None))
  /\ Inventory._guess_event_time _ _ Reference.strptime Reference.timestamp
       [("name", JStr "sw1");
        ("last_updated", JStr "2024-01-02T03:04:05.123456+00:00")]
     = Some 1704164645123456%Z
  /\ Inventory._guess_event_time _ _ Reference.strptime Reference.timestamp
       [("created", JStr "2023-12-31T23:59:59+00:00");
        ("last_updated", JStr "2024-01-02T03:04:05+01:00")]
     = Some 1704161045000000%Z
  /\ Inventory._guess_event_time _ _ Reference.strptime Reference.timestamp
       [("name", JStr "sw1"); ("created", JStr "yesterday");
        ("last_update", JInt 1704164645)]
     = None.
Proof.
  split; [| repeat split; reflexivity].
  intros datetime time strptime timestamp payload time_of.
  assert (Hkey : forall key rest,
             Inventory.scan_keys datetime time strptime timestamp payload
               (key :: rest)
             = match time_of key with
               | Some t => Some t
               | None => Inventory.scan_keys datetime time strptime timestamp
                           payload rest
               end).
  { intros key rest. unfold time_of, field_time. simpl.
    destruct (get key payload); reflexivity. }
  assert (Hmain : Inventory._guess_event_time datetime time strptime timestamp
                    payload
                  = match time_of "last_updated" with
                    | Some t => Some t
                    | None =>
                        match time_of "last_update" with
                        | Some t => Some t
                        | None => time_of "created"
                        end
                    end).
  { unfold Inventory._guess_event_time. rewrite !Hkey. simpl.
    destruct (time_of "last_updated"); [reflexivity |].
    destruct (time_of "last_update"); [reflexivity |].
    destruct (time_of "created"); reflexivity. }
  split; [exact Hmain | split].
  - intros key Habsent. unfold time_of, get. rewrite Habsent. reflexivity.
  - intros H1 H2 H3. rewrite Hmain, H1, H2. exact H3.
Qed.

Section FilterFacts.

Lemma stringify_items_from (data : dict json) :
  forall acc : dict string,
    NoDup (keys acc ++ keys data)%list ->
    fold_left (fun acc '(k, v) => dict_set (py_str (JStr k)) (py_str v) acc)
              data acc
    = (acc ++ stringified data)%list.
Proof.
  induction data as [| [k v] data IH]; intros acc Hnd; simpl.
  - rewrite app_nil_r. reflexivity.
  - rewrite dict_set_absent.
    + rewrite IH.
      * rewrite <- app_assoc. reflexivity.
      * unfold keys in *. rewrite map_app, <- app_assoc. exact Hnd.
    + destruct (dict_mem k acc) eqn:E; [| reflexivity].
      apply dict_mem_in in E. apply NoDup_remove_2 in Hnd.
      exfalso. apply Hnd. apply in_or_app. left. assumption.
Qed.

Lemma stringify_items_map (data : dict json) :
  dict_wf data -> Inventory.stringify_items data = stringified data.
Proof.
  intros Hwf. unfold Inventory.stringify_items.
  rewrite stringify_items_from; [reflexivity | exact Hwf].
Qed.

Lemma lstrip_whitespace_only (s : string) :
  whitespace_only s = true -> lstrip_by is_space s = EmptyString.
Proof.
  induction s as [| c s IH]; simpl; [reflexivity |].
  destruct (is_space c); [exact IH | discriminate].
Qed.

Lemma strip_whitespace_only (s : string) :
  whitespace_only s = true -> strip s = EmptyString.
Proof.
  intros H. unfold strip. rewrite lstrip_whitespace_only by assumption.
  reflexivity.
Qed.

End FilterFacts.

(** What the two parsers of filter parameters share.  Both turn a JSON
    object into the mapping from [str(k)] to [str(v)] of its pairs, whatever
    the JSON values are; both give the empty mapping for an absent or empty
    configuration, and [_parse_json], which strips its text first, also for
    one of white space only.  With the reference decoder, numbers, booleans
    and null come out as the texts 50, True and None. *)
Theorem filters_are_stringified (json_loads : string -> option json) :
  (forall (value : string) (data : dict json),
      strip value <> EmptyString ->
      json_loads (strip value) = Some (JObj data) ->
      dict_wf data ->
      Inventory._parse_json json_loads (Some value) = inr (stringified data))
  /\ (forall (self : Lookup.NetBoxLookupCommand) (q : string) (data : dict json),
         Lookup.query self = Some q ->
         q <> EmptyString ->
         json_loads q = Some (JObj data) ->
         dict_wf data ->
         Lookup._base_filters json_loads self = inr (stringified data))
  /\ Inventory._parse_json json_loads None = inr []
  /\ (forall value : string,
         whitespace_only value = true ->
         Inventory._parse_json json_loads (Some value) = inr [])
  /\ (forall self : Lookup.NetBoxLookupCommand,
         Lookup.query self = None \/ Lookup.query self = Some EmptyString ->
         Lookup._base_filters json_loads self = inr [])
  /\ Inventory._parse_json Reference.loads (Some Sample.filters_text)
     = inr [("site", "nyc"); ("limit", "50"); ("active", "True");
            ("tenant", "None")]
  /\ Lookup._base_filters Reference.loads
       (Sample.command_with None (Some Sample.filters_text))
     = inr [("site", "nyc"); ("limit", "50"); ("active", "True");
            ("tenant", "None")].
Proof.
  split; [| split; [| split; [| split; [| split; [| split]]]]];
    try reflexivity.
  - intros value data Hne Hloads Hwf. unfold Inventory._parse_json.
    destruct (String.eqb_spec value EmptyString) as [-> | _];
      [exfalso; apply Hne; reflexivity |].
    destruct (String.eqb_spec (strip value) EmptyString) as [He | _];
      [contradiction |].
    rewrite Hloads, stringify_items_map by assumption. reflexivity.
  - intros self q data Hq Hne Hloads Hwf. unfold Lookup._base_filters.
    rewrite Hq.
    destruct (String.eqb_spec q EmptyString) as [He | _]; [contradiction |].
    rewrite Hloads, stringify_items_map by assumption. reflexivity.
  - intros value Hws. unfold Inventory._parse_json.
    destruct (String.eqb value EmptyString); [reflexivity |].
    rewrite strip_whitespace_only by assumption. reflexivity.
  - intros self [H | H]; unfold Lookup._base_filters; rewrite H; reflexivity.
Qed.

(** C10.  The claim holds of [_parse_json] and not of [_base_filters],
    which does not strip its text as [_parse_json] does: a configuration of
    three spaces goes to the decoder, which refuses it, and the command
    fails with [ValueError] where [_parse_json] gives the empty mapping. *)
Lemma base_filters_rejects_white_space :
  let spaces := String " " (String " " (String " " EmptyString)) in
  whitespace_only spaces = true
  /\ Reference.loads spaces = None
  /\ Inventory._parse_json Reference.loads (Some spaces) = inr []
  /\ Lookup._base_filters Reference.loads (Sample.command_with None (Some spaces))
     = inl (ValueError "Query filters must be a JSON object")
  /\ Lookup._base_filters Reference.loads (Sample.command_with None (Some spaces))
     <> inr [].
Proof.
  cbv zeta. repeat split. discriminate.
Qed.

(* ================================================================== *)
(** * Further properties of the code *)
(* ================================================================== *)

Section MoreClientFacts.

(** One iteration of the loop on a reply that ends it at once. *)
Lemma fetch_ending (g : Generator) (next_url : json)
    (current_params : option (dict string)) (reply : Reply)
    (rest : list Reply) (log : list Request) (path : string)
    (r : GenResult) :
  py_or next_url (JStr (gen_resource g)) = JStr path ->
  match reply with
  | inl e => r = Raise e
  | inr response =>
      if ok response then
        match json_body response with
        | None => r = Raise (non_json_error response)
        | Some (JList []) => r = StopIteration
        | Some (JList (_ :: _)) => False
        | Some (JObj _) => False
        | Some data =>
            r = Raise (ApiError "Unexpected response structure from NetBox" None
                                (JObj [("raw", JStr (json_dumps true data))]))
        end
      else r = Raise (ApiError ("NetBox API request failed with status "
                                  ++ str_of_Z (status_code response))
                               (Some (status_code response))
                               (error_payload response))
  end ->
  fetch g next_url current_params {| pending := reply :: rest; sent := log |}
  = (r, suspend g Finished,
     {| pending := rest;
        sent := (log ++ [request_for (gen_self g) path
                           (if negb (py_truthy next_url)
                            then current_params else None)])%list |}).
Proof.
  intros Hpath Hr.
  pose proof (fetch_unfold g next_url current_params
                {| pending := reply :: rest; sent := log |}) as H.
  unfold loop_body in H. rewrite Hpath, request_reply in H.
  unfold request_for. unfold non_json_error in Hr.
  destruct reply as [e | response]; [subst r; unfold Reply in *; congruence |].
  destruct (ok response); [| subst r; unfold Reply in *; congruence].
  destruct (json_body response) as [[ | b | n | fl | s | items | m] |];
    try contradiction;
    try (subst r; unfold NetBoxAPIError, py_or in H; cbn [py_truthy] in H;
         unfold Reply in *; congruence).
  destruct items as [| item more]; [| contradiction].
  subst r. unfold for_list in H. unfold Reply in *. congruence.
Qed.

(** One iteration of the loop on an array that is not empty. *)
Lemma fetch_list (g : Generator) (next_url : json)
    (current_params : option (dict string)) (response : Response)
    (item : json) (more : list json)
    (rest : list Reply) (log : list Request) (path : string) :
  py_or next_url (JStr (gen_resource g)) = JStr path ->
  ok response = true ->
  json_body response = Some (JList (item :: more)) ->
  fetch g next_url current_params
        {| pending := inr response :: rest; sent := log |}
  = (Yield item, suspend g (AtList more),
     {| pending := rest;
        sent := (log ++ [request_for (gen_self g) path
                           (if negb (py_truthy next_url)
                            then current_params else None)])%list |}).
Proof.
  intros Hpath Hok Hbody.
  pose proof (fetch_unfold g next_url current_params
                {| pending := inr response :: rest; sent := log |}) as H.
  unfold loop_body in H. rewrite Hpath, request_reply, Hok, Hbody in H.
  unfold for_list in H. unfold request_for. unfold Reply in *. congruence.
Qed.

Lemma next_at_list (g : Generator) (w : World) (items : list json) :
  gen_at g = AtList items ->
  next g w = match items with
             | item :: more => (Yield item, suspend g (AtList more), w)
             | [] => (StopIteration, suspend g Finished, w)
             end.
Proof. intros H. unfold next. rewrite H. destruct items; reflexivity. Qed.

Lemma drain_at_list (items : list json) :
  forall (g : Generator) (w : World),
    gen_at g = AtList items ->
    drain (S (List.length items)) g w = Some (items, Exhausted, w).
Proof.
  induction items as [| item more IH]; intros g w Hat.
  - rewrite drain_unfold, (next_at_list g w [] Hat). reflexivity.
  - rewrite drain_unfold, (next_at_list g w (item :: more) Hat).
    cbn [drain_after List.length].
    rewrite (IH (suspend g (AtList more)) w eq_refl). reflexivity.
Qed.

End MoreClientFacts.

(** A response that is a bare array of m records: [iter_resource] yields
    exactly these records, in order, after one request, and ends; the
    replies after it stay unread. *)
Theorem iter_resource_bare_list
    (self : NetBoxClient) (resource : string) (params : option (dict string))
    (response : Response) (items : list json) (rest : list Reply)
    (log : list Request) (fuel : nat) :
  ok response = true ->
  json_body response = Some (JList items) ->
  List.length items < fuel ->
  drain fuel (iter_resource self resource params)
        {| pending := inr response :: rest; sent := log |}
  = Some (items, Exhausted,
          {| pending := rest;
             sent := (log ++ [request_for self resource
                                (Some (params_or_empty params))])%list |}).
Proof.
  intros Hok Hbody Hfuel.
  apply drain_mono with (fuel := S (List.length items)); [| lia].
  rewrite drain_unfold, next_at_start by reflexivity.
  destruct items as [| item more].
  - rewrite (fetch_ending (iter_resource self resource params) JNull _
               (inr response) rest log resource StopIteration eq_refl).
    + reflexivity.
    + rewrite Hok, Hbody. reflexivity.
  - rewrite (fetch_list (iter_resource self resource params) JNull _ response
               item more rest log resource eq_refl Hok Hbody).
    cbn [drain_after List.length].
    rewrite (drain_at_list more
               (suspend (iter_resource self resource params) (AtList more))
               _ eq_refl).
    reflexivity.
Qed.

Lemma iter_resource_bare_list_witness :
  drain 3 (iter_resource Sample.client "dcim/sites" None)
        (Sample.fresh [Sample.json_reply (JList [Sample.sw1; Sample.sw2]);
                       Sample.page [Sample.sw3] JNull])
  = Some ([Sample.sw1; Sample.sw2], Exhausted,
          {| pending := [Sample.page [Sample.sw3] JNull];
             sent := [request_for Sample.client "dcim/sites" (Some [])] |}).
Proof.
  exact (iter_resource_bare_list Sample.client "dcim/sites" None
           (Sample.json_response (JList [Sample.sw1; Sample.sw2]))
           [Sample.sw1; Sample.sw2] [Sample.page [Sample.sw3] JNull] [] 3
           eq_refl eq_refl (le_n 3)).
Defined.

(** A successful response whose JSON body is a number, a string, a boolean
    or null: [iter_resource] yields nothing and fails, after its one request,
    with an API error without status whose payload holds under [raw] the
    body serialised again by [json.dumps]. *)
Theorem iter_resource_rejects_scalar
    (self : NetBoxClient) (resource : string) (params : option (dict string))
    (response : Response) (data : json) (rest : list Reply)
    (log : list Request) (fuel : nat) :
  ok response = true ->
  json_body response = Some data ->
  is_scalar data = true ->
  0 < fuel ->
  drain fuel (iter_resource self resource params)
        {| pending := inr response :: rest; sent := log |}
  = Some ([], Failed (ApiError "Unexpected response structure from NetBox" None
                               (JObj [("raw", JStr (json_dumps true data))])),
          {| pending := rest;
             sent := (log ++ [request_for self resource
                                (Some (params_or_empty params))])%list |}).
Proof.
  intros Hok Hbody Hscalar Hfuel.
  apply drain_mono with (fuel := 1); [| lia].
  rewrite drain_unfold, next_at_start by reflexivity.
  rewrite (fetch_ending (iter_resource self resource params) JNull _
             (inr response) rest log resource
             (Raise (ApiError "Unexpected response structure from NetBox" None
                              (JObj [("raw", JStr (json_dumps true data))])))
             eq_refl).
  - reflexivity.
  - rewrite Hok, Hbody. destruct data; try reflexivity; discriminate.
Qed.

Lemma iter_resource_rejects_scalar_witness :
  drain 1 (iter_resource Sample.client "status" None)
        (Sample.fresh [Sample.json_reply (JStr "ok")])
  = Some ([], Failed (ApiError "Unexpected response structure from NetBox" None
                               (JObj [("raw", JStr (Sample.quoted "ok"))])),
          {| pending := [];
             sent := [request_for Sample.client "status" (Some [])] |}).
Proof.
  exact (iter_resource_rejects_scalar Sample.client "status" None
           (Sample.json_response (JStr "ok")) (JStr "ok") [] [] 1
           eq_refl eq_refl eq_refl (le_n 1)).
Defined.

(** A successful response whose body is not JSON is an error for both
    readers: [iter_resource] yields nothing and fails, and [get_by_id] fails,
    with the same API error, which has no status and carries the raw text of
    the body under [raw]. *)
Theorem non_json_success_is_an_error
    (self : NetBoxClient) (resource : string) (params : option (dict string))
    (object_id : json) (response : Response) (rest : list Reply)
    (log : list Request) (fuel : nat) :
  ok response = true ->
  json_body response = None ->
  0 < fuel ->
  let err := ApiError "NetBox API returned non JSON response" None
                      (JObj [("raw", JStr (text response))]) in
  drain fuel (iter_resource self resource params)
        {| pending := inr response :: rest; sent := log |}
  = Some ([], Failed err,
          {| pending := rest;
             sent := (log ++ [request_for self resource
                                (Some (params_or_empty params))])%list |})
  /\ fst (get_by_id self resource object_id
            {| pending := inr response :: rest; sent := log |})
     = inl err.
Proof.
  intros Hok Hbody Hfuel err. split.
  - apply drain_mono with (fuel := 1); [| lia].
    rewrite drain_unfold, next_at_start by reflexivity.
    rewrite (fetch_ending (iter_resource self resource params) JNull _
               (inr response) rest log resource (Raise err) eq_refl).
    + reflexivity.
    + rewrite Hok, Hbody. reflexivity.
  - unfold get_by_id. rewrite request_reply, Hok, Hbody. reflexivity.
Qed.

Lemma non_json_success_is_an_error_witness :
  let err := ApiError "NetBox API returned non JSON response" None
                      (JObj [("raw", JStr "<html>maintenance</html>")]) in
  drain 1 (iter_resource Sample.client "dcim/devices" None)
        (Sample.fresh [inr (Sample.text_response 200 "<html>maintenance</html>")])
  = Some ([], Failed err,
          {| pending := [];
             sent := [request_for Sample.client "dcim/devices" (Some [])] |})
  /\ fst (get_by_id Sample.client "dcim/devices" (JInt 7)
            (Sample.fresh
               [inr (Sample.text_response 200 "<html>maintenance</html>")]))
     = inl err.
Proof.
  exact (non_json_success_is_an_error Sample.client "dcim/devices" None (JInt 7)
           (Sample.text_response 200 "<html>maintenance</html>") [] [] 1
           eq_refl eq_refl (le_n 1)).
Defined.

Section FailureFacts.

Lemma failure_ends_fetch (g : Generator) (next_url : json)
    (current_params : option (dict string)) (bad : Reply) (err : exn)
    (rest : list Reply) (log : list Request) (path : string) :
  py_or next_url (JStr (gen_resource g)) = JStr path ->
  failure_of bad = Some err ->
  fetch g next_url current_params {| pending := bad :: rest; sent := log |}
  = (Raise err, suspend g Finished,
     {| pending := rest;
        sent := (log ++ [request_for (gen_self g) path
                           (if negb (py_truthy next_url)
                            then current_params else None)])%list |}).
Proof.
  intros Hpath Hbad. apply fetch_ending; [assumption |].
  unfold failure_of in Hbad. destruct bad as [e | response].
  - congruence.
  - destruct (ok response); [discriminate | congruence].
Qed.

(** The loop over pages that end in a failure. *)
Lemma drain_open_chain replies itemss cursors :
  open_chain replies itemss cursors ->
  forall (g : Generator) (next_url : json) (current_params : option (dict string))
         (path : string) (bad : Reply) (err : exn) (extra : list Reply)
         (log : list Request),
    py_or next_url (JStr (gen_resource g)) = JStr path ->
    failure_of bad = Some err ->
    drain_after (List.length (List.concat itemss))
      (fetch g next_url current_params
         {| pending := (replies ++ bad :: extra)%list; sent := log |})
    = Some (List.concat itemss, Failed err,
            {| pending := extra;
               sent := (log ++ request_for (gen_self g) path
                                 (if negb (py_truthy next_url)
                                  then current_params else None)
                            :: map (fun u => request_for (gen_self g) u None)
                                   cursors)%list |}).
Proof.
  induction 1 as [| reply items cursor replies itemss cursors Hpage Hne Hchain IH];
    intros g next_url current_params path bad err extra log Hpath Hbad.
  - simpl app. rewrite (failure_ends_fetch g _ _ bad err extra log path Hpath Hbad).
    reflexivity.
  - destruct (fetch_page g next_url current_params reply
                (replies ++ bad :: extra)%list log items (JStr cursor) path
                Hpage Hpath) as (data & Hnxt & Hfetch).
    assert (Htrue : py_truthy (JStr cursor) = true).
    { simpl. destruct (String.eqb_spec cursor EmptyString);
        [contradiction | reflexivity]. }
    assert (Hor : forall g', py_or (JStr cursor) (JStr (gen_resource g'))
                             = JStr cursor).
    { intros g'. unfold py_or. rewrite Htrue. reflexivity. }
    simpl app. rewrite Hfetch. cbv zeta. simpl List.concat.
    destruct items as [| item more].
    + rewrite Htrue.
      rewrite (IH g (JStr cursor) None cursor bad err extra _ (Hor g) Hbad).
      rewrite Htrue. simpl. rewrite <- app_assoc. reflexivity.
    + match goal with |- context [(Yield _, _, ?w)] => set (w1 := w) end.
      assert (Hd : drain (S (List.length (List.concat itemss)))
                     (suspend g (AtResults [] data)) w1
                   = Some (List.concat itemss, Failed err,
                           {| pending := extra;
                              sent := (sent w1
                                         ++ map (fun u => request_for (gen_self g) u None)
                                                (cursor :: cursors))%list |})).
      { rewrite drain_unfold,
          (next_at_results_nil (suspend g (AtResults [] data)) w1 data eq_refl).
        rewrite Hnxt, Htrue. unfold w1.
        rewrite (IH _ (JStr cursor) None cursor bad err extra _ (Hor _) Hbad).
        rewrite Htrue. reflexivity. }
      cbn [drain_after List.length app].
      rewrite length_app, <- Nat.add_succ_r.
      rewrite (drain_at_results more (suspend g (AtResults more data)) data
                 _ _ _ _ _ eq_refl Hd).
      subst w1. simpl. rewrite <- app_assoc. reflexivity.
Qed.

Lemma rstrip_by_last (p : ascii -> bool) (c : ascii) (s : string) :
  p c = true -> rstrip_by p (s ++ String c EmptyString) = rstrip_by p s.
Proof.
  intros Hc. induction s as [| a s IH]; simpl.
  - rewrite Hc. reflexivity.
  - rewrite IH. reflexivity.
Qed.

Lemma ends_with_slash_app (s : string) :
  ends_with_slash (s ++ "/") = true.
Proof.
  induction s as [| a s IH]; [reflexivity |].
  simpl. destruct (s ++ "/") eqn:E; [| exact IH].
  destruct s; discriminate.
Qed.

End FailureFacts.

(** A failure is terminal for an enumeration: when the pages of a collection
    are followed by a reply that makes [_request] raise, be it a failure of
    the transport or a status of the failure range, [iter_resource] yields
    the records of the pages before it, in order, then raises that very
    exception; it sends no request after the one that failed. *)
Theorem iter_resource_failure_is_terminal
    (self : NetBoxClient) (resource : string) (params : option (dict string))
    (replies extra : list Reply) (bad : Reply) (err : exn)
    (itemss : list (list json)) (cursors : list string)
    (log : list Request) (fuel : nat) :
  open_chain replies itemss cursors ->
  failure_of bad = Some err ->
  List.length (List.concat itemss) < fuel ->
  drain fuel (iter_resource self resource params)
        {| pending := (replies ++ bad :: extra)%list; sent := log |}
  = Some (List.concat itemss, Failed err,
          {| pending := extra;
             sent := (log ++ request_for self resource
                               (Some (params_or_empty params))
                          :: map (fun cursor => request_for self cursor None)
                                 cursors)%list |}).
Proof.
  intros Hchain Hbad Hfuel.
  destruct fuel as [| fuel]; [lia |].
  rewrite drain_unfold, next_at_start by reflexivity.
  apply drain_after_mono with (fuel := List.length (List.concat itemss));
    [| lia].
  apply (drain_open_chain replies itemss cursors Hchain
           (iter_resource self resource params) JNull
           (Some (params_or_empty params)) resource bad err extra log
           eq_refl Hbad).
Qed.

Lemma sample_open_chain :
  open_chain [Sample.page [Sample.sw1; Sample.sw2] (JStr Sample.cursor)]
             [[Sample.sw1; Sample.sw2]] [Sample.cursor].
Proof.
  apply open_more; [reflexivity | discriminate | apply open_nil].
Defined.

Lemma iter_resource_failure_is_terminal_witness :
  drain 3 (iter_resource Sample.client "dcim/devices" None)
        (Sample.fresh [Sample.page [Sample.sw1; Sample.sw2] (JStr Sample.cursor);
                       inr (Sample.text_response 503 "Service Unavailable");
                       Sample.page [Sample.sw3] JNull])
  = Some ([Sample.sw1; Sample.sw2],
          Failed (ApiError "NetBox API request failed with status 503"
                           (Some 503%Z) (JObj [])),
          {| pending := [Sample.page [Sample.sw3] JNull];
             sent := [request_for Sample.client "dcim/devices" (Some []);
                      request_for Sample.client Sample.cursor None] |}).
Proof.
  exact (iter_resource_failure_is_terminal Sample.client "dcim/devices" None
           [Sample.page [Sample.sw1; Sample.sw2] (JStr Sample.cursor)]
           [Sample.page [Sample.sw3] JNull]
           (inr (Sample.text_response 503 "Service Unavailable")) _
           [[Sample.sw1; Sample.sw2]] [Sample.cursor] [] 3
           sample_open_chain eq_refl (le_n 3)).
Defined.

(** Every call of [_request] with a string path sends exactly one request,
    with the method and the parameters given, and reads at most one reply.
    Slashes at the head of the path are dropped before the URL is joined, so
    a path with one more gives the same call; a reply of the success range
    is returned as it is. *)
Theorem request_sends_one_request
    (self : NetBoxClient) (method path : string)
    (params : option (dict string)) (w : World) :
  let result := _request self method (JStr path) params w in
  sent (snd result)
  = (sent w ++ [{| req_method := method;
                  req_url := urljoin (base_url self) (lstrip_slash path);
                  req_params := params;
                  req_timeout := Client.timeout self;
                  req_verify := verify self |}])%list
  /\ pending (snd result) = tl (pending w)
  /\ _request self method (JStr (String "/" path)) params w = result
  /\ (forall response rest,
         pending w = inr response :: rest -> ok response = true ->
         fst result = inr response).
Proof.
  cbv zeta. split; [apply request_log |].
  split; [| split].
  - destruct w as [[| reply rest] log]; [reflexivity |].
    rewrite request_reply. reflexivity.
  - reflexivity.
  - intros response rest Hpending Hok. destruct w as [pend log].
    simpl in Hpending. subst pend. rewrite request_reply, Hok. reflexivity.
Qed.

(** [get_by_id] drops the slashes at the end of the resource before it adds
    the identifier: a resource written with a slash at its end gives the
    same request and the same result as without it. *)
Theorem get_by_id_ignores_trailing_slash
    (self : NetBoxClient) (resource : string) (object_id : json) :
  (forall w,
      get_by_id self (resource ++ "/") object_id w
      = get_by_id self resource object_id w)
  /\ (forall reply rest log,
         sent (snd (get_by_id self resource object_id
                      {| pending := reply :: rest; sent := log |}))
         = (log ++ [request_for self
                      (rstrip_slash resource ++ "/" ++ py_str object_id ++ "/")
                      None])%list).
Proof.
  split.
  - intros w. unfold get_by_id, rstrip_slash.
    rewrite (rstrip_by_last is_slash "/"%char resource eq_refl). reflexivity.
  - intros reply rest log. unfold get_by_id. rewrite request_reply.
    unfold request_for.
    destruct reply as [e | response].
    + destruct e as [message [n |] payload | | | | ]; try reflexivity.
      destruct (n =? 404)%Z; reflexivity.
    + destruct (ok response).
      * destruct (json_body response); reflexivity.
      * destruct (status_code response =? 404)%Z; reflexivity.
Qed.

(** The constructor of the client refuses an empty base URL and otherwise
    keeps a base URL that ends with a slash: the URL given when it ends with
    one, the URL with one slash added when it does not.  A base URL that the
    constructor has produced is left as it is by the constructor. *)
Theorem client_base_url_ends_with_slash
    (url : string) (tok : option string) (vfy : bool) (tmo : Z) :
  (url = EmptyString ->
   NetBoxClient_init url tok vfy tmo
   = inl (ValueError "NetBox base URL must be provided"))
  /\ (url <> EmptyString ->
      exists c,
        NetBoxClient_init url tok vfy tmo = inr c
        /\ ends_with_slash (base_url c) = true
        /\ base_url c = (if ends_with_slash url then url else url ++ "/")
        /\ Client.token c = tok /\ verify c = vfy /\ Client.timeout c = tmo
        /\ NetBoxClient_init (base_url c) tok vfy tmo = inr c).
Proof.
  split.
  - intros ->. reflexivity.
  - intros Hne. unfold NetBoxClient_init.
    destruct (String.eqb_spec url EmptyString) as [He | _]; [contradiction |].
    eexists. split; [reflexivity |]. simpl.
    assert (Hends : ends_with_slash
                      (if ends_with_slash url then url else url ++ "/") = true).
    { destruct (ends_with_slash url) eqn:E; [assumption |].
      apply ends_with_slash_app. }
    repeat split; try assumption.
    destruct (String.eqb_spec (if ends_with_slash url then url else url ++ "/")
                              EmptyString) as [He | _].
    + rewrite He in Hends. discriminate.
    + rewrite Hends. reflexivity.
Qed.

Section EnrichFacts.

Import Lookup.

Lemma netbox_field_key (f : string) : is_netbox_key ("netbox_" ++ f) = true.
Proof. reflexivity. Qed.

Lemma is_netbox_key_neq (k : string) (f : string) :
  is_netbox_key k = false -> ("netbox_" ++ f) <> k.
Proof. intros H <-. rewrite netbox_field_key in H. discriminate. Qed.

Lemma dict_set_keys_grow {V : Type} (k : string) (v : V) (d : dict V) :
  exists added, keys (dict_set k v d) = (keys d ++ added)%list
                /\ (added = [] \/ added = [k]).
Proof.
  rewrite keys_set. destruct (dict_mem k d).
  - exists []. rewrite app_nil_r. auto.
  - exists [k]. auto.
Qed.

Lemma project_spec (field_list : list string) (m : dict json) :
  forall (r o : dict json),
    project field_list (JObj m) r = inr o ->
    (forall f, In f field_list -> dict_get ("netbox_" ++ f) o = Some (get f m))
    /\ (forall k, (forall f, In f field_list -> ("netbox_" ++ f) <> k) ->
                  dict_get k o = dict_get k r)
    /\ exists added,
         keys o = (keys r ++ added)%list
         /\ Forall (fun k => is_netbox_key k = true) added.
Proof.
  induction field_list as [| f rest IH]; intros r o H.
  - simpl in H. inversion H; subst o. split; [intros f [] |]. split; [reflexivity |].
    exists []. rewrite app_nil_r. split; [reflexivity | constructor].
  - change (project rest (JObj m) (dict_set ("netbox_" ++ f) (get f m) r)
            = inr o) in H.
    destruct (IH _ _ H) as (Hin & Hout & added & Hkeys & Hadded).
    split; [| split].
    + intros f' [<- | Hf']; [| apply Hin; assumption].
      destruct (in_dec string_dec f rest) as [Hrest | Hrest];
        [apply Hin; assumption |].
      rewrite Hout.
      * apply dict_get_set_same.
      * intros f' Hf' Heq. apply Hrest.
        assert (f' = f) as ->; [| assumption].
        simpl in Heq. congruence.
    + intros k Hk. rewrite Hout.
      * apply dict_get_set_other. apply Hk. left. reflexivity.
      * intros f' Hf'. apply Hk. right. assumption.
    + destruct (dict_set_keys_grow ("netbox_" ++ f) (get f m) r)
        as (a1 & Ha1 & Hcase).
      exists (a1 ++ added)%list. rewrite Hkeys, Ha1, <- app_assoc.
      split; [reflexivity |].
      apply Forall_app. split; [| assumption].
      destruct Hcase as [-> | ->]; repeat constructor.
Qed.

(** What [enrich] keeps of a record. *)
Lemma enrich_keeps (field_list : list string) (payload : json)
    (r o : dict json) :
  enrich field_list payload r = inr o ->
  (forall k, is_netbox_key k = false -> dict_get k o = dict_get k r)
  /\ exists added,
       keys o = (keys r ++ added)%list
       /\ Forall (fun k => is_netbox_key k = true) added.
Proof.
  unfold enrich. destruct (negb (py_truthy payload)).
  - intros H; inversion H; subst o. split; [reflexivity |].
    exists []. rewrite app_nil_r. split; [reflexivity | constructor].
  - destruct field_list as [| f rest].
    + intros H; inversion H; subst o. unfold dict_setdefault.
      destruct (dict_mem "netbox" r).
      * split; [reflexivity |].
        exists []. rewrite app_nil_r. split; [reflexivity | constructor].
      * split.
        -- intros k Hk. apply dict_get_set_other. intros <-. discriminate.
        -- destruct (dict_set_keys_grow "netbox"
                       (JStr (json_dumps false payload)) r)
             as (a1 & Ha1 & Hcase).
           exists a1. split; [assumption |].
           destruct Hcase as [-> | ->]; repeat constructor.
    + destruct payload; try discriminate.
      intros H. destruct (project_spec _ _ _ _ H) as (_ & Hout & Hadded).
      split; [| assumption].
      intros k Hk. apply Hout. intros f' _. apply is_netbox_key_neq. assumption.
Qed.

Variable self : NetBoxLookupCommand.
Variable client : NetBoxClient.
Variable base_filters : dict string.
Variable field_list : list string.

Lemma stream_loop_lengths (records : list (dict json)) :
  forall (cache0 : dict json) (w : World),
    let run := stream_loop self client base_filters field_list records cache0 w in
    match error run with
    | None => List.length (outputs run) = List.length records
    | Some _ => List.length (outputs run) < List.length records
    end.
Proof.
  induction records as [| record rest IH]; intros cache0 w; cbv zeta;
    [reflexivity |].
  simpl.
  destruct (negb (py_truthy (get (match_field self) record))).
  - specialize (IH cache0 w). cbv zeta in IH. simpl.
    destruct (error (stream_loop self client base_filters field_list rest
                                 cache0 w)); simpl; lia.
  - destruct (lookup self client base_filters
                     (py_str (get (match_field self) record)) cache0 w)
      as [[e | cache1] w']; [simpl; lia |].
    destruct (enrich field_list
                     (get (py_str (get (match_field self) record)) cache1)
                     record) as [e | record']; [simpl; lia |].
    specialize (IH cache1 w'). cbv zeta in IH. simpl.
    destruct (error (stream_loop self client base_filters field_list rest
                                 cache1 w')); simpl; lia.
Qed.

(** The requests of a run: a look-up sends the static filters with the
    match value under [netbox_field]; every other request is bare. *)
Lemma stream_loop_log (records : list (dict json)) :
  forall (cache0 : dict json) (w : World),
    let run := stream_loop self client base_filters field_list records cache0 w in
    exists new,
      sent (world run) = (sent w ++ new)%list
      /\ Forall (fun rq =>
                   req_params rq = None
                   \/ exists r,
                       In r records
                       /\ py_truthy (match_value self r) = true
                       /\ rq = request_for client (resource self)
                                 (Some (dict_set (netbox_field self)
                                          (cache_key_of self r) base_filters)))
                new.
Proof.
  induction records as [| record rest IH]; intros cache0 w; cbv zeta.
  - exists []. rewrite app_nil_r. split; [reflexivity | constructor].
  - assert (Hweaken : forall new,
               Forall (fun rq =>
                   req_params rq = None
                   \/ exists r,
                       In r rest
                       /\ py_truthy (match_value self r) = true
                       /\ rq = request_for client (resource self)
                                 (Some (dict_set (netbox_field self)
                                          (cache_key_of self r) base_filters)))
                      new ->
               Forall (fun rq =>
                   req_params rq = None
                   \/ exists r,
                       In r (record :: rest)
                       /\ py_truthy (match_value self r) = true
                       /\ rq = request_for client (resource self)
                                 (Some (dict_set (netbox_field self)
                                          (cache_key_of self r) base_filters)))
                      new).
    { intros new. apply Forall_impl. intros rq [H | (r & Hr & H)];
        [left; assumption | right]. exists r. split; [right |]; assumption. }
    simpl. fold (match_value self record).
    destruct (py_truthy (match_value self record)) eqn:Htrue; simpl.
    + fold (cache_key_of self record). unfold lookup.
      destruct (dict_mem (cache_key_of self record) cache0).
      * destruct (enrich field_list (get (cache_key_of self record) cache0)
                         record) as [e | record'].
        -- exists []. rewrite app_nil_r. split; [reflexivity | constructor].
        -- destruct (IH cache0 w) as (new & Hnew & Hall).
           exists new. split; [exact Hnew | apply Hweaken; assumption].
      * destruct (get_first_log client (resource self)
                    (dict_set (netbox_field self) (cache_key_of self record)
                              base_filters) w) as (more & Hlog & Hbare).
        assert (Hfirst : Forall (fun rq =>
                   req_params rq = None
                   \/ exists r,
                       In r (record :: rest)
                       /\ py_truthy (match_value self r) = true
                       /\ rq = request_for client (resource self)
                                 (Some (dict_set (netbox_field self)
                                          (cache_key_of self r) base_filters)))
                  (request_for client (resource self)
                     (Some (dict_set (netbox_field self)
                              (cache_key_of self record) base_filters))
                   :: more)).
        { constructor.
          - right. exists record. split; [left; reflexivity |].
            split; [assumption | reflexivity].
          - unfold bare in Hbare. eapply Forall_impl; [| exact Hbare].
            intros rq H. left. exact H. }
        destruct (get_first client (resource self)
                    (Some (dict_set (netbox_field self)
                             (cache_key_of self record) base_filters)) w)
          as [[e | item] w']; simpl in Hlog.
        -- eexists. split; [exact Hlog | exact Hfirst].
        -- destruct (enrich field_list
                       (get (cache_key_of self record)
                            (dict_set (cache_key_of self record) item cache0))
                       record) as [e | record'].
           ++ eexists. split; [exact Hlog | exact Hfirst].
           ++ destruct (IH (dict_set (cache_key_of self record) item cache0) w')
                as (new & Hnew & Hall).
              simpl. eexists. split.
              ** rewrite Hnew, Hlog, <- app_assoc. reflexivity.
              ** apply Forall_app. split; [exact Hfirst |].
                 apply Hweaken. assumption.
    + destruct (IH cache0 w) as (new & Hnew & Hall).
      exists new. split; [exact Hnew | apply Hweaken; assumption].
Qed.

Lemma stream_loop_skips (records : list (dict json)) :
  forall (cache0 : dict json) (w : World),
    Forall (fun r => py_truthy (match_value self r) = false) records ->
    stream_loop self client base_filters field_list records cache0 w
    = {| outputs := records; error := None; cache := cache0; world := w |}.
Proof.
  induction records as [| record rest IH]; intros cache0 w Hall;
    [reflexivity |].
  inversion Hall as [| r l Hr Hrest]; subst. simpl.
  unfold match_value in Hr. rewrite Hr. simpl.
  rewrite IH by assumption. reflexivity.
Qed.

End EnrichFacts.

(** The enrichment is one-in-one-out and in order: a run yields at most as
    many records as it was given and, when no exception ended it, exactly as
    many; the record yielded at a position is the input record of that
    position with its keys in the same places, every key that does not start
    with [netbox] holding the value it had, and the keys added, if any, all
    starting with [netbox]. *)
Theorem stream_is_one_in_one_out
    (json_loads : string -> option json) (self : Lookup.NetBoxLookupCommand)
    (records : list (dict json)) (replies : list Reply) :
  let run := Lookup.stream json_loads self records replies in
  List.length (Lookup.outputs run) <= List.length records
  /\ (Lookup.error run = None ->
      List.length (Lookup.outputs run) = List.length records)
  /\ (forall j r o,
         nth_error records j = Some r ->
         nth_error (Lookup.outputs run) j = Some o ->
         (forall k, is_netbox_key k = false -> dict_get k o = dict_get k r)
         /\ exists added,
              keys o = (keys r ++ added)%list
              /\ Forall (fun k => is_netbox_key k = true) added).
Proof.
  intros run.
  assert (Hlen : match Lookup.error run with
                 | None => List.length (Lookup.outputs run) = List.length records
                 | Some _ => List.length (Lookup.outputs run)
                             <= List.length records
                 end).
  { unfold run, Lookup.stream.
    destruct (Lookup._get_client self) as [e | client]; [simpl; lia |].
    destruct (Lookup._base_filters json_loads self) as [e | base_filters];
      [simpl; lia |].
    match goal with
    | |- context [Lookup.stream_loop ?s ?c ?b ?f ?rs ?c0 ?w] =>
        pose proof (stream_loop_lengths s c b f rs c0 w) as H; cbv zeta in H;
        destruct (Lookup.error (Lookup.stream_loop s c b f rs c0 w))
    end; lia. }
  split; [destruct (Lookup.error run); lia |].
  split; [intros He; rewrite He in Hlen; exact Hlen |].
  intros j r o Hr Ho.
  destruct (stream_inv json_loads self records replies) as (_ & _ & Hout).
  fold run in Hout. specialize (Hout j r o Hr Ho).
  destruct (py_truthy (match_value self r)).
  - destruct Hout as (payload & _ & _ & He).
    exact (enrich_keeps _ _ _ _ He).
  - subst o. split; [reflexivity |].
    exists []. rewrite app_nil_r. split; [reflexivity | constructor].
Qed.

(** With a list of field names configured and a cached result that is a
    mapping with at least one key, the record yielded holds, for every name
    [f] of the list, the value of [f] in the API record under the key
    [netbox_f], [None] when the API record has no such field, whatever the
    input record held under that key; every other key holds the value it
    had. *)
Theorem stream_projects_fields
    (json_loads : string -> option json) (self : Lookup.NetBoxLookupCommand)
    (records : list (dict json)) (replies : list Reply) (j : nat)
    (r o : dict json) (m : dict json) :
  let run := Lookup.stream json_loads self records replies in
  field_list_of self <> [] ->
  nth_error records j = Some r ->
  nth_error (Lookup.outputs run) j = Some o ->
  py_truthy (match_value self r) = true ->
  dict_get (cache_key_of self r) (Lookup.cache run) = Some (JObj m) ->
  m <> [] ->
  (forall f, In f (field_list_of self) ->
             dict_get ("netbox_" ++ f) o = Some (get f m))
  /\ (forall k, (forall f, In f (field_list_of self) -> ("netbox_" ++ f) <> k) ->
                dict_get k o = dict_get k r).
Proof.
  intros run Hfl Hr Ho Ht Hp Hm.
  destruct (stream_inv json_loads self records replies) as (_ & _ & Hout).
  fold run in Hout. specialize (Hout j r o Hr Ho). rewrite Ht in Hout.
  destruct Hout as (payload & Hp' & _ & He).
  rewrite Hp in Hp'. inversion Hp'; subst payload.
  unfold Lookup.enrich in He.
  destruct m as [| kv m']; [contradiction |]. simpl in He.
  destruct (field_list_of self) as [| f rest] eqn:Efl; [contradiction |].
  destruct (project_spec _ _ _ _ He) as (Hin & Hother & _).
  split; assumption.
Qed.

Lemma stream_projects_fields_witness :
  let o := [("host", JStr "sw1"); ("netbox_site", JStr "nyc");
            ("netbox_role", JStr "core"); ("netbox_serial", JNull)] in
  (forall f, In f ["site"; "role"; "serial"] ->
             dict_get ("netbox_" ++ f) o
             = Some (get f [("name", JStr "sw1"); ("site", JStr "nyc");
                            ("role", JStr "core")]))
  /\ (forall k, (forall f, In f ["site"; "role"; "serial"] ->
                           ("netbox_" ++ f) <> k) ->
                dict_get k o = dict_get k (Sample.event "sw1")).
Proof.
  exact (stream_projects_fields Reference.loads
           (Sample.command_with (Some "site, role,serial") None)
           [Sample.event "sw1"] [Sample.page [Sample.sw1] JNull] 0
           (Sample.event "sw1")
           [("host", JStr "sw1"); ("netbox_site", JStr "nyc");
            ("netbox_role", JStr "core"); ("netbox_serial", JNull)]
           [("name", JStr "sw1"); ("site", JStr "nyc"); ("role", JStr "core")]
           ltac:(discriminate) eq_refl eq_refl eq_refl eq_refl
           ltac:(discriminate)).
Defined.

(** Records without a true match value cause no traffic: when the set-up of
    the command succeeds and no input record has a true value under the
    match field, the run yields the input records as they are, sends no
    request, reads no reply and leaves the cache empty. *)
Theorem stream_without_match_values_sends_nothing
    (json_loads : string -> option json) (self : Lookup.NetBoxLookupCommand)
    (records : list (dict json)) (replies : list Reply)
    (client : NetBoxClient) (base_filters : dict string) :
  Lookup._get_client self = inr client ->
  Lookup._base_filters json_loads self = inr base_filters ->
  Forall (fun r => py_truthy (match_value self r) = false) records ->
  Lookup.stream json_loads self records replies
  = {| Lookup.outputs := records; Lookup.error := None; Lookup.cache := [];
       Lookup.world := {| pending := replies; sent := [] |} |}.
Proof.
  intros Hclient Hfilters Hall. unfold Lookup.stream.
  rewrite Hclient, Hfilters. apply stream_loop_skips. assumption.
Qed.

Lemma stream_without_match_values_sends_nothing_witness :
  Lookup.stream Reference.loads Sample.command
    [[("source", JStr "fw1")]; Sample.event EmptyString;
     [("host", JInt 0); ("netbox", JStr "kept")]]
    [Sample.page [Sample.sw1] JNull]
  = {| Lookup.outputs := [[("source", JStr "fw1")]; Sample.event EmptyString;
                          [("host", JInt 0); ("netbox", JStr "kept")]];
       Lookup.error := None; Lookup.cache := [];
       Lookup.world := {| pending := [Sample.page [Sample.sw1] JNull];
                          sent := [] |} |}.
Proof.
  exact (stream_without_match_values_sends_nothing Reference.loads
           Sample.command
           [[("source", JStr "fw1")]; Sample.event EmptyString;
            [("host", JInt 0); ("netbox", JStr "kept")]]
           [Sample.page [Sample.sw1] JNull] Sample.client [] eq_refl eq_refl
           (Forall_cons [("source", JStr "fw1")] eq_refl
              (Forall_cons (Sample.event EmptyString) eq_refl
                 (Forall_cons [("host", JInt 0); ("netbox", JStr "kept")]
                    eq_refl (Forall_nil _))))).
Defined.

(** Every request of a run of the enrichment is either a follow-up request
    without parameters or the look-up of the true match value of some input
    record: it goes to the resource of the command and carries the static
    filters with the text of the match value under [netbox_field], which
    replaces a static filter of the same name. *)
Theorem stream_lookup_requests_carry_filters
    (json_loads : string -> option json) (self : Lookup.NetBoxLookupCommand)
    (records : list (dict json)) (replies : list Reply)
    (client : NetBoxClient) (base_filters : dict string) :
  Lookup._get_client self = inr client ->
  Lookup._base_filters json_loads self = inr base_filters ->
  Forall (fun rq =>
            req_params rq = None
            \/ exists r p,
                In r records
                /\ py_truthy (match_value self r) = true
                /\ req_params rq = Some p
                /\ req_url rq = urljoin (base_url client)
                                        (lstrip_slash (Lookup.resource self))
                /\ dict_get (Lookup.netbox_field self) p
                   = Some (cache_key_of self r)
                /\ forall k, k <> Lookup.netbox_field self ->
                             dict_get k p = dict_get k base_filters)
         (sent (Lookup.world (Lookup.stream json_loads self records replies))).
Proof.
  intros Hclient Hfilters. unfold Lookup.stream. rewrite Hclient, Hfilters.
  match goal with
  | |- context [Lookup.stream_loop ?s ?c ?b ?f ?rs ?c0 ?w] =>
      destruct (stream_loop_log s c b f rs c0 w) as (new & Hnew & Hall)
  end.
  rewrite Hnew. simpl. eapply Forall_impl; [| exact Hall].
  intros rq [H | (r & Hr & Ht & ->)]; [left; assumption | right].
  exists r, (dict_set (Lookup.netbox_field self) (cache_key_of self r)
                      base_filters).
  repeat split; try assumption.
  - apply dict_get_set_same.
  - intros k Hk. apply dict_get_set_other. congruence.
Qed.

Lemma stream_lookup_requests_carry_filters_witness :
  Forall (fun rq =>
            req_params rq = None
            \/ exists r p,
                In r [Sample.event "sw1"; Sample.event "sw2"]
                /\ py_truthy (match_value (Sample.command_with None
                                (Some Sample.filters_text)) r) = true
                /\ req_params rq = Some p
                /\ req_url rq = urljoin "https://netbox.example.com/api/"
                                        "dcim/devices"
                /\ dict_get "name" p = Some (cache_key_of Sample.command r)
                /\ forall k, k <> "name" ->
                             dict_get k p
                             = dict_get k [("site", "nyc"); ("limit", "50");
                                           ("active", "True");
                                           ("tenant", "None")])
         (sent (Lookup.world
                  (Lookup.stream Reference.loads
                     (Sample.command_with None (Some Sample.filters_text))
                     [Sample.event "sw1"; Sample.event "sw2"]
                     [Sample.page [] (JStr Sample.cursor);
                      Sample.page [Sample.sw1] JNull;
                      Sample.page [Sample.sw2] JNull]))).
Proof.
  exact (stream_lookup_requests_carry_filters Reference.loads
           (Sample.command_with None (Some Sample.filters_text))
           [Sample.event "sw1"; Sample.event "sw2"]
           [Sample.page [] (JStr Sample.cursor);
            Sample.page [Sample.sw1] JNull;
            Sample.page [Sample.sw2] JNull]
           Sample.client
           [("site", "nyc"); ("limit", "50"); ("active", "True");
            ("tenant", "None")]
           eq_refl eq_refl).
Defined.

Section StringFacts.

Variable p : ascii -> bool.

Lemma lstrip_by_head (s : string) (c : ascii) (r : string) :
  lstrip_by p s = String c r -> p c = false.
Proof.
  induction s as [| a s IH]; simpl; [discriminate |].
  destruct (p a) eqn:E; [exact IH |].
  intros H; inversion H; subst. exact E.
Qed.

Lemma rstrip_by_idem (s : string) :
  rstrip_by p (rstrip_by p s) = rstrip_by p s.
Proof.
  induction s as [| a s IH]; [reflexivity |].
  simpl. destruct (rstrip_by p s) as [| b u] eqn:E.
  - destruct (p a) eqn:Ea; [reflexivity |]. simpl. rewrite Ea. reflexivity.
  - change (rstrip_by p (String a (String b u)) = String a (String b u)).
    change (match rstrip_by p (String b u) with
            | EmptyString => if p a then EmptyString else String a EmptyString
            | t => String a t
            end = String a (String b u)).
    rewrite IH. reflexivity.
Qed.

Lemma rstrip_by_keeps_head (c : ascii) (t : string) :
  p c = false -> exists r, rstrip_by p (String c t) = String c r.
Proof.
  intros Hc. simpl. destruct (rstrip_by p t).
  - rewrite Hc. eexists. reflexivity.
  - eexists. reflexivity.
Qed.

Lemma lstrip_by_fixed (c : ascii) (r : string) :
  p c = false -> lstrip_by p (String c r) = String c r.
Proof. intros Hc. simpl. rewrite Hc. reflexivity. Qed.

Lemma strip_by_idem (s : string) :
  rstrip_by p (lstrip_by p (rstrip_by p (lstrip_by p s)))
  = rstrip_by p (lstrip_by p s).
Proof.
  destruct (lstrip_by p s) as [| c t] eqn:E; [reflexivity |].
  pose proof (lstrip_by_head s c t E) as Hc.
  destruct (rstrip_by_keeps_head c t Hc) as [r Hr].
  rewrite Hr, (lstrip_by_fixed c r Hc), <- Hr. apply rstrip_by_idem.
Qed.

End StringFacts.

Lemma strip_idem (s : string) : strip (strip s) = strip s.
Proof. apply strip_by_idem. Qed.

Lemma is_space_lower_char (c : ascii) : is_space (lower_char c) = is_space c.
Proof. destruct c as [[] [] [] [] [] [] [] []]; reflexivity. Qed.

Lemma lower_char_idem (c : ascii) : lower_char (lower_char c) = lower_char c.
Proof. destruct c as [[] [] [] [] [] [] [] []]; reflexivity. Qed.

Lemma lower_idem (s : string) : lower (lower s) = lower s.
Proof.
  induction s as [| c s IH]; [reflexivity |].
  simpl. rewrite lower_char_idem, IH. reflexivity.
Qed.

Lemma lower_lstrip (s : string) :
  lstrip_by is_space (lower s) = lower (lstrip_by is_space s).
Proof.
  induction s as [| c s IH]; [reflexivity |].
  simpl. rewrite is_space_lower_char. destruct (is_space c); [exact IH |].
  reflexivity.
Qed.

Lemma lower_rstrip (s : string) :
  rstrip_by is_space (lower s) = lower (rstrip_by is_space s).
Proof.
  induction s as [| c s IH]; [reflexivity |].
  simpl. rewrite IH, is_space_lower_char.
  destruct (rstrip_by is_space s); simpl; [| reflexivity].
  destruct (is_space c); reflexivity.
Qed.

Lemma lower_strip (s : string) : strip (lower s) = lower (strip s).
Proof. unfold strip. rewrite lower_lstrip, lower_rstrip. reflexivity. Qed.

(** [_parse_fields] gives either no list or a list that is not empty, of
    names that are not empty and have no white space around them; it gives
    no list exactly when the option is absent or every part between commas
    is blank. *)
Theorem parse_fields_gives_clean_names (value : option string) :
  match Lookup._parse_fields value with
  | Some names =>
      names <> []
      /\ Forall (fun f => f <> EmptyString /\ strip f = f) names
      /\ exists v, value = Some v
                   /\ names = filter (fun part => negb (String.eqb part EmptyString))
                                     (map strip (split_on ","%char v))
  | None =>
      value = None
      \/ exists v, value = Some v
                   /\ Forall (fun part => strip part = EmptyString)
                             (split_on ","%char v)
  end.
Proof.
  unfold Lookup._parse_fields. destruct value as [v |]; [| left; reflexivity].
  destruct (String.eqb_spec v EmptyString) as [-> | Hv].
  - right. exists EmptyString. split; [reflexivity |].
    repeat constructor.
  - assert (Hclean : forall parts,
               Forall (fun f => f <> EmptyString /\ strip f = f)
                      (filter (fun part => negb (String.eqb part EmptyString))
                              (map strip parts))).
    { induction parts as [| part parts IH]; simpl; [constructor |].
      destruct (String.eqb_spec (strip part) EmptyString) as [He | Hne]; simpl;
        [exact IH |].
      constructor; [| exact IH]. split; [assumption | apply strip_idem]. }
    assert (Hblank : forall parts,
               filter (fun part => negb (String.eqb part EmptyString))
                      (map strip parts) = [] ->
               Forall (fun part => strip part = EmptyString) parts).
    { induction parts as [| part parts IH]; simpl; [constructor |].
      destruct (String.eqb_spec (strip part) EmptyString) as [He | Hne]; simpl;
        [| discriminate].
      intros H. constructor; [assumption | apply IH; assumption]. }
    destruct (filter (fun part => negb (String.eqb part EmptyString))
                     (map strip (split_on ","%char v))) as [| f names] eqn:E.
    + right. exists v. split; [reflexivity | apply Hblank; assumption].
    + split; [discriminate |]. split; [rewrite <- E; apply Hclean |].
      exists v. split; [reflexivity | symmetry; exact E].
Qed.

(** [_parse_bool] reads a flag whatever its case and the white space
    around it, and never uses the default for a value that is present: the
    flag is true exactly when its text, stripped and in lower case, is one of
    1, true, yes and on, so a blank text is false, and only an absent flag
    takes the default. *)
Theorem parse_bool_reads_four_words (text : string) (default : bool) :
  Exporter._parse_bool None default = default
  /\ (Exporter._parse_bool (Some text) default = true
      <-> In (lower (strip text)) ["1"; "true"; "yes"; "on"])
  /\ Exporter._parse_bool (Some (strip text)) default
     = Exporter._parse_bool (Some text) default
  /\ Exporter._parse_bool (Some (lower text)) default
     = Exporter._parse_bool (Some text) default
  /\ Exporter._parse_bool (Some text) (negb default)
     = Exporter._parse_bool (Some text) default
  /\ (whitespace_only text = true ->
      Exporter._parse_bool (Some text) default = false).
Proof.
  split; [reflexivity |]. split; [| split; [| split; [| split]]].
  - unfold Exporter._parse_bool. rewrite existsb_exists. split.
    + intros (x & Hin & Heq). apply String.eqb_eq in Heq. subst x. exact Hin.
    + intros Hin. exists (lower (strip text)). split; [exact Hin |].
      apply String.eqb_refl.
  - unfold Exporter._parse_bool. rewrite strip_idem. reflexivity.
  - unfold Exporter._parse_bool. rewrite lower_strip, lower_idem. reflexivity.
  - reflexivity.
  - intros Hws. unfold Exporter._parse_bool.
    rewrite (strip_whitespace_only text Hws). reflexivity.
Qed.

Section ReplaceFacts.

Lemma replace_slash_no_slash (s : string) :
  contains_char "/"%char (Exporter.replace_slash s) = false.
Proof.
  induction s as [| c s IH]; [reflexivity |].
  simpl. rewrite IH. unfold is_slash.
  destruct (Ascii.eqb_spec c "/"%char) as [-> | Hne]; [reflexivity |].
  destruct (Ascii.eqb_spec c "/"%char); [contradiction | reflexivity].
Qed.

Lemma lstrip_slash_fixed (s : string) :
  Exporter.starts_with_slash s = false -> lstrip_slash s = s.
Proof.
  destruct s as [| c s]; [reflexivity |].
  simpl. unfold lstrip_slash. simpl. intros ->. reflexivity.
Qed.

End ReplaceFacts.


Section ExportFacts.

Variable json_loads : string -> option json.
Variables datetime T : Type.
Variable strptime : string -> string -> option datetime.
Variable timestamp : datetime -> T.

Lemma make_event_mapping (name stype : string) (m : dict json) :
  Exporter.make_event datetime T strptime timestamp name stype (JObj m)
  = inr (event_for strptime timestamp name stype m).
Proof.
  unfold Exporter.make_event, event_for, get.
  destruct (dict_get "name" m) as [[ | | | | | | ] |]; reflexivity.
Qed.

Lemma export_follows_drain_from (fuel : nat) (name stype : string) :
  forall (g : Generator) (w w' : World) (ms : list (dict json)) (e : Ending),
    drain fuel g w = Some (map JObj ms, e, w') ->
    Exporter.export_loop datetime T strptime timestamp fuel name stype g w
    = Some (map (event_for strptime timestamp name stype) ms,
            ending_error e, w').
Proof.
  induction fuel as [| fuel IH]; intros g w w' ms e Hd; [discriminate |].
  simpl in Hd. simpl.
  destruct (next g w) as [[[item | | err] g1] w1].
  - destruct (drain fuel g1 w1) as [[[items e1] w2] |] eqn:Hd1;
      [| discriminate].
    inversion Hd as [[Hitems He Hw]]. subst e1 w2.
    destruct ms as [| m ms]; [discriminate |].
    simpl in Hitems. inversion Hitems; subst item items.
    rewrite make_event_mapping, (IH g1 w1 w' ms e Hd1). reflexivity.
  - inversion Hd as [[Hitems He Hw]]. destruct ms; [| discriminate].
    reflexivity.
  - inversion Hd as [[Hitems He Hw]]. destruct ms; [| discriminate].
    reflexivity.
Qed.

Lemma strip_values_get (key : string) (payload : dict json) :
  get key (strip_values payload)
  = match get key payload with
    | JStr s => JStr (strip s)
    | v => v
    end.
Proof.
  unfold get, strip_values. induction payload as [| [k v] payload IH]; simpl;
    [reflexivity |].
  destruct (String.eqb key k); [destruct v; reflexivity | exact IH].
Qed.

End ExportFacts.

(** The exporter writes one event for each record that the iterator yields,
    in the order of the iterator and whatever the shape of the responses:
    when consuming the iterator gives the mappings [ms] and then ends or
    fails, the loop of the exporter writes the events of [ms], each with the
    record as JSON text, the name of the stanza, the source type, the time
    that [_guess_event_time] reads and the host taken from a string under
    [name]; it ends with the same exception, if any, and the same session. *)
Theorem export_follows_drain
    (datetime T : Type) (strptime : string -> string -> option datetime)
    (timestamp : datetime -> T) (fuel : nat) (name stype : string)
    (g : Generator) (w w' : World) (ms : list (dict json)) (e : Ending) :
  drain fuel g w = Some (map JObj ms, e, w') ->
  let events := map (event_for strptime timestamp name stype) ms in
  Exporter.export_loop datetime T strptime timestamp fuel name stype g w
  = Some (events, ending_error e, w')
  /\ List.length events = List.length ms
  /\ (forall j m, nth_error ms j = Some m ->
                  exists ev,
                    nth_error events j = Some ev
                    /\ Exporter.data ev = json_dumps false (JObj m)
                    /\ Exporter.stanza ev = name
                    /\ Exporter.sourcetype ev = stype
                    /\ Exporter.time ev
                       = Inventory._guess_event_time datetime T strptime
                                                     timestamp m
                    /\ (forall s, Exporter.host ev = Some s
                                  <-> dict_get "name" m = Some (JStr s))).
Proof.
  intros Hd events. split; [| split].
  - apply export_follows_drain_from. assumption.
  - unfold events. apply length_map.
  - intros j m Hm. exists (event_for strptime timestamp name stype m).
    split; [unfold events; apply map_nth_error; assumption |].
    repeat split; unfold event_for, get; simpl.
    + destruct (dict_get "name" m) as [[ | | | | | | ] |]; try discriminate.
      intros H; inversion H; reflexivity.
    + intros H; rewrite H. reflexivity.
Qed.

Lemma export_follows_drain_witness :
  let ms := [[("name", JStr "sw1");
              ("last_updated", JStr "2024-01-02T03:04:05.123456+00:00")];
             [("name", JInt 7); ("created", JStr "yesterday")]] in
  let events := map (event_for Reference.strptime Reference.timestamp
                       "devices" "netbox:dcim_devices") ms in
  Exporter.export_loop _ _ Reference.strptime Reference.timestamp 3
    "devices" "netbox:dcim_devices"
    (iter_resource Sample.client "dcim/devices" None)
    (Sample.fresh [Sample.json_reply (JList (map JObj ms))])
  = Some (events, None,
          {| pending := [];
             sent := [request_for Sample.client "dcim/devices" (Some [])] |})
  /\ List.length events = 2
  /\ (forall j m, nth_error ms j = Some m ->
                  exists ev,
                    nth_error events j = Some ev
                    /\ Exporter.data ev = json_dumps false (JObj m)
                    /\ Exporter.stanza ev = "devices"
                    /\ Exporter.sourcetype ev = "netbox:dcim_devices"
                    /\ Exporter.time ev
                       = Inventory._guess_event_time _ _ Reference.strptime
                                                     Reference.timestamp m
                    /\ (forall s, Exporter.host ev = Some s
                                  <-> dict_get "name" m = Some (JStr s))).
Proof.
  exact (export_follows_drain _ _ Reference.strptime Reference.timestamp 3
           "devices" "netbox:dcim_devices"
           (iter_resource Sample.client "dcim/devices" None)
           (Sample.fresh
              [Sample.json_reply
                 (JList (map JObj
                    [[("name", JStr "sw1");
                      ("last_updated",
                       JStr "2024-01-02T03:04:05.123456+00:00")];
                     [("name", JInt 7); ("created", JStr "yesterday")]]))])
           {| pending := [];
              sent := [request_for Sample.client "dcim/devices" (Some [])] |}
           [[("name", JStr "sw1");
             ("last_updated", JStr "2024-01-02T03:04:05.123456+00:00")];
            [("name", JInt 7); ("created", JStr "yesterday")]]
           Exhausted eq_refl).
Defined.

(** White space around a time text does not matter: stripping the text of
    every string value of a record leaves the time that [_guess_event_time]
    reads from it unchanged. *)
Theorem guess_event_time_ignores_white_space
    (datetime T : Type) (strptime : string -> string -> option datetime)
    (timestamp : datetime -> T) (payload : dict json) :
  Inventory._guess_event_time datetime T strptime timestamp
                              (strip_values payload)
  = Inventory._guess_event_time datetime T strptime timestamp payload.
Proof.
  unfold Inventory._guess_event_time.
  generalize ["last_updated"; "last_update"; "created"].
  intros ks. induction ks as [| key ks IH]; [reflexivity |].
  simpl. rewrite strip_values_get, IH.
  destruct (get key payload); try reflexivity.
  rewrite strip_idem. reflexivity.
Qed.

Section StanzaFacts.

Variable json_loads : string -> option json.
Variables datetime T : Type.
Variable strptime : string -> string -> option datetime.
Variable timestamp : datetime -> T.

Lemma validate_input_inv (parameters : dict string) :
  Exporter.validate_input json_loads parameters = inr tt ->
  exists resource query timeout_seconds,
    dict_get "resource" parameters = Some resource
    /\ resource <> EmptyString
    /\ Exporter.starts_with_slash resource = false
    /\ Inventory._parse_json json_loads (dict_get "query" parameters)
       = inr query
    /\ match dict_get "timeout" parameters with
       | None => Some 60%Z
       | Some t => if String.eqb t EmptyString then Some 60%Z
                   else Lookup.py_int t
       end = Some timeout_seconds.
Proof.
  unfold Exporter.validate_input.
  destruct (dict_get "resource" parameters) as [resource |]; [| discriminate].
  destruct (String.eqb_spec resource EmptyString) as [He | Hne];
    [discriminate |].
  destruct (Exporter.starts_with_slash resource) eqn:Hslash; [discriminate |].
  destruct (Inventory._parse_json json_loads (dict_get "query" parameters))
    as [e | query]; [discriminate |].
  intros H.
  assert (exists t, match dict_get "timeout" parameters with
                    | None => Some 60%Z
                    | Some t => if String.eqb t EmptyString then Some 60%Z
                                else Lookup.py_int t
                    end = Some t) as [t Ht].
  { destruct (dict_get "timeout" parameters) as [t |]; [| eauto].
    destruct (String.eqb t EmptyString); [eauto |].
    destruct (Lookup.py_int t); [eauto | discriminate]. }
  exists resource, query, t. repeat split; assumption.
Qed.

Lemma drain_pages (self : NetBoxClient) (resource : string)
    (params : option (dict string)) (replies : list Reply)
    (itemss : list (list json)) (cursors : list string) (fuel : nat) :
  page_chain replies itemss cursors ->
  List.length (List.concat itemss) < fuel ->
  drain fuel (iter_resource self resource params)
        {| pending := replies; sent := [] |}
  = Some (List.concat itemss, Exhausted,
          {| pending := [];
             sent := request_for self resource (Some (params_or_empty params))
                       :: map (fun c => request_for self c None) cursors |}).
Proof.
  intros Hchain Hfuel. destruct fuel as [| fuel]; [lia |].
  rewrite drain_unfold, next_at_start by reflexivity.
  apply drain_after_mono with (fuel := List.length (List.concat itemss));
    [| lia].
  pose proof (drain_chain replies itemss cursors Hchain
                (iter_resource self resource params) JNull
                (Some (params_or_empty params)) resource [] [] eq_refl) as H.
  rewrite app_nil_r in H. exact H.
Qed.

End StanzaFacts.

(** A stanza that [validate_input] accepts and that has a base URL runs
    without a configuration error.  Over the pages of a collection of
    mappings it writes one event for each record, in order, under the source
    type [netbox:] followed by the resource with its slashes replaced, which
    holds no slash; its first request goes to the resource exactly as
    written, joined to the base URL with a slash at its end, with the
    stringified query as parameters and the certificate check that
    [_parse_bool] reads, and the other requests go to the cursors. *)
Theorem validated_stanza_exports_pages
    (json_loads : string -> option json) (datetime T : Type)
    (strptime : string -> string -> option datetime)
    (timestamp : datetime -> T) (fuel : nat) (name url : string)
    (stz : dict string) (replies : list Reply)
    (mss : list (list (dict json))) (cursors : list string) :
  Exporter.validate_input json_loads stz = inr tt ->
  dict_get "netbox_url" stz = Some url ->
  url <> EmptyString ->
  page_chain replies (map (map JObj) mss) cursors ->
  List.length (List.concat mss) < fuel ->
  exists resource query client,
    dict_get "resource" stz = Some resource
    /\ Inventory._parse_json json_loads (dict_get "query" stz) = inr query
    /\ base_url client = (if ends_with_slash url then url else url ++ "/")
    /\ verify client = Exporter._parse_bool (dict_get "verify_ssl" stz) true
    /\ contains_char "/"%char (Exporter.replace_slash resource) = false
    /\ Exporter.stream_stanza json_loads datetime T strptime timestamp
                              fuel name stz replies
       = Some (map (event_for strptime timestamp name
                      ("netbox:" ++ Exporter.replace_slash resource))
                   (List.concat mss),
               None,
               {| pending := [];
                  sent := {| req_method := "GET";
                             req_url := urljoin (base_url client) resource;
                             req_params := Some query;
                             req_timeout := Client.timeout client;
                             req_verify := verify client |}
                          :: map (fun c => request_for client c None) cursors |}).
Proof.
  intros Hvalid Hurl Hne Hchain Hfuel.
  destruct (validate_input_inv json_loads stz Hvalid)
    as (resource & query & tmo & Hres & Hresne & Hslash & Hquery & Htmo).
  unfold Exporter.stream_stanza. rewrite Hquery, Htmo, Hurl, Hres.
  unfold NetBoxClient_init.
  destruct (String.eqb_spec url EmptyString) as [He | _]; [contradiction |].
  exists resource, query,
    {| base_url := if ends_with_slash url then url else url ++ "/";
       Client.token := match dict_get "token" stz with
                       | Some t => if String.eqb t EmptyString then None
                                   else Some t
                       | None => None
                       end;
       verify := Exporter._parse_bool (dict_get "verify_ssl" stz) true;
       Client.timeout := tmo |}.
  split; [reflexivity |]. split; [reflexivity |].
  split; [reflexivity |]. split; [reflexivity |].
  split; [apply replace_slash_no_slash |].
  match goal with
  | |- Exporter.export_loop _ _ _ _ _ _ _ (iter_resource ?c _ _) _ = _ =>
      pose proof (drain_pages c resource (Some query) replies
                    (map (map JObj) mss) cursors fuel Hchain) as Hd
  end.
  rewrite <- concat_map, length_map in Hd. specialize (Hd Hfuel).
  rewrite (export_follows_drain_from datetime T strptime timestamp fuel name _
             _ _ _ _ _ Hd).
  unfold request_for at 1. rewrite (lstrip_slash_fixed resource Hslash).
  reflexivity.
Qed.

Lemma sample_input_chain :
  page_chain SampleInput.replies (map (map JObj) SampleInput.records)
             [Sample.cursor].
Proof.
  apply chain_more; [reflexivity | discriminate |].
  apply chain_last with (next_url := JNull); reflexivity.
Defined.

Lemma validated_stanza_exports_pages_witness :
  exists resource query client,
    dict_get "resource" SampleInput.stanza = Some resource
    /\ Inventory._parse_json Reference.loads
         (dict_get "query" SampleInput.stanza) = inr query
    /\ base_url client = "https://netbox.example.com/api/"
    /\ verify client = false
    /\ contains_char "/"%char (Exporter.replace_slash resource) = false
    /\ Exporter.stream_stanza Reference.loads _ _ Reference.strptime
         Reference.timestamp 4 "devices" SampleInput.stanza SampleInput.replies
       = Some (map (event_for Reference.strptime Reference.timestamp "devices"
                      ("netbox:" ++ Exporter.replace_slash resource))
                   (List.concat SampleInput.records),
               None,
               {| pending := [];
                  sent := {| req_method := "GET";
                             req_url := urljoin (base_url client) resource;
                             req_params := Some query;
                             req_timeout := Client.timeout client;
                             req_verify := verify client |}
                          :: map (fun c => request_for client c None)
                                 [Sample.cursor] |}).
Proof.
  exact (validated_stanza_exports_pages Reference.loads _ _ Reference.strptime
           Reference.timestamp 4 "devices" "https://netbox.example.com/api"
           SampleInput.stanza SampleInput.replies SampleInput.records
           [Sample.cursor] eq_refl eq_refl ltac:(discriminate)
           sample_input_chain (le_n 4)).
Defined.

(** [validate_input] does not look at the base URL: a stanza that it
    accepts and that has no base URL, or an empty one, fails when it is run,
    with the configuration error of the client, before any request is sent
    and any event written. *)
Theorem validated_stanza_without_url_fails_early
    (json_loads : string -> option json) (datetime T : Type)
    (strptime : string -> string -> option datetime)
    (timestamp : datetime -> T) (fuel : nat) (name : string)
    (stz : dict string) (replies : list Reply) :
  Exporter.validate_input json_loads stz = inr tt ->
  dict_get "netbox_url" stz = None
  \/ dict_get "netbox_url" stz = Some EmptyString ->
  Exporter.stream_stanza json_loads datetime T strptime timestamp
                         fuel name stz replies
  = Some ([], Some (ValueError "NetBox base URL must be provided"),
          {| pending := replies; sent := [] |}).
Proof.
  intros Hvalid Hurl.
  destruct (validate_input_inv json_loads stz Hvalid)
    as (resource & query & tmo & Hres & Hresne & Hslash & Hquery & Htmo).
  unfold Exporter.stream_stanza. rewrite Hquery, Htmo.
  destruct Hurl as [-> | ->]; reflexivity.
Qed.

Lemma validated_stanza_without_url_fails_early_witness :
  Exporter.stream_stanza Reference.loads _ _ Reference.strptime
    Reference.timestamp 4 "devices" SampleInput.stanza_without_url
    SampleInput.replies
  = Some ([], Some (ValueError "NetBox base URL must be provided"),
          {| pending := SampleInput.replies; sent := [] |}).
Proof.
  exact (validated_stanza_without_url_fails_early Reference.loads _ _
           Reference.strptime Reference.timestamp 4 "devices"
           SampleInput.stanza_without_url SampleInput.replies eq_refl
           (or_introl eq_refl)).
Defined.

Section ParameterFacts.

Lemma loop_body_state (g : Generator)
    (again : json -> option (dict string) -> World
             -> option (GenResult * Generator * World))
    (next_url : json) (current_params : option (dict string)) (w : World) :
  (forall nu cp w1 r g' w', again nu cp w1 = Some (r, g', w') ->
                            gen_at g' <> AtStart) ->
  forall r g' w',
    loop_body g again next_url current_params w = Some (r, g', w') ->
    gen_at g' <> AtStart.
Proof.
  intros Hagain r g' w'. unfold loop_body.
  destruct (_request (gen_self g) "GET" (py_or next_url (JStr (gen_resource g)))
              (if negb (py_truthy next_url) then current_params else None) w)
    as [[e | response] w1].
  - intros H; inversion H; subst. discriminate.
  - destruct (json_body response) as [[ | | | | | items | data] |];
      try (intros H; inversion H; subst; discriminate).
    + unfold for_list. destruct items; intros H; inversion H; subst;
        discriminate.
    + destruct (dict_mem "results" data && dict_mem "next" data);
        [| intros H; inversion H; subst; discriminate].
      destruct (py_iter (get "results" data)) as [e | items];
        [intros H; inversion H; subst; discriminate |].
      unfold for_results, after_results.
      destruct items; [| intros H; inversion H; subst; discriminate].
      destruct (negb (py_truthy (get "next" data)));
        [intros H; inversion H; subst; discriminate |].
      apply Hagain.
Qed.

Lemma iter_loop_state (g : Generator) (fuel : nat) :
  forall nu cp w r g' w',
    iter_loop fuel g nu cp w = Some (r, g', w') -> gen_at g' <> AtStart.
Proof.
  induction fuel as [| fuel IH]; intros nu cp w r g' w' H; [discriminate |].
  simpl in H. exact (loop_body_state g (iter_loop fuel g) nu cp w IH r g' w' H).
Qed.

(** What [next] adds to the log once the generator has started. *)
Lemma next_later_log (g : Generator) (w : World) :
  gen_at g <> AtStart ->
  forall r g' w',
    next g w = (r, g', w') ->
    gen_at g' <> AtStart
    /\ exists more, sent w' = (sent w ++ more)%list /\ bare more.
Proof.
  intros Hat r g' w' H.
  assert (Hsame : forall x, (x, w) = (r, g', w') ->
            exists more, sent w' = (sent w ++ more)%list /\ bare more).
  { intros x Hx; inversion Hx; subst. exists []. rewrite app_nil_r.
    split; [reflexivity | constructor]. }
  destruct (gen_at g) as [| rest data | items | |] eqn:E.
  - contradiction.
  - destruct rest as [| item rest].
    + rewrite (next_at_results_nil g w data E) in H.
      destruct (py_truthy (get "next" data)) eqn:Htrue.
      * pose proof (iter_loop_enough g (S (List.length (pending w)))
                      (get "next" data) None w (Nat.lt_succ_diag_r _)) as Hf.
        rewrite H in Hf. split.
        -- exact (iter_loop_state g _ _ _ _ _ _ _ Hf).
        -- exact (iter_loop_later_log g _ _ _ _ _ _ Htrue Hf).
      * split; [inversion H; subst; discriminate | exact (Hsame _ H)].
    + rewrite (next_at_results_cons g w item rest data E) in H.
      split; [inversion H; subst; discriminate | exact (Hsame _ H)].
  - rewrite (next_at_list g w items E) in H. destruct items;
      (split; [inversion H; subst; discriminate | exact (Hsame _ H)]).
  - unfold next in H. rewrite E in H.
    split; [inversion H; subst; discriminate | exact (Hsame _ H)].
  - unfold next in H. rewrite E in H.
    split; [inversion H; subst; rewrite E; discriminate | exact (Hsame _ H)].
Qed.

Lemma drain_later_log (fuel : nat) :
  forall (g : Generator) (w w' : World) (items : list json) (e : Ending),
    gen_at g <> AtStart ->
    drain fuel g w = Some (items, e, w') ->
    exists more, sent w' = (sent w ++ more)%list /\ bare more.
Proof.
  induction fuel as [| fuel IH]; intros g w w' items e Hat Hd; [discriminate |].
  simpl in Hd.
  destruct (next g w) as [[r g1] w1] eqn:Hnext.
  destruct (next_later_log g w Hat r g1 w1 Hnext) as (Hat1 & more & Hlog & Hbare).
  destruct r as [item | | err].
  - destruct (drain fuel g1 w1) as [[[items1 e1] w2] |] eqn:Hd1;
      [| discriminate].
    inversion Hd; subst.
    destruct (IH g1 w1 w' items1 e Hat1 Hd1) as (more1 & Hlog1 & Hbare1).
    exists (more ++ more1)%list. rewrite Hlog1, Hlog, <- app_assoc.
    split; [reflexivity | apply Forall_app; split; assumption].
  - inversion Hd; subst. exists more. split; assumption.
  - inversion Hd; subst. exists more. split; assumption.
Qed.

End ParameterFacts.

(** The parameters of the caller go out once: whatever the server replies,
    an enumeration consumed to its end or to its failure has sent first the
    request for the resource with the parameters of the caller, and after it
    only requests that carry no parameters. *)
Theorem iter_resource_sends_parameters_once
    (self : NetBoxClient) (resource : string) (params : option (dict string))
    (w w' : World) (fuel : nat) (items : list json) (e : Ending) :
  drain fuel (iter_resource self resource params) w = Some (items, e, w') ->
  exists more,
    sent w' = (sent w ++ request_for self resource
                           (Some (params_or_empty params)) :: more)%list
    /\ Forall (fun rq => req_params rq = None) more.
Proof.
  intros Hd. destruct fuel as [| fuel]; [discriminate |].
  simpl in Hd.
  destruct (next (iter_resource self resource params) w) as [[r g1] w1] eqn:Hn.
  assert (Hfirst : gen_at g1 <> AtStart
                   /\ exists more,
                        sent w1 = (sent w ++ request_for self resource
                                     (Some (params_or_empty params)) :: more)%list
                        /\ bare more).
  { rewrite next_at_start in Hn by reflexivity.
    pose proof (iter_loop_enough (iter_resource self resource params)
                  (S (List.length (pending w))) JNull
                  (Some (params_or_empty params)) w (Nat.lt_succ_diag_r _))
      as Hf.
    change (gen_params (iter_resource self resource params)) with params in Hn.
    rewrite Hn in Hf. split; [exact (iter_loop_state _ _ _ _ _ _ _ _ Hf) |].
    simpl in Hf.
    destruct (loop_body_log _ _ JNull _ w
                (iter_loop_later_log (iter_resource self resource params)
                                     (List.length (pending w))) r g1 w1 Hf)
      as [(p & more & Hp & Hlog & Hbare) | [Hp _]].
    - exists more. unfold py_or in Hp. simpl in Hp. inversion Hp; subst p.
      split; assumption.
    - exfalso. apply (Hp resource). reflexivity. }
  destruct Hfirst as (Hat1 & more & Hlog & Hbare).
  destruct r as [item | | err].
  - destruct (drain fuel g1 w1) as [[[items1 e1] w2] |] eqn:Hd1;
      [| discriminate].
    inversion Hd; subst.
    destruct (drain_later_log fuel g1 w1 w' items1 e Hat1 Hd1)
      as (more1 & Hlog1 & Hbare1).
    exists (more ++ more1)%list. rewrite Hlog1, Hlog, <- app_assoc.
    split; [reflexivity | apply Forall_app; split; assumption].
  - inversion Hd; subst. exists more. split; assumption.
  - inversion Hd; subst. exists more. split; assumption.
Qed.

Lemma iter_resource_sends_parameters_once_witness :
  exists more,
    [request_for Sample.client "dcim/devices" (Some [("site", "nyc")]);
     request_for Sample.client Sample.cursor None]
    = ([] ++ request_for Sample.client "dcim/devices"
                (Some (params_or_empty (Some [("site", "nyc")]))) :: more)%list
    /\ Forall (fun rq => req_params rq = None) more.
Proof.
  exact (iter_resource_sends_parameters_once Sample.client "dcim/devices"
           (Some [("site", "nyc")]) (Sample.fresh Sample.two_pages)
           {| pending := [];
              sent := [request_for Sample.client "dcim/devices"
                         (Some [("site", "nyc")]);
                       request_for Sample.client Sample.cursor None] |}
           4 [Sample.sw1; Sample.sw2; Sample.sw3] Exhausted eq_refl).
Defined.

(** A look-up that fails ends the run of the enrichment: when the records
    before the first one with a true match value are followed by one whose
    look-up meets a reply that makes the request fail, the run yields the
    records before it, ends with that exception, has sent the one look-up
    request, and has cached nothing for the value. *)
Theorem stream_lookup_failure_is_terminal
    (json_loads : string -> option json) (self : Lookup.NetBoxLookupCommand)
    (before after : list (dict json)) (r : dict json)
    (bad : Reply) (extra : list Reply) (err : exn)
    (client : NetBoxClient) (base_filters : dict string) :
  Lookup._get_client self = inr client ->
  Lookup._base_filters json_loads self = inr base_filters ->
  Forall (fun r => py_truthy (match_value self r) = false) before ->
  py_truthy (match_value self r) = true ->
  failure_of bad = Some err ->
  Lookup.stream json_loads self (before ++ r :: after)%list (bad :: extra)
  = {| Lookup.outputs := before; Lookup.error := Some err; Lookup.cache := [];
       Lookup.world :=
         {| pending := extra;
            sent := [request_for client (Lookup.resource self)
                       (Some (dict_set (Lookup.netbox_field self)
                                (cache_key_of self r) base_filters))] |} |}.
Proof.
  intros Hclient Hfilters Hbefore Htrue Hbad. unfold Lookup.stream.
  rewrite Hclient, Hfilters.
  induction Hbefore as [| r0 before Hr0 _ IH].
  - simpl. unfold match_value in Htrue. rewrite Htrue. simpl.
    unfold Lookup.lookup. simpl. unfold get_first.
    rewrite next_at_start by reflexivity.
    rewrite (failure_ends_fetch
               (iter_resource client (Lookup.resource self)
                  (Some (dict_set (Lookup.netbox_field self)
                           (py_str (get (Lookup.match_field self) r))
                           base_filters)))
               JNull _ bad err extra [] (Lookup.resource self) eq_refl Hbad).
    reflexivity.
  - simpl. unfold match_value in Hr0. rewrite Hr0. simpl.
    rewrite IH. reflexivity.
Qed.

Lemma stream_lookup_failure_is_terminal_witness :
  Lookup.stream Reference.loads Sample.command
    ([Sample.event EmptyString] ++ Sample.event "sw1" :: [Sample.event "sw2"])%list
    (inr (Sample.text_response 401 "denied") :: [Sample.page [Sample.sw2] JNull])
  = {| Lookup.outputs := [Sample.event EmptyString];
       Lookup.error := Some (ApiError "NetBox API request failed with status 401"
                                      (Some 401%Z) (JObj []));
       Lookup.cache := [];
       Lookup.world :=
         {| pending := [Sample.page [Sample.sw2] JNull];
            sent := [request_for Sample.client "dcim/devices"
                       (Some [("name", "sw1")])] |} |}.
Proof.
  exact (stream_lookup_failure_is_terminal Reference.loads Sample.command
           [Sample.event EmptyString] [Sample.event "sw2"] (Sample.event "sw1")
           (inr (Sample.text_response 401 "denied"))
           [Sample.page [Sample.sw2] JNull] _ Sample.client []
           eq_refl eq_refl (Forall_cons (Sample.event EmptyString) eq_refl
                              (Forall_nil _))
           eq_refl eq_refl).
Defined.
